(** * Schedule subsystem of mailmerge_cli/cli.py

    A shallow embedding of the scheduling code of [src/mailmerge_cli/cli.py]:
    the cron matcher and next-run search, the persisted due-time state
    machine, the schedule normalizer, the launchd/systemd converters and the
    crontab remover.

    Python's [datetime] is modelled the way CPython stores it: a naive
    datetime is its offset in microseconds from 0001-01-01T00:00:00, within
    [0, MAXT] (year 1 to 9999); leaving that range raises [OverflowError].
    Calendar fields are obtained with CPython's [_ord2ymd]/[_ymd2ord]. *)

From Stdlib Require Import ZArith String Ascii List Bool Lia.
Import ListNotations.

Open Scope Z_scope.

(** ** Python exceptions and results *)

Inductive py_error :=
| ValueError (msg : string)
| RuntimeError (msg : string)
| OverflowError
| TypeError
| AttributeError
| NotImplementedError (msg : string).

Inductive result (A : Type) :=
| Ok (a : A)
| Err (e : py_error).
Arguments Ok {A} a.
Arguments Err {A} e.

Definition bind {A B} (m : result A) (k : A -> result B) : result B :=
  match m with
  | Ok a => k a
  | Err e => Err e
  end.

Notation "'let*' x ':=' m 'in' k" := (bind m (fun x => k))
  (at level 200, x name, m at level 100, k at level 200).

(** ** Strings: the parts of [str] the code uses (ASCII) *)

(** [str.isspace] on ASCII: \t \n \v \f \r, the separators \x1c-\x1f and space. *)
Definition is_ws (c : ascii) : bool :=
  let n := nat_of_ascii c in
  ((9 <=? n) && (n <=? 13))%nat || ((28 <=? n) && (n <=? 32))%nat.

Fixpoint lstrip_l (l : list ascii) : list ascii :=
  match l with
  | c :: l' => if is_ws c then lstrip_l l' else l
  | [] => []
  end.

(** [str.strip()] *)
Definition strip (s : string) : string :=
  string_of_list_ascii
    (rev (lstrip_l (rev (lstrip_l (list_ascii_of_string s))))).

Fixpoint split_go (s cur : string) : list string :=
  match s with
  | EmptyString =>
      match cur with EmptyString => [] | _ => [cur] end
  | String c s' =>
      if is_ws c then
        match cur with
        | EmptyString => split_go s' EmptyString
        | _ => cur :: split_go s' EmptyString
        end
      else split_go s' (append cur (String c EmptyString))
  end.

(** [str.split()] with no separator: runs of whitespace separate fields. *)
Definition split_ws (s : string) : list string := split_go s EmptyString.

Definition startswith (s p : string) : bool := String.prefix p s.

Definition is_digit (c : ascii) : bool :=
  let n := nat_of_ascii c in ((48 <=? n) && (n <=? 57))%nat.

Definition digit_val (c : ascii) : Z := Z.of_nat (nat_of_ascii c) - 48.

Definition digit_of (n : Z) : ascii := ascii_of_nat (Z.to_nat (48 + n)).

(** [str.isdigit()] (ASCII digits): non-empty and only digits. *)
Definition isdigit (s : string) : bool :=
  match s with
  | EmptyString => false
  | _ => forallb is_digit (list_ascii_of_string s)
  end.

(** Digits with single underscores between them, as [int()] accepts. *)
Fixpoint int_digits (acc : Z) (prev_us : bool) (l : list ascii) : option Z :=
  match l with
  | [] => if prev_us then None else Some acc
  | c :: l' =>
      if Ascii.eqb c "_"%char then
        if prev_us then None else int_digits acc true l'
      else if is_digit c then int_digits (acc * 10 + digit_val c) false l'
      else None
  end.

Definition int_unsigned (l : list ascii) : option Z :=
  match l with
  | c :: l' => if is_digit c then int_digits (digit_val c) false l' else None
  | [] => None
  end.

(** [int(s)] on a [str]: surrounding whitespace, an optional sign, then
    decimal digits; [None] is the [ValueError]. *)
Definition py_int (s : string) : option Z :=
  match list_ascii_of_string (strip s) with
  | "+"%char :: l => int_unsigned l
  | "-"%char :: l => option_map Z.opp (int_unsigned l)
  | l => int_unsigned l
  end.

(** Decimal rendering of a non-negative integer, [f"{n}"]. *)
Fixpoint digits_fixed (k : nat) (n : Z) : list ascii :=
  match k with
  | O => []
  | S k' => digit_of ((n / 10 ^ Z.of_nat k') mod 10) :: digits_fixed k' n
  end.

Fixpoint num_digits_go (fuel : nat) (n : Z) : nat :=
  match fuel with
  | O => 1%nat
  | S f => if n <? 10 then 1%nat else S (num_digits_go f (n / 10))
  end.

Definition num_digits (n : Z) : nat := num_digits_go (Z.to_nat (Z.log2_up (n + 2))) n.

Definition str_of_Z (n : Z) : string :=
  if n <? 0 then String "-" (string_of_list_ascii (digits_fixed (num_digits (- n)) (- n)))
  else string_of_list_ascii (digits_fixed (num_digits n) n).

(** [f"{n:0kd}"] for [0 <= n < 10^k]. *)
Definition pad (k : nat) (n : Z) : string := string_of_list_ascii (digits_fixed k n).

(** ** Python's datetime *)

Definition US_PER_MIN : Z := 60000000.
Definition US_PER_HOUR : Z := 3600000000.
Definition US_PER_DAY : Z := 86400000000.

(** Ordinal of 9999-12-31, and the largest datetime. *)
Definition MAX_ORDINAL : Z := 3652059.
Definition MAXT : Z := MAX_ORDINAL * US_PER_DAY - 1.

(** [dt + timedelta(microseconds=delta)] *)
Definition dt_add (t delta : Z) : result Z :=
  let r := t + delta in
  if (0 <=? r) && (r <=? MAXT) then Ok r else Err OverflowError.

(** [dt.replace(second=0, microsecond=0)] *)
Definition trunc_minute (t : Z) : Z := t - t mod US_PER_MIN.

Definition is_leap (y : Z) : bool :=
  (y mod 4 =? 0) && (negb (y mod 100 =? 0) || (y mod 400 =? 0)).

(** [_DAYS_IN_MONTH] and [_DAYS_BEFORE_MONTH] for months 1..12. *)
Definition days_in_month_tbl (m : Z) : Z :=
  match m with
  | 1 => 31 | 2 => 28 | 3 => 31 | 4 => 30 | 5 => 31 | 6 => 30
  | 7 => 31 | 8 => 31 | 9 => 30 | 10 => 31 | 11 => 30 | 12 => 31
  | _ => -1
  end.

Definition days_before_month_tbl (m : Z) : Z :=
  match m with
  | 1 => 0 | 2 => 31 | 3 => 59 | 4 => 90 | 5 => 120 | 6 => 151
  | 7 => 181 | 8 => 212 | 9 => 243 | 10 => 273 | 11 => 304 | 12 => 334
  | _ => -1
  end.

Definition days_in_month (y m : Z) : Z :=
  if (m =? 2) && is_leap y then 29 else days_in_month_tbl m.

Definition days_before_year (y : Z) : Z :=
  let y := y - 1 in y * 365 + y / 4 - y / 100 + y / 400.

Definition days_before_month (y m : Z) : Z :=
  days_before_month_tbl m + (if (m >? 2) && is_leap y then 1 else 0).

(** [_ymd2ord] *)
Definition ymd2ord (y m d : Z) : Z := days_before_year y + days_before_month y m + d.

(** The month lookup of [_ord2ymd]: [n] is the day within the year. *)
Definition ord2ymd_month_day (n : Z) (leapyear : bool) : Z * Z :=
  let month := Z.shiftr (n + 50) 5 in
  let preceding := days_before_month_tbl month
                   + (if (month >? 2) && leapyear then 1 else 0) in
  let '(month, preceding) :=
    if preceding >? n then
      let month := month - 1 in
      (month, preceding - (days_in_month_tbl month
                           + (if (month =? 2) && leapyear then 1 else 0)))
    else (month, preceding) in
  (month, n - preceding + 1).

(** [_ord2ymd] inside one 400-year cycle: [n] is the day within the cycle,
    the year counts from 1. *)
Definition ord2ymd_cycle (n : Z) : Z * Z * Z :=
  let n100 := n / 36524 in let n := n mod 36524 in
  let n4 := n / 1461 in let n := n mod 1461 in
  let n1 := n / 365 in let n := n mod 365 in
  let year := 1 + n100 * 100 + n4 * 4 + n1 in
  if (n1 =? 4) || (n100 =? 4) then (year - 1, 12, 31)
  else
    let leapyear := (n1 =? 3) && (negb (n4 =? 24) || (n100 =? 3)) in
    let '(month, day) := ord2ymd_month_day n leapyear in
    (year, month, day).

(** [_ord2ymd]: [n400, n = divmod(n - 1, _DI400Y)], then the cycle. *)
Definition ord2ymd (o : Z) : Z * Z * Z :=
  let n := o - 1 in
  let '(y, m, d) := ord2ymd_cycle (n mod 146097) in
  (n / 146097 * 400 + y, m, d).

Definition dt_ordinal (t : Z) : Z := t / US_PER_DAY + 1.
Definition dt_year (t : Z) : Z := fst (fst (ord2ymd (dt_ordinal t))).
Definition dt_month (t : Z) : Z := snd (fst (ord2ymd (dt_ordinal t))).
Definition dt_day (t : Z) : Z := snd (ord2ymd (dt_ordinal t)).
Definition dt_hour (t : Z) : Z := (t / US_PER_HOUR) mod 24.
Definition dt_minute (t : Z) : Z := (t / US_PER_MIN) mod 60.
Definition dt_second (t : Z) : Z := (t / 1000000) mod 60.
Definition dt_microsecond (t : Z) : Z := t mod 1000000.
(** [date.weekday()]: Monday is 0. *)
Definition dt_weekday (t : Z) : Z := (dt_ordinal t + 6) mod 7.

(** [datetime(y, m, d, hh, mm)] for valid arguments. *)
Definition mk_dt (y m d hh mm : Z) : Z :=
  (ymd2ord y m d - 1) * US_PER_DAY + hh * US_PER_HOUR + mm * US_PER_MIN.

(** ** Cron matching and the next-run search *)

Definition cron_fields : Type := option Z * option Z * option Z * option Z * option Z.

Definition cron_matches (dt_value : Z) (minute hour day month weekday : option Z) : bool :=
  if match minute with Some v => negb (dt_minute dt_value =? v) | None => false end then false else
  if match hour with Some v => negb (dt_hour dt_value =? v) | None => false end then false else
  if match month with Some v => negb (dt_month dt_value =? v) | None => false end then false else
  if match day with Some v => negb (dt_day dt_value =? v) | None => false end then false else
  match weekday with
  | Some v =>
      let cron_weekday := (dt_weekday dt_value + 1) mod 7 in
      let target := v mod 7 in
      if negb (cron_weekday =? target) then false else true
  | None => true
  end.

Definition parse_cron_value (value : string) : result (option Z) :=
  if String.eqb value "*" then Ok None
  else match py_int value with
       | Some n => Ok (Some n)
       | None => Err (ValueError "invalid literal for int() with base 10")
       end.

Definition parse_cron_spec (cron_spec : string) : result cron_fields :=
  match split_ws cron_spec with
  | [minute_s; hour_s; day_s; month_s; weekday_s] =>
      let* mi := parse_cron_value minute_s in
      let* h := parse_cron_value hour_s in
      let* d := parse_cron_value day_s in
      let* mo := parse_cron_value month_s in
      let* w := parse_cron_value weekday_s in
      Ok (mi, h, d, mo, w)
  | _ => Err (ValueError "wrong number of values to unpack (expected 5)")
  end.

Definition fields_match (f : cron_fields) (t : Z) : bool :=
  let '(mi, h, d, mo, w) := f in cron_matches t mi h d mo w.

Definition unable_msg (cron_spec : string) : string :=
  append "Unable to compute next run time for cron spec: " cron_spec.

(** The [while candidate <= limit] loop; [fuel] bounds the iterations and
    [next_run_time] gives it more than the loop can take. *)
Fixpoint next_run_loop (fuel : nat) (cron_spec : string) (f : cron_fields)
    (candidate limit : Z) : result Z :=
  match fuel with
  | O => Err (RuntimeError (unable_msg cron_spec))
  | S fuel' =>
      if candidate <=? limit then
        if fields_match f candidate then Ok candidate
        else
          let* candidate' := dt_add candidate US_PER_MIN in
          next_run_loop fuel' cron_spec f candidate' limit
      else Err (RuntimeError (unable_msg cron_spec))
  end.

Definition WINDOW : Z := 366 * US_PER_DAY.

Definition next_run_time (cron_spec : string) (start : Z) : result Z :=
  let* f := parse_cron_spec cron_spec in
  let* c := dt_add start US_PER_MIN in
  let candidate := trunc_minute c in
  let* limit := dt_add candidate WINDOW in
  next_run_loop (S (S (Z.to_nat ((limit - candidate) / US_PER_MIN))))
    cron_spec f candidate limit.

(** ** isoformat / fromisoformat *)

Definition iso_us (t : Z) : string :=
  let us := dt_microsecond t in
  if us =? 0 then EmptyString else String "." (pad 6 us).

(** [datetime.isoformat()] of a naive datetime. *)
Definition isoformat (t : Z) : string :=
  append (pad 4 (dt_year t)) (String "-" (append (pad 2 (dt_month t))
  (String "-" (append (pad 2 (dt_day t))
  (String "T" (append (pad 2 (dt_hour t))
  (String ":" (append (pad 2 (dt_minute t))
  (String ":" (append (pad 2 (dt_second t)) (iso_us t))))))))))).

(** A [tzinfo]: its object identity, [utcoffset] of a local wall time and
    the offset [fromutc] applies to a UTC time, both in microseconds. Two
    tzinfos with the same non-zero [tz_id] are the same object; [0] marks an
    object distinct from every other one. [UTC_ID] is [timezone.utc] and
    [PARSED_TZ_ID] the offset object that [fromisoformat] creates. *)
Record tzinfo := {
  tz_id : nat;
  tz_utcoffset : Z -> Z;
  tz_fromutc_offset : Z -> Z
}.

(** [datetime.timezone(timedelta(microseconds=off))] *)
Definition fixed_tz (off : Z) : tzinfo :=
  {| tz_id := 0; tz_utcoffset := fun _ => off; tz_fromutc_offset := fun _ => off |}.

Definition UTC_ID : nat := 1.
Definition PARSED_TZ_ID : nat := 2.

(** [timezone.utc] *)
Definition utc : tzinfo :=
  {| tz_id := UTC_ID; tz_utcoffset := fun _ => 0; tz_fromutc_offset := fun _ => 0 |}.

(** The [tzinfo] of a parsed [+HH:MM] suffix: [timezone.utc] itself for a
    zero offset, otherwise a new [timezone] object. *)
Definition parsed_tz (off : Z) : tzinfo :=
  if off =? 0 then utc
  else {| tz_id := PARSED_TZ_ID; tz_utcoffset := fun _ => off; tz_fromutc_offset := fun _ => off |}.

(** [tz is other] *)
Definition same_tz (a b : tzinfo) : bool :=
  negb (Nat.eqb (tz_id a) 0) && Nat.eqb (tz_id a) (tz_id b).

(** A datetime: local wall time in microseconds and its [tzinfo]. *)
Record pydatetime := { dt_us : Z; dt_tz : option tzinfo }.

(** CPython's [datetime.fromisoformat] and [time.fromisoformat] as its C
    implementation ([Modules/_datetimemodule.c] of CPython 3.11) performs
    them, on the UTF-8 buffer of the string. [char_at b i] is the byte at
    index [i] of the buffer, which ends in a NUL byte; the C code reads that
    NUL, and the time parser reads past a logical end into the rest of the
    buffer. A [None] result is the [ValueError]. *)
Definition char_at (b : list ascii) (i : nat) : ascii := nth i b "000"%char.

(** [parse_digits(ptr, var, num_digits)]: the position after the digits and
    the accumulated value, or [NULL] at a non-digit. *)
Fixpoint parse_digits (b : list ascii) (p : nat) (var : Z) (num_digits : nat) : option (nat * Z) :=
  match num_digits with
  | O => Some (p, var)
  | S n =>
      let c := char_at b p in
      if is_digit c then parse_digits b (S p) (var * 10 + digit_val c) n else None
  end.

(** The number of digits that a loop skipping digits steps over. *)
Fixpoint count_digits (l : list ascii) : nat :=
  match l with
  | c :: l' => if is_digit c then S (count_digits l') else O
  | [] => O
  end.

(** [_find_isoformat_datetime_separator(dtstr, len)], called with
    [len >= 7]; [None] is its [-1]. *)
Definition find_isoformat_datetime_separator (b : list ascii) (len : nat) : option nat :=
  if Nat.eqb len 7 then Some 7%nat
  else if Ascii.eqb (char_at b 4) "-" then
    if Ascii.eqb (char_at b 5) "W" then
      if Nat.ltb len 8 then None
      else if Nat.ltb 8 len && Ascii.eqb (char_at b 8) "-" then
        if Nat.eqb len 9 then None
        else if Nat.ltb 10 len && is_digit (char_at b 10) then Some 8%nat
        else Some 10%nat
      else Some 8%nat
    else Some 10%nat
  else if Ascii.eqb (char_at b 4) "W" then
    let idx := (7 + count_digits (skipn 7 (firstn len b)))%nat in
    if Nat.ltb idx 9 then Some idx
    else if Nat.even idx then Some 7%nat else Some 8%nat
  else Some 8%nat.

(** [iso_week1_monday(year)] *)
Definition iso_week1_monday (year : Z) : Z :=
  let first_day := ymd2ord year 1 1 in
  let first_weekday := (first_day + 6) mod 7 in
  let week1_monday := first_day - first_weekday in
  if 3 <? first_weekday then week1_monday + 7 else week1_monday.

(** [iso_to_ymd(iso_year, iso_week, iso_day, ...)]. The C code computes with
    truncating division; for the years [1..9999] that [parse_digits] can give
    it agrees with [ymd2ord]/[ord2ymd], and for year [0] every date lands at an
    ordinal [<= 0], which CPython rejects ([month must be in 1..12]) and
    [ord2ymd] maps to a year [<= 0], rejected by the range check. *)
Definition iso_to_ymd (iso_year iso_week iso_day : Z) : option (Z * Z * Z) :=
  let week_ok :=
    if (iso_week <=? 0) || (53 <=? iso_week) then
      let first_weekday := (ymd2ord iso_year 1 1 + 6) mod 7 in
      (iso_week =? 53) && ((first_weekday =? 3) || (first_weekday =? 2) && is_leap iso_year)
    else true in
  if negb week_ok then None
  else if (iso_day <=? 0) || (8 <=? iso_day) then None
  else Some (ord2ymd (iso_week1_monday iso_year + ((iso_week - 1) * 7 + iso_day - 1))).

(** [parse_isoformat_date(dtstr, len, ...)]: [YYYY-MM-DD], [YYYYMMDD],
    [YYYY-Www[-D]] and [YYYYWww[D]]. *)
Definition parse_isoformat_date (b : list ascii) (len : nat) : option (Z * Z * Z) :=
  match parse_digits b 0 0 4 with
  | None => None
  | Some (p, year) =>
      let uses_separator := Ascii.eqb (char_at b p) "-" in
      let p := if uses_separator then S p else p in
      if Ascii.eqb (char_at b p) "W" then
        match parse_digits b (S p) 0 2 with
        | None => None
        | Some (p, iso_week) =>
            let iso_day :=
              if Nat.ltb p len then
                if uses_separator && negb (Ascii.eqb (char_at b p) "-") then None
                else
                  let p := if uses_separator then S p else p in
                  option_map snd (parse_digits b p 0 1)
              else Some 1 in
            match iso_day with
            | None => None
            | Some iso_day => iso_to_ymd year iso_week iso_day
            end
        end
      else
        match parse_digits b p 0 2 with
        | None => None
        | Some (p, month) =>
            if uses_separator && negb (Ascii.eqb (char_at b p) "-") then None
            else
              let p := if uses_separator then S p else p in
              match parse_digits b p 0 2 with
              | None => None
              | Some (_, day) => Some (year, month, day)
              end
        end
  end.

(** How the [HH[:?MM[:?SS]]] loop of [parse_hh_mm_ss_ff] ends: a [return]
    from inside it (with [c != '\0']), or a move on to the fraction at [p]. *)
Inductive hms_exit :=
| HmsReturn (not_end : bool)
| HmsFraction (p : nat).

(** The [for (i = 0; i < 3; ++i)] loop; [vals] are the components read. *)
Fixpoint hms_loop (b : list ascii) (p_end : nat) (n : nat) (first has_separator : bool)
    (p : nat) (vals : list Z) : option (hms_exit * list Z) :=
  match n with
  | O => Some (HmsFraction p, vals)
  | S n' =>
      match parse_digits b p 0 2 with
      | None => None
      | Some (p, v) =>
          let vals := (vals ++ [v])%list in
          let c := char_at b p in
          let p := S p in
          let has_separator := if first then Ascii.eqb c ":" else has_separator in
          if Nat.leb p_end p then Some (HmsReturn (negb (Ascii.eqb c "000")), vals)
          else if has_separator && Ascii.eqb c ":" then
            hms_loop b p_end n' false has_separator p vals
          else if Ascii.eqb c "." || Ascii.eqb c "," then Some (HmsFraction p, vals)
          else if negb has_separator then hms_loop b p_end n' false has_separator (pred p) vals
          else None
      end
  end.

(** [parse_hh_mm_ss_ff(tstr, tstr_end, ...)]: whether it returns [1] (not at
    the end of the buffer) and [((hour, minute), second), microsecond]. *)
Definition parse_hh_mm_ss_ff (b : list ascii) (p p_end : nat) : option (bool * (Z * Z * Z * Z)) :=
  match hms_loop b p_end 3 true true p [] with
  | None => None
  | Some (exit, vals) =>
      let hms := (nth 0 vals 0, nth 1 vals 0, nth 2 vals 0) in
      match exit with
      | HmsReturn not_end => Some (not_end, (hms, 0))
      | HmsFraction p =>
          let len_remains := (p_end - p)%nat in
          let to_parse := if Nat.leb 6 len_remains then 6%nat else len_remains in
          match parse_digits b p 0 to_parse with
          | None => None
          | Some (p, us) =>
              let us := if Nat.ltb to_parse 6 then us * 10 ^ (6 - Z.of_nat to_parse) else us in
              let p := (p + count_digits (skipn p b))%nat in
              Some (negb (Ascii.eqb (char_at b p) "000"), (hms, us))
          end
      end
  end.

(** The [do { ... } while (++tzinfo_pos < p_end)] search for [Z], [+] or
    [-]; [fuel] is the number of increments left. *)
Fixpoint find_tzinfo_pos (b : list ascii) (q : nat) (fuel : nat) : nat :=
  let c := char_at b q in
  if Ascii.eqb c "Z" || Ascii.eqb c "+" || Ascii.eqb c "-" then q
  else match fuel with
       | O => S q
       | S f => find_tzinfo_pos b (S q) f
       end.

(** [parse_isoformat_time(dtstr, dtlen, ...)]: the time components and, when
    there is an offset, [(tzoffset, tzmicrosecond)]. *)
Definition parse_isoformat_time (b : list ascii) (p dtlen : nat)
    : option (Z * Z * Z * Z * option (Z * Z)) :=
  let p_end := (p + dtlen)%nat in
  let tzinfo_pos := find_tzinfo_pos b p (p_end - S p) in
  match parse_hh_mm_ss_ff b p tzinfo_pos with
  | None => None
  | Some (not_end, comps) =>
      if Nat.eqb tzinfo_pos p_end then
        if not_end then None else Some (comps, None)
      else if Ascii.eqb (char_at b tzinfo_pos) "Z" then
        if Ascii.eqb (char_at b (S tzinfo_pos)) "000" then Some (comps, Some (0, 0)) else None
      else
        let tzsign := if Ascii.eqb (char_at b tzinfo_pos) "-" then -1 else 1 in
        match parse_hh_mm_ss_ff b (S tzinfo_pos) p_end with
        | Some (false, (tzh, tzm, tzs, tzus)) =>
            Some (comps, Some (tzsign * (tzh * 3600 + tzm * 60 + tzs), tzsign * tzus))
        | _ => None
        end
  end.

(** [tzinfo_from_isoformat_results]: no offset; [timezone.utc] when the
    offset's whole seconds are zero; otherwise [timezone(timedelta(...))],
    which must lie strictly within a day. *)
Definition tzinfo_from_isoformat_results (tz : option (Z * Z)) : option (option tzinfo) :=
  match tz with
  | None => Some None
  | Some (tzoffset, tzusec) =>
      if tzoffset =? 0 then Some (Some utc)
      else
        let off := tzoffset * 1000000 + tzusec in
        if (- US_PER_DAY <? off) && (off <? US_PER_DAY) then Some (Some (parsed_tz off)) else None
  end.

(** The range checks of the [date] and [time] constructors. *)
Definition check_date (year month day : Z) : bool :=
  (1 <=? year) && (year <=? 9999) && (1 <=? month) && (month <=? 12)
  && (1 <=? day) && (day <=? days_in_month year month).

Definition check_time (hour minute second us : Z) : bool :=
  (0 <=? hour) && (hour <=? 23) && (0 <=? minute) && (minute <=? 59)
  && (0 <=? second) && (second <=? 59) && (0 <=? us) && (us <=? 999999).

(** [datetime.fromisoformat(s)]. The date runs up to the separator, which
    may be any character; the time after it is parsed only when present.
    [_sanitize_isoformat_str] rejects strings shorter than 7 characters. A
    separator search giving [-1] leaves [parse_isoformat_date] reading the
    day digit at the terminating NUL, so it fails. *)
Definition datetime_fromisoformat (s : string) : option pydatetime :=
  let b := list_ascii_of_string s in
  let len := length b in
  if Nat.ltb len 7 then None
  else
    match find_isoformat_datetime_separator b len with
    | None => None
    | Some sep =>
        match parse_isoformat_date b sep with
        | None => None
        | Some (year, month, day) =>
            let time :=
              if Nat.ltb sep len then parse_isoformat_time b (S sep) (len - S sep)
              else Some (0, 0, 0, 0, None) in
            match time with
            | None => None
            | Some (hour, minute, second, us, tz) =>
                match tzinfo_from_isoformat_results tz with
                | None => None
                | Some tzi =>
                    if check_date year month day && check_time hour minute second us then
                      Some {| dt_us := (ymd2ord year month day - 1) * US_PER_DAY
                                       + hour * US_PER_HOUR + minute * US_PER_MIN
                                       + second * 1000000 + us;
                              dt_tz := tzi |}
                    else None
                end
            end
        end
    end.

(** [time.fromisoformat(s)]: one leading [T] is skipped; microseconds since
    midnight and the [tzinfo]. *)
Definition time_fromisoformat (s : string) : option (Z * option tzinfo) :=
  let b := list_ascii_of_string s in
  let '(p, len) :=
    if Ascii.eqb (char_at b 0) "T" then (1%nat, pred (length b)) else (0%nat, length b) in
  match parse_isoformat_time b p len with
  | None => None
  | Some (hour, minute, second, us, tz) =>
      match tzinfo_from_isoformat_results tz with
      | None => None
      | Some tzi =>
          if check_time hour minute second us then
            Some (hour * US_PER_HOUR + minute * US_PER_MIN + second * 1000000 + us, tzi)
          else None
      end
  end.

(** [dt.astimezone(tz)] of an aware datetime: the same object is returned
    when [tz] is its own [tzinfo]; otherwise through UTC. *)
Definition astimezone (dt : Z) (src dst : tzinfo) : result Z :=
  if same_tz src dst then Ok dt
  else
    let* utc := dt_add dt (- tz_utcoffset src dt) in
    dt_add utc (tz_fromutc_offset dst utc).

(** ** The schedule normalizer *)

Definition endswith_Z (s : string) : bool :=
  match rev (list_ascii_of_string s) with
  | "Z"%char :: _ => true
  | _ => false
  end.

Definition count_char (c : ascii) (s : string) : nat :=
  length (filter (fun x => Ascii.eqb x c) (list_ascii_of_string s)).

(** [s[:-1] + "+00:00"] when [s] ends in its only [Z]. *)
Definition rewrite_zulu (s : string) : string :=
  if endswith_Z s && Nat.eqb (count_char "Z"%char s) 1 then
    append (substring 0 (String.length s - 1) s) "+00:00"
  else s.

(** [ensure_datetime_timezone(dt_value, zone)] with a zone given: a naive
    value gets [zone] attached ([localize] or [replace(tzinfo=...)]), an
    aware one is converted with [astimezone]. *)
Definition ensure_datetime_timezone (dt_value : pydatetime) (zone : tzinfo) : result pydatetime :=
  match dt_tz dt_value with
  | Some tz0 =>
      let* v := astimezone (dt_us dt_value) tz0 zone in
      Ok {| dt_us := v; dt_tz := Some zone |}
  | None => Ok {| dt_us := dt_us dt_value; dt_tz := Some zone |}
  end.

(** [combine_time_with_timezone(date_value, time_value, zone)] *)
Definition combine_time_with_timezone (date_value tod : Z) (time_tz : option tzinfo)
    (zone : tzinfo) : result pydatetime :=
  match time_tz with
  | Some z => ensure_datetime_timezone {| dt_us := date_value + tod; dt_tz := None |} z
  | None => ensure_datetime_timezone {| dt_us := date_value + tod; dt_tz := None |} zone
  end.

Definition first_tz (a : option tzinfo) (b : option tzinfo) (c : tzinfo) : tzinfo :=
  match a with
  | Some z => z
  | None => match b with Some z => z | None => c end
  end.

Definition sp (a b : string) : string := append a (String " " b).

Definition drop_leading_T (s : string) : string :=
  match s with
  | String "T" s' => s'
  | _ => s
  end.

(** [convert_iso_to_cron(value, tz_hint, local_zone)]; [now_utc] is the
    current UTC time that [datetime.now(zone)] reads. *)
Definition convert_iso_to_cron (value : string) (tz_hint : option tzinfo)
    (local_zone : tzinfo) (now_utc : Z) : result (option string) :=
  let candidate := rewrite_zulu (strip value) in
  match datetime_fromisoformat candidate with
  | Some dt_value =>
      let source_zone := first_tz (dt_tz dt_value) tz_hint local_zone in
      let* dt_with_tz := ensure_datetime_timezone dt_value source_zone in
      let* dt_local := astimezone (dt_us dt_with_tz) source_zone local_zone in
      Ok (Some (sp (str_of_Z (dt_minute dt_local)) (sp (str_of_Z (dt_hour dt_local))
           (sp (str_of_Z (dt_day dt_local)) (sp (str_of_Z (dt_month dt_local)) "*")))))
  | None =>
      let time_candidate := rewrite_zulu (drop_leading_T (strip value)) in
      match time_fromisoformat time_candidate with
      | None => Ok None
      | Some (tod, time_tz) =>
          let source_zone := first_tz time_tz tz_hint local_zone in
          let* now_in_zone := dt_add now_utc (tz_fromutc_offset source_zone now_utc) in
          let reference_date := now_in_zone - now_in_zone mod US_PER_DAY in
          let* combined := combine_time_with_timezone reference_date tod time_tz source_zone in
          let combined_tz := match dt_tz combined with Some z => z | None => source_zone end in
          let* local_time := astimezone (dt_us combined) combined_tz local_zone in
          Ok (Some (sp (str_of_Z (dt_minute local_time))
                (sp (str_of_Z (dt_hour local_time)) "* * *")))
      end
  end.

Definition has_crlf (s : string) : bool :=
  existsb (fun c => Ascii.eqb c "013"%char || Ascii.eqb c "010"%char) (list_ascii_of_string s).

Definition schedule_msg : string :=
  "Schedule must be a cron expression (five fields, or @daily/@hourly etc.) or an ISO 8601 time/datetime such as '09:30' or '2024-06-05T09:30'.".

(** [normalize_schedule(schedule, tz_hint, local_zone)] *)
Definition normalize_schedule (schedule : string) (tz_hint : option tzinfo)
    (local_zone : tzinfo) (now_utc : Z) : result (string * string) :=
  let cleaned := strip schedule in
  if String.eqb cleaned "" || has_crlf cleaned then
    Err (ValueError "Schedule expression must be a single non-empty line.")
  else if startswith cleaned "@" then Ok (cleaned, cleaned)
  else
    let fields := split_ws cleaned in
    if Nat.eqb (length fields) 5 || Nat.eqb (length fields) 6 then Ok (cleaned, cleaned)
    else
      let* cron_from_iso := convert_iso_to_cron cleaned tz_hint local_zone now_utc in
      match cron_from_iso with
      | None => Err (ValueError schedule_msg)
      | Some c => Ok (c, cleaned)
      end.

Local Open Scope string_scope.

Definition macro_map : list (string * string) :=
  [("@yearly", "0 0 1 1 *"); ("@annually", "0 0 1 1 *");
   ("@monthly", "0 0 1 * *"); ("@weekly", "0 0 * * 0");
   ("@daily", "0 0 * * *"); ("@midnight", "0 0 * * *");
   ("@hourly", "0 * * * *")].

Local Close Scope string_scope.

Fixpoint lookup_str (k : string) (m : list (string * string)) : option string :=
  match m with
  | [] => None
  | (k', v) :: m' => if String.eqb k k' then Some v else lookup_str k m'
  end.

(** [prepare_schedule(args)]: [schedule] is [args.schedule], [tz_hint] the
    resolved [--schedule-timezone], [local_zone] the machine's zone; the
    result is [(cron_spec, display_schedule)]. *)
Definition prepare_schedule (schedule : string) (tz_hint : option tzinfo)
    (local_zone : tzinfo) (now_utc : Z) : result (string * string) :=
  if String.eqb schedule "" then Err (ValueError "Schedule string is required.")
  else
    let schedule_text := strip schedule in
    let* r := normalize_schedule schedule_text tz_hint local_zone now_utc in
    let '(cron_spec, display_schedule) := r in
    let cron_spec := match lookup_str cron_spec macro_map with
                     | Some v => v
                     | None => cron_spec
                     end in
    Ok (cron_spec, display_schedule).

(** ** Backend converters *)

Definition _parse_numeric_field (field name : string) (allow_wildcard : bool) : result (option Z) :=
  if String.eqb field "*" then
    if allow_wildcard then Ok None
    else Err (ValueError (append name " must be a fixed value for this scheduler backend."))
  else if negb (isdigit field) then
    Err (ValueError (append name " value is not supported. Only single integer values are allowed for this backend."))
  else match py_int field with
       | Some n => Ok (Some n)
       | None => Err (ValueError "invalid literal for int() with base 10")
       end.

Definition unpack5 (cron_spec : string) : result (string * string * string * string * string) :=
  match split_ws cron_spec with
  | [a; b; c; d; e] => Ok (a, b, c, d, e)
  | _ => Err (ValueError "wrong number of values to unpack (expected 5)")
  end.

Definition opt_entry (k : string) (v : option Z) : list (string * Z) :=
  match v with Some x => [(k, x)] | None => [] end.

(** [cron_to_launchd_interval(cron_spec)]: the interval dictionary. *)
Definition cron_to_launchd_interval (cron_spec : string) : result (list (string * Z)) :=
  let* fs := unpack5 cron_spec in
  let '(minute, hour, day, month, weekday) := fs in
  let* minute_value := _parse_numeric_field minute "minute" false in
  let* hour_value := _parse_numeric_field hour "hour" false in
  let* day_value := _parse_numeric_field day "day" true in
  let* month_value := _parse_numeric_field month "month" true in
  let* weekday_value := _parse_numeric_field weekday "weekday" true in
  match day_value, weekday_value with
  | Some _, Some _ =>
      Err (ValueError "launchd backend does not support combining specific days-of-month and weekdays simultaneously.")
  | _, _ =>
      match minute_value, hour_value with
      | Some mi, Some h =>
          Ok ([("Minute"%string, mi); ("Hour"%string, h)] ++ opt_entry "Day" day_value
              ++ opt_entry "Month" month_value ++ opt_entry "Weekday" weekday_value)
      | _, _ => Err (ValueError "unreachable")
      end
  end.

(** [f"{value:02d}"] for [value >= 0]. *)
Definition fmt02 (n : Z) : string :=
  if n <? 10 then String "0" (str_of_Z n) else str_of_Z n.

Definition pad_opt (v : option Z) : string :=
  match v with None => "*" | Some x => fmt02 x end.

Definition weekday_name (w : Z) : option string :=
  match w with
  | 0 => Some "Sun"%string | 1 => Some "Mon"%string | 2 => Some "Tue"%string | 3 => Some "Wed"%string
  | 4 => Some "Thu"%string | 5 => Some "Fri"%string | 6 => Some "Sat"%string | 7 => Some "Sun"%string
  | _ => None
  end.

(** [cron_to_systemd_calendar(cron_spec)]: the [OnCalendar=] value. *)
Definition cron_to_systemd_calendar (cron_spec : string) : result string :=
  let* fs := unpack5 cron_spec in
  let '(minute, hour, day, month, weekday) := fs in
  let* minute_value := _parse_numeric_field minute "minute" false in
  let* hour_value := _parse_numeric_field hour "hour" false in
  let* day_value := _parse_numeric_field day "day" true in
  let* month_value := _parse_numeric_field month "month" true in
  let* weekday_value := _parse_numeric_field weekday "weekday" true in
  match day_value, weekday_value with
  | Some _, Some _ =>
      Err (ValueError "systemd backend cannot express both a specific day-of-month and weekday at the same time.")
  | _, _ =>
      let time_part := append (pad_opt hour_value) (String ":" (append (pad_opt minute_value) ":00")) in
      match weekday_value with
      | Some w =>
          match weekday_name w with
          | None => Err (ValueError "Weekday must be between 0 (Sunday) and 7 (Sunday).")
          | Some nm => Ok (sp nm (sp (append "*-" (append (pad_opt month_value) "-*")) time_part))
          end
      | None =>
          Ok (sp (append "*-" (append (pad_opt month_value) (String "-" (pad_opt day_value)))) time_part)
      end
  end.

(** ** The due-time state file *)

Local Open Scope string_scope.
Local Set Warnings "-register-all".

Inductive json :=
| JNull
| JBool (b : bool)
| JNum (n : Z)
| JStr (s : string)
| JArr (l : list json)
| JObj (kv : list (string * json)).

(** Python truthiness of a loaded JSON value. *)
Definition truthy (j : json) : bool :=
  match j with
  | JNull => false
  | JBool b => b
  | JNum n => negb (Z.eqb n 0)
  | JStr s => negb (String.eqb s "")
  | JArr l => negb (Nat.eqb (length l) 0)
  | JObj kv => negb (Nat.eqb (length kv) 0)
  end.

Fixpoint dict_get (k : string) (kv : list (string * json)) : option json :=
  match kv with
  | [] => None
  | (k', v) :: kv' => if String.eqb k k' then Some v else dict_get k kv'
  end.

(** [d[k] = v]: an existing key keeps its place, a new one goes last. *)
Fixpoint dict_set (k : string) (v : json) (kv : list (string * json)) : list (string * json) :=
  match kv with
  | [] => [(k, v)]
  | (k', v') :: kv' => if String.eqb k k' then (k', v) :: kv' else (k', v') :: dict_set k v kv'
  end.

(** [d.setdefault(k, v)] *)
Definition dict_setdefault (k : string) (v : json) (kv : list (string * json)) : list (string * json) :=
  match dict_get k kv with
  | Some _ => kv
  | None => dict_set k v kv
  end.

(** The state file: absent ([None]), not loadable as JSON, or the value
    [json.load] returns ([json.dump] then [json.load] give the value back). *)
Inductive state_file :=
| Unparseable
| Stored (j : json).

Definition load_state (file : option state_file) : json :=
  match file with
  | Some (Stored j) => j
  | _ => JObj []
  end.

Definition naive (t : Z) : pydatetime := {| dt_us := t; dt_tz := None |}.

(** [initialize_schedule_state(state_path, cron_spec, overwrite=overwrite)]
    at wall-clock time [now_raw]: the returned next-due time and the file
    afterwards. *)
Definition initialize_schedule_state (file : option state_file) (cron_spec : string)
    (overwrite : bool) (now_raw : Z) : result pydatetime * option state_file :=
  let trusted :=
    match file, overwrite with
    | Some (Stored (JObj data)), false =>
        match dict_get "next_due" data with
        | Some (JStr s) => if truthy (JStr s) then datetime_fromisoformat s else None
        | _ => None
        end
    | _, _ => None
    end in
  match trusted with
  | Some dtv => (Ok dtv, file)
  | None =>
      let now := trunc_minute now_raw in
      match dt_add now (- US_PER_MIN) with
      | Err e => (Err e, file)
      | Ok start =>
          match next_run_time cron_spec start with
          | Err e => (Err e, file)
          | Ok next_due =>
              (Ok (naive next_due),
               Some (Stored (JObj [("next_due", JStr (isoformat next_due)); ("last_run", JNull)])))
          end
      end
  end.

(** The body of [update_schedule_state] up to the write: the report and the
    dictionary that is dumped. *)
Definition update_schedule_state_body (cron_spec : string) (data : json) (now : Z)
    : result (bool * Z * list (string * json)) :=
  let recompute :=
    let* start := dt_add now (- US_PER_MIN) in
    let* t := next_run_time cron_spec start in
    Ok (naive t) in
  match data with
  | JObj kv =>
      let* next_due :=
        match dict_get "next_due" kv with
        | Some v =>
            if truthy v then
              match v with
              | JStr s =>
                  match datetime_fromisoformat s with
                  | Some dtv => Ok dtv
                  | None => recompute
                  end
              | _ => Err TypeError
              end
            else recompute
        | None => recompute
        end in
      match dt_tz next_due with
      | Some _ => Err TypeError
      | None =>
          let due := Z.leb (dt_us next_due) now in
          if due then
            let* next_after := next_run_time cron_spec (dt_us next_due) in
            let kv := dict_set "last_run" (JStr (isoformat now)) kv in
            let kv := dict_set "next_due" (JStr (isoformat next_after)) kv in
            Ok (true, next_after, kv)
          else
            let kv := dict_setdefault "next_due" (JStr (isoformat (dt_us next_due))) kv in
            let kv := match dict_get "last_run" kv with
                      | Some _ => kv
                      | None => dict_set "last_run" JNull kv
                      end in
            Ok (false, dt_us next_due, kv)
      end
  | _ => Err AttributeError
  end.

(** [update_schedule_state(cron_spec, state_path)] at wall-clock time
    [now_raw]: the report [(due, next_due)] and the file afterwards. *)
Definition update_schedule_state (cron_spec : string) (file : option state_file) (now_raw : Z)
    : result (bool * Z) * option state_file :=
  let now := trunc_minute now_raw in
  match update_schedule_state_body cron_spec (load_state file) now with
  | Ok (due, t, kv) => (Ok (due, t), Some (Stored (JObj kv)))
  | Err e => (Err e, file)
  end.

(** ** Removing the cron entries *)

Definition CRON_COMMENT_PREFIX : string := "# mailmerge schedule:".

Definition is_marker (line : string) : bool := startswith line CRON_COMMENT_PREFIX.

(** [not line.strip()] *)
Definition is_blank (line : string) : bool := String.eqb (strip line) "".

(** The [while index < len(lines)] loop of [remove_mailmerge_cron_jobs]
    on the crontab text alone: a marker line and the command line after it
    are dropped, together with one blank line left just before them. *)
Fixpoint remove_loop (lines new_lines : list string) (removed_jobs : nat) : list string * nat :=
  match lines with
  | [] => (new_lines, removed_jobs)
  | line :: rest =>
      if is_marker line then
        let new_lines :=
          match rev new_lines with
          | last :: _ => if is_blank last then removelast new_lines else new_lines
          | [] => new_lines
          end in
        match rest with
        | [] => (new_lines, S removed_jobs)
        | _ :: rest' => remove_loop rest' new_lines (S removed_jobs)
        end
      else remove_loop rest (new_lines ++ [line])%list removed_jobs
  end.

(** [while new_lines and not new_lines[-1].strip(): new_lines.pop()] *)
Fixpoint drop_blank_prefix (l : list string) : list string :=
  match l with
  | x :: l' => if is_blank x then drop_blank_prefix l' else l
  | [] => []
  end.

Definition drop_trailing_blank (l : list string) : list string := rev (drop_blank_prefix (rev l)).

(** The crontab edit of [remove_mailmerge_cron_jobs] on the current crontab
    [lines] when every state-file removal returns: the count and the lines
    written back with [write_crontab_lines], if any. *)
Definition remove_cron_lines (lines : list string) : nat * option (list string) :=
  match lines with
  | [] => (0%nat, None)
  | _ =>
      let '(new_lines, removed_jobs) := remove_loop lines [] 0 in
      let new_lines := drop_trailing_blank new_lines in
      if Nat.ltb 0 removed_jobs then (removed_jobs, Some new_lines) else (removed_jobs, None)
  end.

Section RemoveCronJobs.

(** The file system holding the state files. *)
Context {fs : Type}.

(** The state-file removal done for a marker line [line] whose next line is
    [command_line]: matching the label out of the marker, then
    [remove_schedule_state(extract_state_path_from_command_line(command_line))]
    or [remove_schedule_state_by_label(label_seed)]. It returns the file
    system afterwards or raises; [remove_schedule_state] only catches
    [FileNotFoundError], so e.g. [Path.glob] on an absolute label raises
    [NotImplementedError], [expanduser] on [~nosuchuser] [RuntimeError],
    and [unlink] on a directory an [OSError]. *)
Variable remove_marker_state : fs -> string -> string -> result fs.

(** The [while index < len(lines)] loop of [remove_mailmerge_cron_jobs]:
    the state-file removal of each marker runs before its lines are
    dropped, and an exception it raises ends the loop. *)
Fixpoint remove_loop_io (st : fs) (lines new_lines : list string) (removed_jobs : nat)
    : result (fs * (list string * nat)) :=
  match lines with
  | [] => Ok (st, (new_lines, removed_jobs))
  | line :: rest =>
      if is_marker line then
        let command_line := match rest with next :: _ => next | [] => ""%string end in
        let* st := remove_marker_state st line command_line in
        let new_lines :=
          match rev new_lines with
          | last :: _ => if is_blank last then removelast new_lines else new_lines
          | [] => new_lines
          end in
        match rest with
        | [] => Ok (st, (new_lines, S removed_jobs))
        | _ :: rest' => remove_loop_io st rest' new_lines (S removed_jobs)
        end
      else remove_loop_io st rest (new_lines ++ [line])%list removed_jobs
  end.

(** [remove_mailmerge_cron_jobs()] on the current crontab [lines] and file
    system [st]: the file system afterwards, the count and the lines written
    back with [write_crontab_lines], if any; or the exception raised, in
    which case nothing is written. *)
Definition remove_mailmerge_cron_jobs (st : fs) (lines : list string)
    : result (fs * (nat * option (list string))) :=
  match lines with
  | [] => Ok (st, (0%nat, None))
  | _ =>
      match remove_loop_io st lines [] 0 with
      | Err e => Err e
      | Ok (st, (new_lines, removed_jobs)) =>
          let new_lines := drop_trailing_blank new_lines in
          if Nat.ltb 0 removed_jobs then Ok (st, (removed_jobs, Some new_lines))
          else Ok (st, (removed_jobs, None))
      end
  end.

End RemoveCronJobs.

(** The removal of a state file for a marker [# mailmerge schedule: <label>]
    without [--schedule-state] on the next line, when the state directory
    holds no file of the label: [Path.glob] raises [NotImplementedError] for
    an absolute label, and otherwise nothing is removed. *)
Definition glob_label_removal (st : unit) (line command_line : string) : result unit :=
  if startswith line "# mailmerge schedule: /"
  then Err (NotImplementedError "Non-relative patterns are unsupported")
  else Ok st.

(** ** Labels and address lists *)

(** The class [A-Za-z0-9_.-]. *)
Definition is_label_char (c : ascii) : bool :=
  let n := nat_of_ascii c in
  (((65 <=? n) && (n <=? 90)) || ((97 <=? n) && (n <=? 122)) || ((48 <=? n) && (n <=? 57))
   || (n =? 95) || (n =? 46) || (n =? 45))%nat.

(** [re.sub(r"[^A-Za-z0-9_.-]+", "-", value)]: each maximal run of
    characters outside the class becomes one ["-"]. [in_run] tells whether
    the character before was in such a run. *)
Fixpoint sub_label_runs (in_run : bool) (l : list ascii) : list ascii :=
  match l with
  | [] => []
  | c :: l' =>
      if is_label_char c then c :: sub_label_runs false l'
      else if in_run then sub_label_runs true l'
      else "-"%char :: sub_label_runs true l'
  end.

(** [str.lstrip(chars)] on the characters [cs]. *)
Fixpoint lstrip_chars (cs : list ascii) (l : list ascii) : list ascii :=
  match l with
  | c :: l' => if existsb (Ascii.eqb c) cs then lstrip_chars cs l' else l
  | [] => []
  end.

(** [str.strip(chars)] *)
Definition strip_chars (chars s : string) : string :=
  let cs := list_ascii_of_string chars in
  string_of_list_ascii (rev (lstrip_chars cs (rev (lstrip_chars cs (list_ascii_of_string s))))).

Definition sanitize_label_seed (value : string) : string :=
  let sanitized := string_of_list_ascii (sub_label_runs false (list_ascii_of_string value)) in
  let sanitized := strip_chars ".-" sanitized in
  if String.eqb sanitized "" then "mailmerge" else sanitized.

(** [str.replace(a, b)] for one-character [a] and [b]. *)
Definition replace_char (a b : ascii) (s : string) : string :=
  string_of_list_ascii (map (fun c => if Ascii.eqb c a then b else c) (list_ascii_of_string s)).

(** [str.split(sep)] for a one-character [sep], on the characters. *)
Fixpoint split_char (sep : ascii) (l : list ascii) : list (list ascii) :=
  match l with
  | [] => [[]]
  | c :: l' =>
      if Ascii.eqb c sep then [] :: split_char sep l'
      else match split_char sep l' with
           | p :: ps => (c :: p) :: ps
           | [] => [[c]]
           end
  end.

Definition str_split (sep : ascii) (s : string) : list string :=
  map string_of_list_ascii (split_char sep (list_ascii_of_string s)).

(** [[v.strip() for v in raw.replace(";", ",").split(",") if v.strip()]] *)
Definition split_entries (raw : string) : list string :=
  flat_map (fun v => if String.eqb (strip v) "" then [] else [strip v])
    (str_split "," (replace_char ";" "," raw)).

Definition parse_addresses (raw : string) : list string := split_entries raw.

Definition parse_list_entries (raw : option string) : list string :=
  match raw with
  | None => []
  | Some r => if String.eqb r "" then [] else split_entries r
  end.

(** ** The scheduled command line *)

(** [str.upper()] on ASCII. *)
Definition ascii_upper (c : ascii) : ascii :=
  let n := nat_of_ascii c in
  if ((97 <=? n) && (n <=? 122))%nat then ascii_of_nat (n - 32) else c.

Definition upper (s : string) : string :=
  string_of_list_ascii (map ascii_upper (list_ascii_of_string s)).

(** Truthiness of an optional string argument. *)
Definition opt_truthy (o : option string) : bool :=
  match o with
  | Some s => negb (String.eqb s "")
  | None => false
  end.

Section ProgramArguments.

(** Python floats, with [x > 0] and [str(x)]; [sys.executable]; and
    [str(Path(s).expanduser())]. *)
Variable float : Type.
Variable float_pos : float -> bool.
Variable float_str : float -> string.
Variable python_executable : string.
Variable path_expanduser : string -> string.

(** The [argparse.Namespace] fields [build_program_arguments] reads; paths
    are given by their [str()]. *)
Record cli_args := {
  csv : string;
  subject : string;
  body : string;
  body_type : string;
  attachments : list string;
  attachment_column : option string;
  sender : option string;
  password : option string;
  recipient_column : string;
  cc : list string;
  bcc : list string;
  cc_column : option string;
  bcc_column : option string;
  reply_to : option string;
  smtp_server : string;
  smtp_port : Z;
  delay : float;
  dry_run : bool;
  limit : option Z;
  log_level : string
}.

(** [if value: command.extend([flag, str(value)])] for an optional string
    argument: the arguments it adds. *)
Definition opt_flag (flag : string) (o : option string) : list string :=
  match o with
  | Some v => if opt_truthy o then [flag; v] else []
  | None => []
  end.

(** [build_program_arguments(args, schedule_spec=..., state_path=...)]:
    each [if ...: command.extend(...)] appends the list it extends with, or
    nothing; each [for] loop appends one pair per value. *)
Definition build_program_arguments (args : cli_args) (schedule_spec : option string)
    (state_path : option string) : list string :=
  let command := [python_executable; "-m"; "mailmerge_cli"; csv args; "--subject"; subject args;
                  "--body"; body args] in
  let command := app command (if String.eqb (body_type args) "plain" then []
                              else ["--body-type"; body_type args]) in
  let command := app command (flat_map (fun a => ["--attachment"; a]) (attachments args)) in
  let command := app command (opt_flag "--attachment-column" (attachment_column args)) in
  let command := app command (opt_flag "--sender" (sender args)) in
  let command := app command (opt_flag "--password" (password args)) in
  let command := app command (if String.eqb (recipient_column args) "email" then []
                              else ["--recipient-column"; recipient_column args]) in
  let command := app command (flat_map (fun v => ["--cc"; v]) (cc args)) in
  let command := app command (flat_map (fun v => ["--bcc"; v]) (bcc args)) in
  let command := app command (opt_flag "--cc-column" (cc_column args)) in
  let command := app command (opt_flag "--bcc-column" (bcc_column args)) in
  let command := app command (opt_flag "--reply-to" (reply_to args)) in
  let command := app command (if String.eqb (smtp_server args) "smtp.gmail.com" then []
                              else ["--smtp-server"; smtp_server args]) in
  let command := app command (if Z.eqb (smtp_port args) 587 then []
                              else ["--smtp-port"; str_of_Z (smtp_port args)]) in
  let command := app command (if float_pos (delay args) then ["--delay"; float_str (delay args)]
                              else []) in
  let command := app command (if dry_run args then ["--dry-run"] else []) in
  let command := app command (match limit args with
                              | Some n => ["--limit"; str_of_Z n]
                              | None => []
                              end) in
  let command := app command (if String.eqb (upper (log_level args)) "INFO" then []
                              else ["--log-level"; upper (log_level args)]) in
  let command := app command (opt_flag "--schedule-spec" schedule_spec) in
  let command := app command (match state_path with
                              | Some p => ["--schedule-state"; p]
                              | None => []
                              end) in
  command.

(** [extract_state_path_from_arguments(arguments)] *)
Fixpoint extract_state_path_from_arguments (arguments : list string) : option string :=
  match arguments with
  | [] => None
  | value :: rest =>
      if String.eqb value "--schedule-state" then
        match rest with
        | p :: _ => Some (path_expanduser p)
        | [] => extract_state_path_from_arguments rest
        end
      else extract_state_path_from_arguments rest
  end.

End ProgramArguments.

(** An argument set used to exercise the command line. *)
Definition example_args : cli_args Z := {|
  csv := "contacts.csv"; subject := "Hello $name"; body := "body.txt"; body_type := "html";
  attachments := ["report.pdf"]; attachment_column := None; sender := Some "me@example.com";
  password := None; recipient_column := "email"; cc := ["boss@example.com"]; bcc := [];
  cc_column := Some ""; bcc_column := None; reply_to := None; smtp_server := "smtp.gmail.com";
  smtp_port := 465; delay := 2; dry_run := false; limit := Some 10; log_level := "debug" |}%string.

(** ** Installing the cron entry *)

(** [next((i for i, line in enumerate(lines) if p(line)), None)] *)
Fixpoint find_index (p : string -> bool) (l : list string) : option nat :=
  match l with
  | [] => None
  | x :: l' => if p x then Some 0%nat else option_map S (find_index p l')
  end.

(** [del lines[i]] for an index within the list. *)
Definition del_at (i : nat) (l : list string) : list string := (firstn i l ++ skipn (S i) l)%list.

(** [f"{CRON_COMMENT_PREFIX} {label_seed}"] *)
Definition cron_comment_label (label_seed : string) : string := sp CRON_COMMENT_PREFIX label_seed.

(** The crontab editing of [install_cron_job]: from the current crontab
    [lines], the lines given to [write_crontab_lines]. [command] is the
    quoted command line ([build_cron_command]). *)
Definition install_cron_lines (lines : list string) (label_seed fingerprint cron_spec command : string)
    (overwrite : bool) : result (list string) :=
  let comment_label := cron_comment_label label_seed in
  let comment_line := append comment_label (append " (" (append fingerprint ")")) in
  let* lines :=
    match find_index (fun line => startswith line comment_label) lines with
    | Some i =>
        if overwrite then
          let lines := del_at i lines in
          let lines := if Nat.ltb i (length lines) then del_at i lines else lines in
          (* [while index < len(lines) and not lines[index].strip(): del lines[index]] *)
          Ok (firstn i lines ++ drop_blank_prefix (skipn i lines))%list
        else
          Err (RuntimeError (append "Cron entry already exists for label '" (append label_seed
                 "'. Re-run with --schedule-overwrite to replace it.")))
    | None => Ok lines
    end in
  let lines :=
    match rev lines with
    | last :: _ => if negb (is_blank last) then (lines ++ [""])%list else lines
    | [] => lines
    end in
  Ok (lines ++ [comment_line; sp cron_spec command])%list.

(** ** Crontab text *)

Definition NL : string := String "010" EmptyString.

(** [str.rstrip(chars)] *)
Definition rstrip_chars (chars s : string) : string :=
  string_of_list_ascii (rev (lstrip_chars (list_ascii_of_string chars) (rev (list_ascii_of_string s)))).

(** The text [write_crontab_lines] passes to [crontab -]:
    ["\n".join(lines).rstrip("\n") + "\n"]. *)
Definition crontab_content (lines : list string) : string :=
  append (rstrip_chars NL (String.concat NL lines)) NL.

(** The line boundaries of [str.splitlines()] on ASCII: \n, \r, \v, \f and
    the separators \x1c, \x1d, \x1e; \r\n counts as one boundary. *)
Definition is_line_break (c : ascii) : bool :=
  let n := nat_of_ascii c in ((10 <=? n) && (n <=? 13) || (28 <=? n) && (n <=? 30))%nat.

(** [cur] holds the current line, reversed. *)
Fixpoint splitlines_go (l cur : list ascii) : list string :=
  match l with
  | [] => match cur with [] => [] | _ => [string_of_list_ascii (rev cur)] end
  | c :: l' =>
      if is_line_break c then
        string_of_list_ascii (rev cur) ::
          (if Ascii.eqb c "013" then
             match l' with
             | d :: l'' => if Ascii.eqb d "010" then splitlines_go l'' [] else splitlines_go l' []
             | [] => splitlines_go l' []
             end
           else splitlines_go l' [])
      else splitlines_go l' (c :: cur)
  end.

(** [str.splitlines()], which [read_crontab_lines] applies to the output of
    [crontab -l]. *)
Definition splitlines (s : string) : list string := splitlines_go (list_ascii_of_string s) [].

(** [lines] without its trailing empty strings. *)
Fixpoint drop_empty_prefix (l : list string) : list string :=
  match l with
  | x :: l' => if String.eqb x "" then drop_empty_prefix l' else l
  | [] => []
  end.

Definition drop_trailing_empty (l : list string) : list string := rev (drop_empty_prefix (rev l)).

(** ** Auxiliary predicates used by the statements *)

(** A whitespace-free, non-empty field. *)
Definition is_token (s : string) : bool :=
  negb (String.eqb s "") && forallb (fun c => negb (is_ws c)) (list_ascii_of_string s).

(** [f x] holds for [x = lo, lo + 1, ..., lo + n - 1]. *)
Fixpoint all_from (n : nat) (lo : Z) (f : Z -> bool) : bool :=
  match n with
  | O => true
  | S n' => f lo && all_from n' (lo + 1) f
  end.

(** The month tables of [_ord2ymd] for a year whose leap flag is [leapyear]. *)
Definition dim_L (leapyear : bool) (m : Z) : Z :=
  if Z.eqb m 2 && leapyear then 29 else days_in_month_tbl m.

Definition dbm_L (leapyear : bool) (m : Z) : Z :=
  days_before_month_tbl m + (if Z.gtb m 2 && leapyear then 1 else 0).

(** The month lookup gives a valid month and day for day [r] of a year. *)
Definition month_day_ok (leapyear : bool) (r : Z) : bool :=
  let '(m, d) := ord2ymd_month_day r leapyear in
  Z.leb 1 m && Z.leb m 12 && Z.leb 1 d && Z.leb d (dim_L leapyear m)
  && Z.eqb (dbm_L leapyear m + d) (r + 1).

(** [is_leap] of year [1 + 100 a + 4 b + c] is the flag [_ord2ymd] computes. *)
Definition leap_flag_ok (a b c : Z) : bool :=
  Bool.eqb (is_leap (1 + a * 100 + b * 4 + c))
    (Z.eqb c 3 && (negb (Z.eqb b 24) || Z.eqb a 3)).

(** A fixed field within [lo, hi]; a wildcard is always allowed. *)
Definition in_range (lo hi : Z) (v : option Z) : bool :=
  match v with
  | Some n => Z.leb lo n && Z.leb n hi
  | None => true
  end.

(** The field ranges of a canonical cron spec: minute 0-59, hour 0-23,
    day 1-31, month 1-12, weekday 0-7. *)
Definition fields_in_range (f : cron_fields) : bool :=
  let '(mi, h, d, mo, w) := f in
  in_range 0 59 mi && in_range 0 23 h && in_range 1 31 d && in_range 1 12 mo && in_range 0 7 w.

(** The crontab lines the frame property of the remover names: neither a
    marker, nor right after a marker, nor blank. [prev_marker] tells whether
    the line before is a marker. *)
Fixpoint frame_kept (prev_marker : bool) (lines : list string) : list string :=
  match lines with
  | [] => []
  | line :: rest =>
      (if is_marker line || prev_marker || is_blank line then [] else [line])
      ++ frame_kept (is_marker line) rest
  end.

(** The non-blank lines the removal loop keeps: a marker and the line it
    consumes are skipped. *)
Fixpoint kept_nonblank (lines : list string) : list string :=
  match lines with
  | [] => []
  | line :: rest =>
      if is_marker line then
        match rest with
        | [] => []
        | _ :: rest' => kept_nonblank rest'
        end
      else if is_blank line then kept_nonblank rest
      else line :: kept_nonblank rest
  end.

(** [a] is [b] with some elements left out, the order kept. *)
Inductive subseq {A : Type} : list A -> list A -> Prop :=
| subseq_nil : subseq [] []
| subseq_skip x a b : subseq a b -> subseq a (x :: b)
| subseq_take x a b : subseq a b -> subseq (x :: a) (x :: b).

(** [str(v)] is one field that [parse_cron_value] reads back as [v]. *)
Definition field_roundtrip (v : Z) : bool :=
  is_token (str_of_Z v) &&
  match parse_cron_value (str_of_Z v) with
  | Ok (Some n) => Z.eqb n v
  | _ => false
  end.

Local Close Scope string_scope.

(** * Proofs *)

(** ** Strings *)

Lemma append_assoc_str (a b c : string) : append (append a b) c = append a (append b c).
Proof. induction a as [|x a IH]; simpl; [reflexivity | now rewrite IH]. Qed.

Lemma append_empty_r (a : string) : append a EmptyString = a.
Proof. induction a as [|x a IH]; simpl; [reflexivity | now rewrite IH]. Qed.

Lemma split_go_token (t s cur : string) :
  forallb (fun c => negb (is_ws c)) (list_ascii_of_string t) = true ->
  split_go (append t s) cur = split_go s (append cur t).
Proof.
  revert cur. induction t as [|c t IH]; intros cur H; simpl.
  - now rewrite append_empty_r.
  - simpl in H. apply andb_prop in H as [Hc Ht].
    apply negb_true_iff in Hc. rewrite Hc.
    rewrite IH by exact Ht. now rewrite append_assoc_str.
Qed.

Lemma split_ws_sp (t s : string) :
  is_token t = true -> split_ws (sp t s) = t :: split_ws s.
Proof.
  intros H. unfold is_token in H. apply andb_prop in H as [Hne Ht].
  unfold split_ws, sp. rewrite split_go_token by exact Ht. simpl.
  destruct t; [discriminate | reflexivity].
Qed.

Lemma split_ws_token (t : string) : is_token t = true -> split_ws t = [t].
Proof.
  intros H. unfold is_token in H. apply andb_prop in H as [Hne Ht].
  unfold split_ws. rewrite <- (append_empty_r t) at 1.
  rewrite split_go_token by exact Ht. simpl.
  destruct t; [discriminate | reflexivity].
Qed.

Lemma split_ws_five (a b c d e : string) :
  is_token a = true -> is_token b = true -> is_token c = true ->
  is_token d = true -> is_token e = true ->
  split_ws (sp a (sp b (sp c (sp d e)))) = [a; b; c; d; e].
Proof.
  intros. rewrite !split_ws_sp, split_ws_token by assumption. reflexivity.
Qed.

Lemma lstrip_l_decomp (l : list ascii) :
  exists w, l = w ++ lstrip_l l /\ forallb is_ws w = true.
Proof.
  induction l as [|c l IH]; simpl.
  - now exists [].
  - destruct (is_ws c) eqn:E.
    + destruct IH as [w [Hw Hws]]. exists (c :: w). simpl. rewrite E, Hws.
      split; [now rewrite <- Hw | reflexivity].
    + now exists [].
Qed.

Lemma lstrip_l_head (l : list ascii) :
  match lstrip_l l with c :: _ => is_ws c = false | [] => True end.
Proof.
  induction l as [|c l IH]; simpl; [exact I|].
  destruct (is_ws c) eqn:E; [exact IH | exact E].
Qed.

Lemma lstrip_l_id (l : list ascii) :
  match l with c :: _ => is_ws c = false | [] => True end -> lstrip_l l = l.
Proof. destruct l as [|c l]; simpl; [reflexivity|]. intros E. now rewrite E. Qed.

Lemma strip_idem (s : string) : strip (strip s) = strip s.
Proof.
  unfold strip. rewrite list_ascii_of_string_of_list_ascii.
  set (A := lstrip_l (list_ascii_of_string s)).
  set (B := lstrip_l (rev A)).
  assert (HA := lstrip_l_head (list_ascii_of_string s)). fold A in HA.
  assert (HB := lstrip_l_head (rev A)). fold B in HB.
  destruct (lstrip_l_decomp (rev A)) as [w [Hw _]]. fold B in Hw.
  assert (HrevB : lstrip_l (rev B) = rev B).
  { apply lstrip_l_id.
    assert (Hr : A = rev B ++ rev w).
    { rewrite <- (rev_involutive A), Hw. now rewrite rev_app_distr. }
    destruct (rev B) as [|c r] eqn:Er; [exact I|].
    rewrite Hr in HA. exact HA. }
  rewrite HrevB, rev_involutive, (lstrip_l_id B HB). reflexivity.
Qed.

(** ** Backend converters *)

Lemma parse_numeric_field_cases (f name : string) (b : bool) :
  (exists v, _parse_numeric_field f name b = Ok v) \/
  (exists msg, _parse_numeric_field f name b = Err (ValueError msg)).
Proof.
  unfold _parse_numeric_field.
  destruct (String.eqb f "*"); [destruct b|]; eauto.
  destruct (negb (isdigit f)); [eauto|]. destruct (py_int f); eauto.
Qed.

Lemma parse_numeric_field_fixed (f name : string) (b : bool) :
  f <> "*"%string ->
  (exists n, _parse_numeric_field f name b = Ok (Some n)) \/
  (exists msg, _parse_numeric_field f name b = Err (ValueError msg)).
Proof.
  intros Hf. unfold _parse_numeric_field.
  destruct (String.eqb_spec f "*"); [contradiction|].
  destruct (negb (isdigit f)); [eauto|]. destruct (py_int f); eauto.
Qed.

(** C7: a canonical five-field expression whose day-of-month and weekday
    fields are both fixed (not [*]) is rejected with a [ValueError] by both the
    launchd and the systemd converters. *)
Theorem C7_backends_reject_day_and_weekday (mi h d mo w : string) :
  is_token mi = true -> is_token h = true -> is_token d = true ->
  is_token mo = true -> is_token w = true ->
  d <> "*"%string -> w <> "*"%string ->
  (exists msg, cron_to_launchd_interval (sp mi (sp h (sp d (sp mo w)))) = Err (ValueError msg)) /\
  (exists msg, cron_to_systemd_calendar (sp mi (sp h (sp d (sp mo w)))) = Err (ValueError msg)).
Proof.
  intros T1 T2 T3 T4 T5 Hd Hw.
  unfold cron_to_launchd_interval, cron_to_systemd_calendar, unpack5.
  rewrite split_ws_five by assumption. simpl.
  pose proof (parse_numeric_field_cases mi "minute" false) as H1.
  pose proof (parse_numeric_field_cases h "hour" false) as H2.
  pose proof (parse_numeric_field_fixed d "day" true Hd) as H3.
  pose proof (parse_numeric_field_cases mo "month" true) as H4.
  pose proof (parse_numeric_field_fixed w "weekday" true Hw) as H5.
  destruct H1 as [[? H1]|[? H1]]; rewrite H1; simpl; [|eauto].
  destruct H2 as [[? H2]|[? H2]]; rewrite H2; simpl; [|eauto].
  destruct H3 as [[? H3]|[? H3]]; rewrite H3; simpl; [|eauto].
  destruct H4 as [[? H4]|[? H4]]; rewrite H4; simpl; [|eauto].
  destruct H5 as [[? H5]|[? H5]]; rewrite H5; simpl; eauto.
Qed.

Lemma C7_backends_reject_day_and_weekday_witness :
  ((exists msg, cron_to_launchd_interval (sp "30" (sp "9" (sp "5" (sp "*" "1")))) = Err (ValueError msg)) /\
   (exists msg, cron_to_systemd_calendar (sp "30" (sp "9" (sp "5" (sp "*" "1")))) = Err (ValueError msg)))%string.
Proof.
  apply C7_backends_reject_day_and_weekday;
    try reflexivity; discriminate.
Defined.

(** ** Normalizer pass-through branches *)

Lemma unpack5_len6 (c : string) :
  length (split_ws c) = 6%nat -> exists m, unpack5 c = Err (ValueError m).
Proof.
  intros H. unfold unpack5.
  destruct (split_ws c) as [|a [|b [|x [|d [|e [|f l]]]]]]; simpl in H;
    try discriminate; eauto.
Qed.

Lemma parse_cron_spec_len6 (c : string) :
  length (split_ws c) = 6%nat -> exists m, parse_cron_spec c = Err (ValueError m).
Proof.
  intros H. unfold parse_cron_spec.
  destruct (split_ws c) as [|a [|b [|x [|d [|e [|f l]]]]]]; simpl in H;
    try discriminate; eauto.
Qed.

(** C5: an expression whose stripped text is one non-empty line of five or six
    whitespace-separated fields is returned by the normalizer as the stripped
    text, for both the spec and the display text; a six-field one is then
    rejected with a [ValueError] by [parse_cron_spec] (hence by [next_run_time])
    and by both backend converters, instead of having its sixth field ignored. *)
Theorem C5_six_fields_pass_then_rejected (s : string) (tz_hint : option tzinfo)
    (local_zone : tzinfo) (now_utc : Z) :
  String.eqb (strip s) "" = false -> has_crlf (strip s) = false ->
  (length (split_ws (strip s)) = 5%nat \/ length (split_ws (strip s)) = 6%nat) ->
  normalize_schedule s tz_hint local_zone now_utc = Ok (strip s, strip s) /\
  (length (split_ws (strip s)) = 6%nat ->
   (exists m, parse_cron_spec (strip s) = Err (ValueError m)) /\
   (forall t, exists m, next_run_time (strip s) t = Err (ValueError m)) /\
   (exists m, cron_to_launchd_interval (strip s) = Err (ValueError m)) /\
   (exists m, cron_to_systemd_calendar (strip s) = Err (ValueError m))).
Proof.
  intros He Hc Hl. split.
  - unfold normalize_schedule. rewrite He, Hc. simpl.
    destruct (startswith (strip s) "@"); [reflexivity|].
    destruct Hl as [Hl|Hl]; rewrite Hl; reflexivity.
  - intros H6.
    destruct (parse_cron_spec_len6 _ H6) as [m Hm].
    destruct (unpack5_len6 _ H6) as [m' Hm'].
    split; [eauto|]. split; [|split].
    + intros t. exists m. unfold next_run_time. now rewrite Hm.
    + exists m'. unfold cron_to_launchd_interval. now rewrite Hm'.
    + exists m'. unfold cron_to_systemd_calendar. now rewrite Hm'.
Qed.

Lemma C5_six_fields_pass_then_rejected_witness :
  let s := "0 9 * * 1 0"%string in
  (String.eqb (strip s) "" = false /\ has_crlf (strip s) = false) /\
  (normalize_schedule s None (fixed_tz 0) 0 = Ok (strip s, strip s) /\
  (length (split_ws (strip s)) = 6%nat ->
   (exists m, parse_cron_spec (strip s) = Err (ValueError m)) /\
   (forall t, exists m, next_run_time (strip s) t = Err (ValueError m)) /\
   (exists m, cron_to_launchd_interval (strip s) = Err (ValueError m)) /\
   (exists m, cron_to_systemd_calendar (strip s) = Err (ValueError m)))).
Proof.
  intros s. split; [split; reflexivity|].
  apply C5_six_fields_pass_then_rejected; [reflexivity | reflexivity | right; reflexivity].
Defined.

(** Counterexample to C5: the six-field expression [0 9 * * 1 0] passes the
    normalizer unchanged, but [parse_cron_spec] and the launchd converter
    reject it rather than ignoring its sixth field. *)
Lemma C5_counterexample :
  normalize_schedule "0 9 * * 1 0" None (fixed_tz 0) 0 = Ok ("0 9 * * 1 0", "0 9 * * 1 0")%string /\
  parse_cron_spec "0 9 * * 1 0" = Err (ValueError "wrong number of values to unpack (expected 5)") /\
  cron_to_launchd_interval "0 9 * * 1 0" = Err (ValueError "wrong number of values to unpack (expected 5)").
Proof. repeat split; vm_compute; reflexivity. Qed.

Lemma lookup_str_in (k v : string) (m : list (string * string)) :
  lookup_str k m = Some v -> In (k, v) m.
Proof.
  induction m as [|[k' v'] m IH]; simpl; [discriminate|].
  destruct (String.eqb_spec k k'); intros H; [left; congruence | right; auto].
Qed.

Lemma strip_empty : strip "" = ""%string.
Proof. reflexivity. Qed.

(** C6: every key of the macro table (including [@annually], which the table
    also lists) is expanded by [prepare_schedule] into its table entry with the
    display text unchanged; an unknown single-line ['@'] expression is NOT
    rejected by the normalizer: [prepare_schedule] returns its stripped text
    unchanged as both spec and display text (a single-token one is only
    rejected later, by [parse_cron_spec]). *)
Theorem C6_macros_expand_unknown_pass (s : string) (tz_hint : option tzinfo)
    (local_zone : tzinfo) (now_utc : Z) :
  (forall v, lookup_str s macro_map = Some v ->
     prepare_schedule s tz_hint local_zone now_utc = Ok (v, s)) /\
  (startswith (strip s) "@" = true -> has_crlf (strip s) = false ->
   lookup_str (strip s) macro_map = None ->
   prepare_schedule s tz_hint local_zone now_utc = Ok (strip s, strip s) /\
   (is_token (strip s) = true -> exists m, parse_cron_spec (strip s) = Err (ValueError m))).
Proof.
  split.
  - intros v H. apply lookup_str_in in H.
    simpl in H. repeat destruct H as [H|H]; try contradiction;
      injection H as <- <-; vm_compute; reflexivity.
  - intros Hat Hc Hn.
    assert (Hne : String.eqb (strip s) "" = false)
      by (destruct (strip s); [discriminate | reflexivity]).
    split.
    + unfold prepare_schedule.
      destruct (String.eqb_spec s ""); [subst; discriminate|].
      unfold normalize_schedule. rewrite strip_idem, Hne, Hc, Hat.
      cbn -[lookup_str strip macro_map]. now rewrite Hn.
    + intros Ht. unfold parse_cron_spec. rewrite split_ws_token by exact Ht. eauto.
Qed.

Lemma C6_macros_expand_unknown_pass_witness :
  (prepare_schedule "@annually" None (fixed_tz 0) 0 = Ok ("0 0 1 1 *", "@annually")%string) /\
  (prepare_schedule " @reboot " None (fixed_tz 0) 0 = Ok ("@reboot", "@reboot")%string /\
   (is_token "@reboot" = true -> exists m, parse_cron_spec "@reboot" = Err (ValueError m))).
Proof.
  split.
  - apply (C6_macros_expand_unknown_pass "@annually" None (fixed_tz 0) 0). reflexivity.
  - apply (C6_macros_expand_unknown_pass " @reboot " None (fixed_tz 0) 0);
      reflexivity.
Defined.

(** Counterexample to C6: the unknown macro [@reboot] is not rejected by the
    normalizer; it comes back unchanged as a cron spec. *)
Lemma C6_counterexample :
  normalize_schedule "@reboot" None (fixed_tz 0) 0 = Ok ("@reboot", "@reboot")%string /\
  prepare_schedule "@reboot" None (fixed_tz 0) 0 = Ok ("@reboot", "@reboot")%string.
Proof. split; vm_compute; reflexivity. Qed.

(** ** The next-run search *)

Lemma MAXT_val : MAXT = 315537897599999999.
Proof. reflexivity. Qed.

Lemma WINDOW_val : WINDOW = 31622400000000.
Proof. reflexivity. Qed.

(** The constants as literals (an unevaluated product in a hypothesis makes
    the kernel check of [lia] certificates very slow). *)
Ltac unfold_consts :=
  rewrite ?MAXT_val, ?WINDOW_val in *;
  unfold US_PER_DAY, US_PER_HOUR, US_PER_MIN in *.

(** The loop [while candidate <= limit] with enough fuel for every candidate
    up to [limit]: it returns the first matching candidate, or raises
    [RuntimeError] after checking every candidate up to [limit], or raises
    [OverflowError] when stepping past the largest datetime, after checking
    every candidate before it. *)
Lemma next_run_loop_cases (cron_spec : string) (f : cron_fields) (fuel : nat) (c limit : Z) :
  0 <= c -> limit - c < Z.of_nat fuel * US_PER_MIN ->
  (exists k, 0 <= k /\ c + k * US_PER_MIN <= limit /\
     next_run_loop fuel cron_spec f c limit = Ok (c + k * US_PER_MIN) /\
     fields_match f (c + k * US_PER_MIN) = true /\
     (forall j, 0 <= j < k -> fields_match f (c + j * US_PER_MIN) = false)) \/
  (next_run_loop fuel cron_spec f c limit = Err (RuntimeError (unable_msg cron_spec)) /\
     (forall j, 0 <= j -> c + j * US_PER_MIN <= limit -> fields_match f (c + j * US_PER_MIN) = false)) \/
  (next_run_loop fuel cron_spec f c limit = Err OverflowError /\ MAXT < limit + US_PER_MIN /\
     (forall j, 0 <= j -> c + j * US_PER_MIN <= limit -> c + j * US_PER_MIN <= MAXT ->
        fields_match f (c + j * US_PER_MIN) = false)).
Proof.
  revert c. induction fuel as [|fuel IH]; intros c Hc Hfuel.
  - right; left. split; [reflexivity|]. intros j Hj Hle. unfold_consts. lia.
  - rewrite Nat2Z.inj_succ in Hfuel. cbn [next_run_loop].
    destruct (Z.leb_spec c limit) as [Hle|Hgt].
    + destruct (fields_match f c) eqn:Hm.
      * left. exists 0. rewrite Z.mul_0_l, Z.add_0_r.
        split; [lia|]. split; [lia|]. split; [reflexivity|]. split; [exact Hm|].
        intros j Hj. lia.
      * destruct ((0 <=? c + US_PER_MIN) && (c + US_PER_MIN <=? MAXT)) eqn:Hb.
        -- assert (Hadd : dt_add c US_PER_MIN = Ok (c + US_PER_MIN))
             by (unfold dt_add; now rewrite Hb).
           rewrite Hadd. cbn [bind].
           apply andb_prop in Hb as [_ Hb]. apply Z.leb_le in Hb.
           destruct (IH (c + US_PER_MIN)) as [[k [Hk [Hkl [Hr [Hkm Hbefore]]]]]|[[Hr Hnone]|[Hr [Hmax Hnone]]]];
             [unfold_consts; lia | unfold_consts; lia | | |].
           ++ left. exists (k + 1).
              replace (c + (k + 1) * US_PER_MIN) with (c + US_PER_MIN + k * US_PER_MIN) by ring.
              split; [lia|]. split; [exact Hkl|]. split; [exact Hr|]. split; [exact Hkm|].
              intros j Hj. destruct (Z.eq_dec j 0) as [->|Hj0].
              ** now rewrite Z.mul_0_l, Z.add_0_r.
              ** replace (c + j * US_PER_MIN) with (c + US_PER_MIN + (j - 1) * US_PER_MIN) by ring.
                 apply Hbefore. lia.
           ++ right; left. split; [exact Hr|]. intros j Hj Hjl.
              destruct (Z.eq_dec j 0) as [->|Hj0].
              ** now rewrite Z.mul_0_l, Z.add_0_r.
              ** replace (c + j * US_PER_MIN) with (c + US_PER_MIN + (j - 1) * US_PER_MIN) by ring.
                 apply Hnone; [lia|]. lia.
           ++ right; right. split; [exact Hr|]. split; [exact Hmax|]. intros j Hj Hjl Hjm.
              destruct (Z.eq_dec j 0) as [->|Hj0].
              ** now rewrite Z.mul_0_l, Z.add_0_r.
              ** replace (c + j * US_PER_MIN) with (c + US_PER_MIN + (j - 1) * US_PER_MIN) by ring.
                 apply Hnone; lia.
        -- assert (Hadd : dt_add c US_PER_MIN = Err OverflowError)
             by (unfold dt_add; now rewrite Hb).
           rewrite Hadd. cbn [bind].
           assert (Hover : MAXT < c + US_PER_MIN).
           { apply andb_false_iff in Hb as [Hb|Hb]; apply Z.leb_gt in Hb;
               unfold US_PER_MIN in *; lia. }
           right; right. split; [reflexivity|]. split; [lia|].
           intros j Hj Hjl Hjm. destruct (Z.eq_dec j 0) as [->|Hj0].
           ++ now rewrite Z.mul_0_l, Z.add_0_r.
           ++ unfold US_PER_MIN in *; lia.
    + right; left. split; [reflexivity|]. intros j Hj Hjl. unfold_consts. lia.
Qed.

Lemma trunc_minute_bounds (x : Z) :
  0 <= x -> 0 <= trunc_minute x <= x /\ x < trunc_minute x + US_PER_MIN.
Proof.
  intros Hx. unfold trunc_minute.
  pose proof (Z.mod_pos_bound x US_PER_MIN) as Hb.
  pose proof (Z.div_mod x US_PER_MIN) as Hd.
  assert (0 <= x / US_PER_MIN) by (apply Z.div_pos; unfold US_PER_MIN; lia).
  unfold US_PER_MIN in *. lia.
Qed.

Lemma trunc_minute_above_max (x : Z) : MAXT < x -> MAXT < trunc_minute x.
Proof.
  intros Hx. unfold trunc_minute.
  pose proof (Z.mod_pos_bound x US_PER_MIN) as Hb.
  pose proof (Z.div_mod x US_PER_MIN) as Hd.
  unfold_consts. lia.
Qed.

Lemma dt_add_ok (t d : Z) : 0 <= t + d <= MAXT -> dt_add t d = Ok (t + d).
Proof.
  intros H. unfold dt_add.
  destruct ((0 <=? t + d) && (t + d <=? MAXT)) eqn:E; [reflexivity|].
  apply andb_false_iff in E as [E|E]; apply Z.leb_gt in E; lia.
Qed.

Lemma dt_add_cases (t d : Z) :
  (0 <= t + d <= MAXT /\ dt_add t d = Ok (t + d)) \/
  ((t + d < 0 \/ MAXT < t + d) /\ dt_add t d = Err OverflowError).
Proof.
  unfold dt_add.
  destruct ((0 <=? t + d) && (t + d <=? MAXT)) eqn:E.
  - left. apply andb_prop in E as [E1 E2]. apply Z.leb_le in E1, E2. auto.
  - right. split; [|reflexivity].
    apply andb_false_iff in E as [E|E]; apply Z.leb_gt in E; lia.
Qed.

(** [next_run_time] on a parsed spec, from [c0], the minute after [start]
    truncated: it returns the first matching candidate [c0 + k] minutes with
    [c0 + k <= c0 + 366 days], or raises [RuntimeError] when no candidate up to
    [c0 + 366 days] matches, or raises [OverflowError], which only happens when
    [c0 + 366 days + 1 minute] is past the largest datetime (and, when
    [c0 + 366 days] itself is representable, after finding no match). *)
Lemma next_run_time_cases (cron_spec : string) (f : cron_fields) (start : Z) :
  parse_cron_spec cron_spec = Ok f -> 0 <= start ->
  let c0 := trunc_minute (start + US_PER_MIN) in
  (exists k, 0 <= k /\ c0 + k * US_PER_MIN <= c0 + WINDOW /\
     next_run_time cron_spec start = Ok (c0 + k * US_PER_MIN) /\
     fields_match f (c0 + k * US_PER_MIN) = true /\
     (forall j, 0 <= j < k -> fields_match f (c0 + j * US_PER_MIN) = false) /\
     c0 + WINDOW <= MAXT) \/
  (next_run_time cron_spec start = Err (RuntimeError (unable_msg cron_spec)) /\
     (forall j, 0 <= j -> c0 + j * US_PER_MIN <= c0 + WINDOW ->
        fields_match f (c0 + j * US_PER_MIN) = false)) \/
  (next_run_time cron_spec start = Err OverflowError /\ MAXT < c0 + WINDOW + US_PER_MIN /\
     (c0 + WINDOW <= MAXT -> forall j, 0 <= j -> c0 + j * US_PER_MIN <= c0 + WINDOW ->
        fields_match f (c0 + j * US_PER_MIN) = false)).
Proof.
  intros Hp Hs c0. unfold next_run_time. rewrite Hp. cbn [bind].
  destruct (dt_add_cases start US_PER_MIN) as [[Hr1 H1]|[Hr1 H1]]; rewrite H1; cbn [bind].
  - fold c0.
    destruct (trunc_minute_bounds (start + US_PER_MIN)) as [Hc0 _]; [lia|]. fold c0 in Hc0.
    destruct (dt_add_cases c0 WINDOW) as [[Hr2 H2]|[Hr2 H2]]; rewrite H2; cbn [bind].
    + assert (Hq : (c0 + WINDOW - c0) / US_PER_MIN = 527040).
      { replace (c0 + WINDOW - c0) with WINDOW by ring. reflexivity. }
      rewrite Hq.
      destruct (next_run_loop_cases cron_spec f (S (S (Z.to_nat 527040))) c0 (c0 + WINDOW))
        as [A|[[B1 B2]|[C1 [C2 C3]]]].
      * lia.
      * rewrite !Nat2Z.inj_succ, Z2Nat.id by lia. unfold_consts. lia.
      * left. destruct A as [k [A1 [A2 [A3 [A4 A5]]]]].
        exists k. repeat (split; [assumption|]). lia.
      * right; left. auto.
      * right; right. split; [exact C1|]. split; [exact C2|].
        intros _ j Hj Hjl. apply C3; lia.
    + right; right. split; [reflexivity|].
      assert (MAXT < c0 + WINDOW) by (destruct Hr2; [unfold_consts; lia | assumption]).
      split; [unfold US_PER_MIN; lia|]. intros Hle. lia.
  - assert (Hmax : MAXT < start + US_PER_MIN) by (destruct Hr1; [unfold_consts; lia | assumption]).
    apply trunc_minute_above_max in Hmax. fold c0 in Hmax.
    right; right. split; [reflexivity|].
    split; [unfold_consts; lia|]. intros Hle. unfold_consts; lia.
Qed.

(** When the search window of a parsed spec runs past the largest datetime,
    [next_run_time] raises [OverflowError] before looking at any candidate. *)
Lemma next_run_time_window_overflow (cron_spec : string) (f : cron_fields) (start : Z) :
  parse_cron_spec cron_spec = Ok f -> 0 <= start ->
  MAXT < trunc_minute (start + US_PER_MIN) + WINDOW ->
  next_run_time cron_spec start = Err OverflowError.
Proof.
  intros Hp Hs Hw. unfold next_run_time. rewrite Hp. cbn [bind].
  destruct (dt_add_cases start US_PER_MIN) as [[Hr H]|[Hr H]]; rewrite H; cbn [bind];
    [|reflexivity].
  destruct (dt_add_cases (trunc_minute (start + US_PER_MIN)) WINDOW) as [[Hr' H']|[Hr' H']];
    rewrite H'; [lia | reflexivity].
Qed.

(** C1: let [c0] be the first candidate, the minute after [start] truncated.
    For a spec that parses into fixed/wildcard fields: (1) when the search
    window, from [c0] to [c0 + 366 days], lies within datetime's range and
    some candidate [c0 + k] minutes of the window matches, [next_run_time]
    returns the earliest matching candidate [c0 + k0] minutes, [k0 <= k],
    and the returned instant satisfies the matcher; (2) when the window runs
    past the largest datetime (year 9999), [next_run_time] raises
    [OverflowError], whatever the spec matches. *)
Theorem C1_next_run_earliest_match (cron_spec : string) (f : cron_fields) (start : Z) :
  parse_cron_spec cron_spec = Ok f -> 0 <= start ->
  (forall k,
     trunc_minute (start + US_PER_MIN) + WINDOW <= MAXT ->
     0 <= k -> k * US_PER_MIN <= WINDOW ->
     fields_match f (trunc_minute (start + US_PER_MIN) + k * US_PER_MIN) = true ->
     exists k0, 0 <= k0 <= k /\
       next_run_time cron_spec start = Ok (trunc_minute (start + US_PER_MIN) + k0 * US_PER_MIN) /\
       fields_match f (trunc_minute (start + US_PER_MIN) + k0 * US_PER_MIN) = true /\
       (forall j, 0 <= j < k0 ->
          fields_match f (trunc_minute (start + US_PER_MIN) + j * US_PER_MIN) = false)) /\
  (MAXT < trunc_minute (start + US_PER_MIN) + WINDOW ->
     next_run_time cron_spec start = Err OverflowError).
Proof.
  intros Hp Hs. split; [|exact (next_run_time_window_overflow cron_spec f start Hp Hs)].
  intros k Hwin Hk HkW Hm.
  destruct (next_run_time_cases cron_spec f start Hp Hs)
    as [[k0 [Hk0 [Hk0W [Hr [Hm0 [Hbefore _]]]]]]|[[Hr Hnone]|[Hr [_ Hnone]]]].
  - exists k0. split; [|auto].
    split; [exact Hk0|]. destruct (Z.le_gt_cases k0 k) as [Hle|Hgt]; [exact Hle|].
    rewrite Hbefore in Hm; [discriminate | lia].
  - rewrite Hnone in Hm; [discriminate | exact Hk | lia].
  - rewrite Hnone in Hm; [discriminate | exact Hwin | exact Hk | lia].
Qed.

Lemma C1_next_run_earliest_match_witness :
  (exists k0, 0 <= k0 <= 89 /\
    next_run_time "30 9 * * *" (mk_dt 2024 6 5 8 0)
      = Ok (trunc_minute (mk_dt 2024 6 5 8 0 + US_PER_MIN) + k0 * US_PER_MIN) /\
    fields_match (Some 30, Some 9, None, None, None)
      (trunc_minute (mk_dt 2024 6 5 8 0 + US_PER_MIN) + k0 * US_PER_MIN) = true /\
    (forall j, 0 <= j < k0 -> fields_match (Some 30, Some 9, None, None, None)
       (trunc_minute (mk_dt 2024 6 5 8 0 + US_PER_MIN) + j * US_PER_MIN) = false)) /\
  next_run_time "* * * * *" (mk_dt 9999 12 1 0 0) = Err OverflowError.
Proof.
  split.
  - apply (proj1 (C1_next_run_earliest_match "30 9 * * *" (Some 30, Some 9, None, None, None)
             (mk_dt 2024 6 5 8 0) ltac:(vm_compute; reflexivity) ltac:(vm_compute; discriminate))
             89); vm_compute; first [reflexivity | discriminate].
  - apply (proj2 (C1_next_run_earliest_match "* * * * *" (None, None, None, None, None)
             (mk_dt 9999 12 1 0 0) ltac:(vm_compute; reflexivity) ltac:(vm_compute; discriminate))).
    vm_compute. reflexivity.
Defined.

(** Counterexample to C1: the spec [* * * * *] matches every minute, yet from
    9999-12-01T00:00 [next_run_time] raises [OverflowError] (computing the
    window end [candidate + 366 days] leaves datetime's range) instead of
    returning the next minute. *)
Lemma C1_counterexample :
  parse_cron_spec "* * * * *" = Ok (None, None, None, None, None) /\
  fields_match (None, None, None, None, None) (trunc_minute (mk_dt 9999 12 1 0 0 + US_PER_MIN)) = true /\
  next_run_time "* * * * *" (mk_dt 9999 12 1 0 0) = Err OverflowError.
Proof. split; [|split]; vm_compute; reflexivity. Qed.

(** C8: [next_run_time] always terminates: on a parsed spec and a valid start
    instant it returns the first matching candidate within 366 days of the
    first candidate, or raises [RuntimeError] (the unsatisfiable case) after
    checking every candidate of the window without a match, or raises
    [OverflowError] when the window runs past year 9999. *)
Theorem C8_next_run_total (cron_spec : string) (f : cron_fields) (start : Z) :
  parse_cron_spec cron_spec = Ok f -> 0 <= start ->
  (exists k, 0 <= k /\ k * US_PER_MIN <= WINDOW /\
     next_run_time cron_spec start = Ok (trunc_minute (start + US_PER_MIN) + k * US_PER_MIN) /\
     fields_match f (trunc_minute (start + US_PER_MIN) + k * US_PER_MIN) = true) \/
  (next_run_time cron_spec start = Err (RuntimeError (unable_msg cron_spec)) /\
     (forall j, 0 <= j -> j * US_PER_MIN <= WINDOW ->
        fields_match f (trunc_minute (start + US_PER_MIN) + j * US_PER_MIN) = false)) \/
  (next_run_time cron_spec start = Err OverflowError /\
     MAXT < trunc_minute (start + US_PER_MIN) + WINDOW + US_PER_MIN).
Proof.
  intros Hp Hs.
  destruct (next_run_time_cases cron_spec f start Hp Hs)
    as [[k [Hk [HkW [Hr [Hm _]]]]]|[[Hr Hnone]|[Hr [Hmax _]]]].
  - left. exists k. split; [exact Hk|]. split; [lia|]. auto.
  - right; left. split; [exact Hr|]. intros j Hj HjW. apply Hnone; lia.
  - right; right. auto.
Qed.

Lemma C8_next_run_total_witness :
  (exists k, 0 <= k /\ k * US_PER_MIN <= WINDOW /\
     next_run_time "0 0 30 2 *" (mk_dt 2024 6 5 8 0)
       = Ok (trunc_minute (mk_dt 2024 6 5 8 0 + US_PER_MIN) + k * US_PER_MIN) /\
     fields_match (Some 0, Some 0, Some 30, Some 2, None)
       (trunc_minute (mk_dt 2024 6 5 8 0 + US_PER_MIN) + k * US_PER_MIN) = true) \/
  (next_run_time "0 0 30 2 *" (mk_dt 2024 6 5 8 0) = Err (RuntimeError (unable_msg "0 0 30 2 *")) /\
     (forall j, 0 <= j -> j * US_PER_MIN <= WINDOW ->
        fields_match (Some 0, Some 0, Some 30, Some 2, None)
          (trunc_minute (mk_dt 2024 6 5 8 0 + US_PER_MIN) + j * US_PER_MIN) = false)) \/
  (next_run_time "0 0 30 2 *" (mk_dt 2024 6 5 8 0) = Err OverflowError /\
     MAXT < trunc_minute (mk_dt 2024 6 5 8 0 + US_PER_MIN) + WINDOW + US_PER_MIN).
Proof.
  apply C8_next_run_total; vm_compute; first [reflexivity | discriminate].
Defined.

(** Counterexample to C8: from 9999-06-01 the spec [0 0 1 1 *] raises
    [OverflowError], neither returning a match nor raising the
    unsatisfiable-schedule [RuntimeError]. *)
Lemma C8_counterexample :
  next_run_time "0 0 1 1 *" (mk_dt 9999 6 1 0 0) = Err OverflowError.
Proof. vm_compute. reflexivity. Qed.

(** ** The calendar: [_ord2ymd] inverts [_ymd2ord] *)

Lemma all_from_spec (n : nat) (lo : Z) (f : Z -> bool) :
  all_from n lo f = true -> forall x, lo <= x < lo + Z.of_nat n -> f x = true.
Proof.
  revert lo. induction n as [|n IH]; intros lo H x Hx; [simpl in Hx; lia|].
  rewrite Nat2Z.inj_succ in Hx. cbn [all_from] in H.
  apply andb_prop in H as [H1 H2].
  destruct (Z.eq_dec x lo) as [->|Hne]; [exact H1|].
  apply (IH (lo + 1)); [exact H2 | lia].
Qed.

Lemma month_day_all (leapyear : bool) : all_from 365 0 (month_day_ok leapyear) = true.
Proof. destruct leapyear; vm_compute; reflexivity. Qed.

Lemma month_day_spec (leapyear : bool) (r : Z) : 0 <= r <= 364 ->
  let '(m, d) := ord2ymd_month_day r leapyear in
  1 <= m <= 12 /\ 1 <= d <= dim_L leapyear m /\ dbm_L leapyear m + d = r + 1.
Proof.
  intros Hr. pose proof (all_from_spec _ _ _ (month_day_all leapyear) r) as H.
  unfold month_day_ok in H. destruct (ord2ymd_month_day r leapyear) as [m d].
  specialize (H ltac:(simpl; lia)).
  repeat rewrite andb_true_iff in H. rewrite !Z.leb_le, Z.eqb_eq in H. lia.
Qed.

Lemma leap_flag (a b c : Z) : 0 <= a <= 3 -> 0 <= b <= 24 -> 0 <= c <= 3 ->
  is_leap (1 + a * 100 + b * 4 + c) = (c =? 3) && (negb (b =? 24) || (a =? 3)).
Proof.
  intros Ha Hb Hc.
  assert (Hall : all_from 4 0 (fun a => all_from 25 0 (fun b => all_from 4 0 (fun c =>
                   leap_flag_ok a b c))) = true) by (vm_compute; reflexivity).
  pose proof (all_from_spec _ _ _ Hall a ltac:(simpl; lia)) as H1. cbv beta in H1.
  pose proof (all_from_spec _ _ _ H1 b ltac:(simpl; lia)) as H2. cbv beta in H2.
  pose proof (all_from_spec _ _ _ H2 c ltac:(simpl; lia)) as H3.
  unfold leap_flag_ok in H3. now apply Bool.eqb_prop in H3.
Qed.

Lemma days_before_year_cycle (a b c : Z) : 0 <= a <= 3 -> 0 <= b <= 24 -> 0 <= c <= 3 ->
  days_before_year (1 + a * 100 + b * 4 + c) = 36524 * a + 1461 * b + 365 * c.
Proof.
  intros Ha Hb Hc. unfold days_before_year.
  replace (1 + a * 100 + b * 4 + c - 1) with (a * 100 + b * 4 + c) by ring.
  Z.div_mod_to_equations. lia.
Qed.

Lemma days_in_month_L (y m : Z) : days_in_month y m = dim_L (is_leap y) m.
Proof. reflexivity. Qed.

Lemma days_before_month_L (y m : Z) : days_before_month y m = dbm_L (is_leap y) m.
Proof. reflexivity. Qed.

Lemma ord2ymd_cycle_spec (r : Z) : 0 <= r < 146097 ->
  let '(y, m, d) := ord2ymd_cycle r in
  1 <= y <= 400 /\ 1 <= m <= 12 /\ 1 <= d <= days_in_month y m /\ ymd2ord y m d = r + 1.
Proof.
  intros Hr. unfold ord2ymd_cycle.
  pose proof (Z.div_mod r 36524 ltac:(lia)) as E1.
  pose proof (Z.mod_pos_bound r 36524 ltac:(lia)) as B1.
  set (a := r / 36524) in *. set (r1 := r mod 36524) in *.
  pose proof (Z.div_mod r1 1461 ltac:(lia)) as E2.
  pose proof (Z.mod_pos_bound r1 1461 ltac:(lia)) as B2.
  set (b := r1 / 1461) in *. set (r2 := r1 mod 1461) in *.
  pose proof (Z.div_mod r2 365 ltac:(lia)) as E3.
  pose proof (Z.mod_pos_bound r2 365 ltac:(lia)) as B3.
  set (c := r2 / 365) in *. set (r3 := r2 mod 365) in *.
  assert (Ha : 0 <= a <= 4) by lia.
  assert (Hb : 0 <= b <= 24) by lia.
  assert (Hc : 0 <= c <= 4) by lia.
  destruct (Z.eqb_spec c 4) as [Hc4|Hc4]; [|destruct (Z.eqb_spec a 4) as [Ha4|Ha4]]; cbn [orb].
  - (* the last day of a leap year inside a four-year block *)
    assert (r3 = 0) by lia. assert (a <= 3) by lia. assert (b <= 23) by lia.
    replace (1 + a * 100 + b * 4 + c - 1) with (1 + a * 100 + b * 4 + 3) by lia.
    unfold ymd2ord. rewrite days_before_month_L, days_in_month_L, days_before_year_cycle by lia.
    rewrite leap_flag by lia.
    replace ((3 =? 3) && (negb (b =? 24) || (a =? 3))) with true
      by (destruct (Z.eqb_spec b 24); [lia | reflexivity]).
    vm_compute dim_L. vm_compute dbm_L. lia.
  - (* the last day of the 400-year cycle *)
    assert (r = 146096) by lia. assert (r1 = 0) by lia.
    assert (b = 0) by lia. assert (c = 0) by lia.
    replace (1 + a * 100 + b * 4 + c - 1) with 400 by lia.
    replace (ymd2ord 400 12 31) with 146097 by reflexivity.
    replace (days_in_month 400 12) with 31 by reflexivity. lia.
  - assert (Hc3 : c <= 3) by lia. assert (Ha3 : a <= 3) by lia.
    rewrite <- (leap_flag a b c) by lia.
    pose proof (month_day_spec (is_leap (1 + a * 100 + b * 4 + c)) r3 ltac:(lia)) as Hmd.
    destruct (ord2ymd_month_day r3 (is_leap (1 + a * 100 + b * 4 + c))) as [m d].
    unfold ymd2ord. rewrite days_before_month_L, days_in_month_L, days_before_year_cycle by lia.
    lia.
Qed.

Lemma is_leap_shift (q y : Z) : is_leap (q * 400 + y) = is_leap y.
Proof.
  unfold is_leap.
  replace (q * 400 + y) with (y + (q * 100) * 4) by ring. rewrite Z.mod_add by lia.
  replace (y + (q * 100) * 4) with (y + (q * 4) * 100) by ring. rewrite Z.mod_add by lia.
  replace (y + (q * 4) * 100) with (y + q * 400) by ring. rewrite Z.mod_add by lia.
  reflexivity.
Qed.

Lemma days_before_year_shift (q y : Z) :
  days_before_year (q * 400 + y) = q * 146097 + days_before_year y.
Proof.
  unfold days_before_year.
  replace (q * 400 + y - 1) with ((y - 1) + (q * 100) * 4) at 2 by ring.
  rewrite Z.div_add by lia.
  replace (q * 400 + y - 1) with ((y - 1) + (q * 4) * 100) at 2 by ring.
  rewrite Z.div_add by lia.
  replace (q * 400 + y - 1) with ((y - 1) + q * 400) at 2 by ring.
  rewrite Z.div_add by lia.
  ring.
Qed.

Lemma days_before_month_tbl_nonneg (m : Z) : 1 <= m <= 12 -> 0 <= days_before_month_tbl m.
Proof.
  intros Hm.
  assert (H : all_from 12 1 (fun m => Z.leb 0 (days_before_month_tbl m)) = true)
    by reflexivity.
  apply Z.leb_le. exact (all_from_spec _ _ _ H m ltac:(simpl; lia)).
Qed.

Lemma days_in_month_le_31 (y m : Z) : 1 <= m <= 12 -> days_in_month y m <= 31.
Proof.
  intros Hm. rewrite days_in_month_L.
  assert (H : all_from 12 1 (fun m => Z.leb (dim_L true m) 31 && Z.leb (dim_L false m) 31) = true)
    by reflexivity.
  pose proof (all_from_spec _ _ _ H m ltac:(simpl; lia)) as H1. cbv beta in H1.
  apply andb_prop in H1 as [H1 H2]. apply Z.leb_le in H1, H2.
  destruct (is_leap y); assumption.
Qed.

(** [_ord2ymd] on the ordinals of years 1..9999 gives a valid date of those
    years, and [_ymd2ord] maps it back. *)
Lemma ord2ymd_spec (o : Z) : 1 <= o <= MAX_ORDINAL ->
  let '(y, m, d) := ord2ymd o in
  1 <= y <= 9999 /\ 1 <= m <= 12 /\ 1 <= d <= days_in_month y m /\ ymd2ord y m d = o.
Proof.
  intros Ho. unfold MAX_ORDINAL in Ho. unfold ord2ymd.
  pose proof (Z.div_mod (o - 1) 146097 ltac:(lia)) as E.
  pose proof (Z.mod_pos_bound (o - 1) 146097 ltac:(lia)) as B.
  set (q := (o - 1) / 146097) in *. set (r := (o - 1) mod 146097) in *.
  assert (Hq : 0 <= q <= 24) by lia.
  pose proof (ord2ymd_cycle_spec r B) as Hc.
  destruct (ord2ymd_cycle r) as [[y0 m] d].
  destruct Hc as [Hy [Hm [Hd Heq]]].
  unfold ymd2ord in *.
  rewrite days_before_year_shift.
  rewrite days_in_month_L, days_before_month_L, is_leap_shift.
  rewrite days_in_month_L, days_before_month_L in *.
  assert (y0 <= 399 \/ q <= 23).
  { destruct (Z.eq_dec y0 400) as [->|]; [right|left; lia].
    pose proof (days_before_month_tbl_nonneg m Hm).
    replace (days_before_year 400) with 145731 in Heq by reflexivity.
    unfold dbm_L in Heq. destruct (Z.gtb m 2 && is_leap 400); lia. }
  split; [lia|]. split; [exact Hm|]. split; [exact Hd|]. lia.
Qed.

Lemma dt_ordinal_range (t : Z) : 0 <= t <= MAXT -> 1 <= dt_ordinal t <= MAX_ORDINAL.
Proof.
  intros Ht. unfold dt_ordinal. rewrite MAXT_val in Ht.
  assert (0 <= t / US_PER_DAY) by (apply Z.div_pos; unfold US_PER_DAY; lia).
  assert (t / US_PER_DAY < MAX_ORDINAL).
  { apply Z.div_lt_upper_bound; unfold US_PER_DAY, MAX_ORDINAL; lia. }
  lia.
Qed.

Lemma dt_fields_range (t : Z) : 0 <= t <= MAXT ->
  1 <= dt_year t <= 9999 /\ 1 <= dt_month t <= 12 /\ 1 <= dt_day t <= 31 /\
  0 <= dt_hour t <= 23 /\ 0 <= dt_minute t <= 59.
Proof.
  intros Ht. pose proof (ord2ymd_spec (dt_ordinal t) (dt_ordinal_range t Ht)) as H.
  unfold dt_year, dt_month, dt_day, dt_hour, dt_minute.
  destruct (ord2ymd (dt_ordinal t)) as [[y m] d]. simpl.
  destruct H as [Hy [Hm [Hd _]]].
  pose proof (days_in_month_le_31 y m Hm).
  pose proof (Z.mod_pos_bound (t / US_PER_HOUR) 24 ltac:(lia)).
  pose proof (Z.mod_pos_bound (t / US_PER_MIN) 60 ltac:(lia)).
  lia.
Qed.

(** ** Decimal digits and the isoformat round trip *)

Lemma digit_of_spec (x : Z) : 0 <= x <= 9 ->
  is_digit (digit_of x) = true /\ digit_val (digit_of x) = x.
Proof.
  intros Hx.
  assert (H : all_from 10 0 (fun x => is_digit (digit_of x) && Z.eqb (digit_val (digit_of x)) x) = true)
    by reflexivity.
  pose proof (all_from_spec _ _ _ H x ltac:(simpl; lia)) as H1. cbv beta in H1.
  apply andb_prop in H1 as [H1 H2]. apply Z.eqb_eq in H2. auto.
Qed.

Lemma list_ascii_of_string_append (a b : string) :
  list_ascii_of_string (append a b) = list_ascii_of_string a ++ list_ascii_of_string b.
Proof. induction a as [|c a IH]; simpl; [reflexivity | now rewrite IH]. Qed.

Lemma list_ascii_of_pad (k : nat) (n : Z) : list_ascii_of_string (pad k n) = digits_fixed k n.
Proof. unfold pad. apply list_ascii_of_string_of_list_ascii. Qed.

Lemma length_digits_fixed (k : nat) (n : Z) : length (digits_fixed k n) = k.
Proof. induction k as [|k IH]; simpl; congruence. Qed.

Lemma digits_fixed_all_digits (k : nat) (n : Z) : forallb is_digit (digits_fixed k n) = true.
Proof.
  induction k as [|k IH]; [reflexivity|]. cbn [digits_fixed forallb]. rewrite IH, andb_true_r.
  apply digit_of_spec. pose proof (Z.mod_pos_bound (n / 10 ^ Z.of_nat k) 10). lia.
Qed.

(** The value of a run of decimal digits, accumulated the way
    [parse_digits] does it. *)
Definition digits_value (l : list ascii) : Z :=
  fold_left (fun acc c => acc * 10 + digit_val c) l 0.

Lemma fold_digits_fixed (k : nat) (acc n : Z) : 0 <= n ->
  fold_left (fun acc c => acc * 10 + digit_val c) (digits_fixed k n) acc
  = acc * 10 ^ Z.of_nat k + n mod 10 ^ Z.of_nat k.
Proof.
  intros Hn. revert acc. induction k as [|k IH]; intros acc.
  - simpl. rewrite Z.mod_1_r. ring.
  - cbn [digits_fixed fold_left].
    assert (Hp : 0 < 10 ^ Z.of_nat k) by (apply Z.pow_pos_nonneg; lia).
    destruct (digit_of_spec ((n / 10 ^ Z.of_nat k) mod 10)) as [_ Hv].
    { pose proof (Z.mod_pos_bound (n / 10 ^ Z.of_nat k) 10). lia. }
    rewrite Hv, IH.
    rewrite Nat2Z.inj_succ, Z.pow_succ_r by lia.
    rewrite (Z.mul_comm 10 (10 ^ Z.of_nat k)) at 2.
    rewrite Z.rem_mul_r by lia. ring.
Qed.

Lemma digits_value_pad (k : nat) (n : Z) :
  0 <= n < 10 ^ Z.of_nat k -> digits_value (digits_fixed k n) = n.
Proof.
  intros Hn. unfold digits_value. rewrite fold_digits_fixed by lia.
  rewrite Z.mod_small by lia. ring.
Qed.

Lemma digit_eqb (c x : ascii) : is_digit c = true -> is_digit x = false -> Ascii.eqb c x = false.
Proof. intros Hc Hx. apply Ascii.eqb_neq. intros ->. congruence. Qed.

(** Evaluation of the parser over characters known to be digits. *)
Ltac digit_step :=
  match goal with
  | H : is_digit ?c = true |- context [is_digit ?c] => rewrite H
  | H : is_digit ?c = true |- context [Ascii.eqb ?c ?x] => rewrite (digit_eqb c x H eq_refl)
  | |- context [is_digit (Ascii ?b0 ?b1 ?b2 ?b3 ?b4 ?b5 ?b6 ?b7)] =>
      let c := constr:(Ascii b0 b1 b2 b3 b4 b5 b6 b7) in
      let v := eval vm_compute in (is_digit c) in change (is_digit c) with v
  end.

Ltac digit_eval := repeat (cbn; repeat digit_step).

(** [datetime.fromisoformat] on a string of the shape
    [YYYY-MM-DDTHH:MM:00]. *)
Lemma fromisoformat_render (s : string) (A M D H N : list ascii) :
  list_ascii_of_string s
  = (A ++ "-"%char :: M ++ "-"%char :: D ++ "T"%char :: H ++ ":"%char :: N ++ [":"; "0"; "0"]%char)%list ->
  length A = 4%nat -> length M = 2%nat -> length D = 2%nat -> length H = 2%nat -> length N = 2%nat ->
  forallb is_digit (A ++ M ++ D ++ H ++ N) = true ->
  datetime_fromisoformat s =
    let y := digits_value A in let m := digits_value M in let d := digits_value D in
    let hh := digits_value H in let mi := digits_value N in
    if check_date y m d && check_time hh mi 0 0
    then Some {| dt_us := (ymd2ord y m d - 1) * US_PER_DAY + hh * US_PER_HOUR + mi * US_PER_MIN
                          + 0 * 1000000 + 0; dt_tz := None |}
    else None.
Proof.
  intros Hs HA HM HD HH HN Hdig. unfold datetime_fromisoformat. rewrite Hs.
  destruct A as [|a0 [|a1 [|a2 [|a3 [|]]]]]; try discriminate HA.
  destruct M as [|m0 [|m1 [|]]]; try discriminate HM.
  destruct D as [|d0 [|d1 [|]]]; try discriminate HD.
  destruct H as [|h0 [|h1 [|]]]; try discriminate HH.
  destruct N as [|n0 [|n1 [|]]]; try discriminate HN.
  cbn [forallb app] in Hdig. repeat rewrite andb_true_iff in Hdig.
  destruct Hdig as (Ha0 & Ha1 & Ha2 & Ha3 & Hm0 & Hm1 & Hd0 & Hd1 & Hh0 & Hh1 & Hn0 & Hn1 & _).
  unfold parse_isoformat_date, parse_isoformat_time, parse_hh_mm_ss_ff,
    tzinfo_from_isoformat_results.
  digit_eval. reflexivity.
Qed.

Lemma time_of_day_decomp (t : Z) : 0 <= t -> t mod US_PER_MIN = 0 ->
  dt_second t = 0 /\ dt_microsecond t = 0 /\
  (t / US_PER_DAY) * US_PER_DAY + dt_hour t * US_PER_HOUR + dt_minute t * US_PER_MIN = t.
Proof.
  intros Ht Hal. unfold dt_second, dt_microsecond, dt_hour, dt_minute.
  unfold US_PER_DAY, US_PER_HOUR, US_PER_MIN in *.
  Z.div_mod_to_equations. lia.
Qed.

(** [datetime.fromisoformat(t.isoformat())] gives back [t] for a valid naive
    datetime on a whole minute. *)
Lemma fromisoformat_isoformat (t : Z) : 0 <= t <= MAXT -> t mod US_PER_MIN = 0 ->
  datetime_fromisoformat (isoformat t) = Some (naive t).
Proof.
  intros Ht Hal.
  destruct (dt_fields_range t Ht) as [Hy [Hm [Hd [Hh Hmi]]]].
  destruct (time_of_day_decomp t ltac:(lia) Hal) as [Hs [Hus Hdec]].
  pose proof (ord2ymd_spec (dt_ordinal t) (dt_ordinal_range t Ht)) as Hcal.
  assert (Hl : list_ascii_of_string (isoformat t)
    = (digits_fixed 4 (dt_year t) ++ "-"%char :: digits_fixed 2 (dt_month t) ++ "-"%char
       :: digits_fixed 2 (dt_day t) ++ "T"%char :: digits_fixed 2 (dt_hour t) ++ ":"%char
       :: digits_fixed 2 (dt_minute t) ++ [":"; "0"; "0"]%char)%list).
  { unfold isoformat, iso_us. rewrite Hus, Hs.
    repeat (rewrite ?list_ascii_of_string_append, ?list_ascii_of_pad; cbn [list_ascii_of_string]).
    rewrite app_nil_r. reflexivity. }
  rewrite (fromisoformat_render _ _ _ _ _ _ Hl) by (rewrite ?length_digits_fixed; reflexivity
    || (rewrite !forallb_app, !digits_fixed_all_digits; reflexivity)).
  cbv zeta.
  rewrite !digits_value_pad by (simpl; lia).
  unfold dt_year, dt_month, dt_day in *.
  destruct (ord2ymd (dt_ordinal t)) as [[y m] d] eqn:Eo. cbn [fst snd] in *.
  destruct Hcal as [_ [_ [Hdim Hord]]].
  replace (check_date y m d && check_time (dt_hour t) (dt_minute t) 0 0) with true
    by (symmetry; unfold check_date, check_time; repeat rewrite andb_true_iff;
        rewrite !Z.leb_le; lia).
  unfold naive. f_equal. f_equal.
  rewrite Hord. unfold dt_ordinal. lia.
Qed.

(** ** The due-time state machine *)

Lemma trunc_minute_aligned (x : Z) : trunc_minute x mod US_PER_MIN = 0.
Proof.
  unfold trunc_minute. pose proof (Z.div_mod x US_PER_MIN ltac:(unfold US_PER_MIN; lia)).
  replace (x - x mod US_PER_MIN) with ((x / US_PER_MIN) * US_PER_MIN) by lia.
  apply Z.mod_mul. unfold US_PER_MIN; lia.
Qed.

Lemma trunc_minute_id (x : Z) : x mod US_PER_MIN = 0 -> trunc_minute x = x.
Proof. intros H. unfold trunc_minute. rewrite H. ring. Qed.

(** What a successful [next_run_time] returns: a matching, representable
    whole minute, at or after the first candidate. *)
Lemma next_run_time_ok (cron_spec : string) (start r : Z) :
  0 <= start -> next_run_time cron_spec start = Ok r ->
  exists f, parse_cron_spec cron_spec = Ok f /\ fields_match f r = true /\
    trunc_minute (start + US_PER_MIN) <= r <= MAXT /\ r mod US_PER_MIN = 0.
Proof.
  intros Hs Hr.
  destruct (parse_cron_spec cron_spec) as [f|e] eqn:Hp;
    [|unfold next_run_time in Hr; rewrite Hp in Hr; discriminate].
  exists f. split; [reflexivity|].
  destruct (next_run_time_cases cron_spec f start Hp Hs)
    as [[k [Hk [HkW [Hr' [Hm [_ Hmax]]]]]]|[[Hr' _]|[Hr' _]]]; rewrite Hr' in Hr;
    [|discriminate|discriminate].
  injection Hr as <-. split; [exact Hm|]. split; [unfold US_PER_MIN in *; lia|].
  rewrite Z.mod_add by (unfold US_PER_MIN; lia). apply trunc_minute_aligned.
Qed.

Lemma dict_get_set_same (k : string) (v : json) (kv : list (string * json)) :
  dict_get k (dict_set k v kv) = Some v.
Proof.
  induction kv as [|[k' v'] kv IH]; simpl.
  - now rewrite String.eqb_refl.
  - destruct (String.eqb_spec k k') as [->|Hne]; simpl.
    + now rewrite String.eqb_refl.
    + apply String.eqb_neq in Hne. now rewrite Hne.
Qed.

Lemma dict_get_set_other (k k' : string) (v : json) (kv : list (string * json)) :
  k <> k' -> dict_get k (dict_set k' v kv) = dict_get k kv.
Proof.
  intros Hne. induction kv as [|[k0 v0] kv IH]; simpl.
  - apply String.eqb_neq in Hne. now rewrite Hne.
  - destruct (String.eqb_spec k' k0) as [->|Hne']; simpl.
    + apply String.eqb_neq in Hne. now rewrite Hne.
    + now rewrite IH.
Qed.

Lemma isoformat_truthy (t : Z) : truthy (JStr (isoformat t)) = true.
Proof. reflexivity. Qed.

(** [update_schedule_state] when the stored [next_due] is a whole minute at or
    before the current minute. *)
Lemma update_due_step (cron_spec : string) (kv : list (string * json)) (nd now_raw : Z) :
  dict_get "next_due" kv = Some (JStr (isoformat nd)) ->
  0 <= nd <= MAXT -> nd mod US_PER_MIN = 0 -> nd <= trunc_minute now_raw ->
  update_schedule_state cron_spec (Some (Stored (JObj kv))) now_raw =
  match next_run_time cron_spec nd with
  | Ok na => (Ok (true, na), Some (Stored (JObj
      (dict_set "next_due" (JStr (isoformat na))
        (dict_set "last_run" (JStr (isoformat (trunc_minute now_raw))) kv)))))
  | Err e => (Err e, Some (Stored (JObj kv)))
  end.
Proof.
  intros Hg Hnd Hal Hle.
  unfold update_schedule_state, update_schedule_state_body, load_state.
  rewrite Hg, isoformat_truthy, fromisoformat_isoformat by assumption.
  cbn [bind naive dt_tz dt_us].
  replace (nd <=? trunc_minute now_raw) with true by (symmetry; apply Z.leb_le; exact Hle).
  destruct (next_run_time cron_spec nd); reflexivity.
Qed.

Lemma update_not_due_step (cron_spec : string) (kv : list (string * json)) (nd now_raw : Z) :
  dict_get "next_due" kv = Some (JStr (isoformat nd)) ->
  0 <= nd <= MAXT -> nd mod US_PER_MIN = 0 -> trunc_minute now_raw < nd ->
  fst (update_schedule_state cron_spec (Some (Stored (JObj kv))) now_raw) = Ok (false, nd).
Proof.
  intros Hg Hnd Hal Hlt.
  unfold update_schedule_state, update_schedule_state_body, load_state.
  rewrite Hg, isoformat_truthy, fromisoformat_isoformat by assumption.
  cbn [bind naive dt_tz dt_us].
  replace (nd <=? trunc_minute now_raw) with false by (symmetry; apply Z.leb_gt; exact Hlt).
  reflexivity.
Qed.

(** A check that is not due writes the file back with [next_due] as it was
    and [last_run] set to [None] when it was missing. *)
Lemma update_not_due_file (cron_spec : string) (kv : list (string * json)) (nd now_raw : Z) :
  dict_get "next_due" kv = Some (JStr (isoformat nd)) ->
  0 <= nd <= MAXT -> nd mod US_PER_MIN = 0 -> trunc_minute now_raw < nd ->
  update_schedule_state cron_spec (Some (Stored (JObj kv))) now_raw
  = (Ok (false, nd),
     Some (Stored (JObj (match dict_get "last_run" kv with
                         | Some _ => kv
                         | None => dict_set "last_run" JNull kv
                         end)))).
Proof.
  intros Hg Hnd Hal Hlt.
  unfold update_schedule_state, update_schedule_state_body, load_state.
  rewrite Hg, isoformat_truthy, fromisoformat_isoformat by assumption.
  cbn [bind naive dt_tz dt_us].
  replace (nd <=? trunc_minute now_raw) with false by (symmetry; apply Z.leb_gt; exact Hlt).
  unfold dict_setdefault. rewrite Hg. reflexivity.
Qed.

Lemma feb_day_le_29 (x : Z) : 0 <= x <= MAXT -> dt_month x = 2 -> dt_day x <= 29.
Proof.
  intros Hx Hm. pose proof (ord2ymd_spec (dt_ordinal x) (dt_ordinal_range x Hx)) as H.
  unfold dt_month, dt_day in *. destruct (ord2ymd (dt_ordinal x)) as [[y m] d].
  simpl in *. subst m. destruct H as [_ [_ [Hd _]]].
  unfold days_in_month in Hd. simpl in Hd. destruct (is_leap y); lia.
Qed.

(** [0 0 30 2 *] (February 30th) matches no datetime. *)
Lemma feb_30_never_matches (x : Z) : 0 <= x <= MAXT ->
  fields_match (Some 0, Some 0, Some 30, Some 2, None) x = false.
Proof.
  intros Hx. unfold fields_match, cron_matches.
  destruct (dt_minute x =? 0); [|reflexivity].
  destruct (dt_hour x =? 0); [|reflexivity].
  destruct (Z.eqb_spec (dt_month x) 2) as [Hm|]; [|reflexivity].
  destruct (Z.eqb_spec (dt_day x) 30) as [Hd|]; [|reflexivity].
  pose proof (feb_day_le_29 x Hx Hm). lia.
Qed.

Lemma next_run_time_feb_30 (start : Z) : 0 <= start ->
  trunc_minute (start + US_PER_MIN) + WINDOW + US_PER_MIN <= MAXT ->
  next_run_time "0 0 30 2 *" start = Err (RuntimeError (unable_msg "0 0 30 2 *")).
Proof.
  intros Hs Hw.
  destruct (next_run_time_cases "0 0 30 2 *" (Some 0, Some 0, Some 30, Some 2, None) start
              eq_refl Hs) as [[k [Hk [HkW [_ [Hm _]]]]]|[[Hr _]|[_ [Hmax _]]]].
  - destruct (trunc_minute_bounds (start + US_PER_MIN)) as [Hc _]; [unfold US_PER_MIN; lia|].
    rewrite feb_30_never_matches in Hm; [discriminate|].
    unfold US_PER_MIN in *; lia.
  - exact Hr.
  - lia.
Qed.

(** C2: let the state file hold [next_due] as the isoformat of a minute
    [nd] and the clock read minute [nd]. When [next_run_time(spec, nd)]
    succeeds with [na], the first [update_schedule_state] reports due with
    [na], persists [last_run = nd] and [next_due = na]; a second call in the
    same minute reports not due with the same [na], and [na] is after [nd].
    When [next_run_time(spec, nd)] raises, the first call raises that error
    instead of reporting due, and the file is left as it was. *)
Theorem C2_due_reported_once (cron_spec : string) (kv : list (string * json))
    (nd now_raw : Z) :
  dict_get "next_due" kv = Some (JStr (isoformat nd)) ->
  0 <= nd <= MAXT -> trunc_minute now_raw = nd ->
  (forall na, next_run_time cron_spec nd = Ok na ->
   fst (update_schedule_state cron_spec (Some (Stored (JObj kv))) now_raw) = Ok (true, na) /\
   (exists kv1, snd (update_schedule_state cron_spec (Some (Stored (JObj kv))) now_raw)
                  = Some (Stored (JObj kv1)) /\
      dict_get "last_run" kv1 = Some (JStr (isoformat nd)) /\
      dict_get "next_due" kv1 = Some (JStr (isoformat na)) /\
      fst (update_schedule_state cron_spec (Some (Stored (JObj kv1))) now_raw) = Ok (false, na)) /\
   nd < na) /\
  (forall e, next_run_time cron_spec nd = Err e ->
   update_schedule_state cron_spec (Some (Stored (JObj kv))) now_raw
   = (Err e, Some (Stored (JObj kv)))).
Proof.
  intros Hg Hnd Hnow.
  assert (Hal : nd mod US_PER_MIN = 0) by (rewrite <- Hnow; apply trunc_minute_aligned).
  split.
  - intros na Hna.
    destruct (next_run_time_ok cron_spec nd na ltac:(lia) Hna) as [f [_ [_ [Hr Hal']]]].
    rewrite trunc_minute_id in Hr by (rewrite Z.add_mod, Hal, Z.mod_same, Z.mod_0_l
                                       by (unfold US_PER_MIN; lia); reflexivity).
    assert (Hlt : nd < na) by (unfold US_PER_MIN in Hr; lia).
    rewrite (update_due_step cron_spec kv nd now_raw Hg Hnd Hal ltac:(lia)), Hna.
    split; [reflexivity|]. split; [|exact Hlt].
    eexists. split; [reflexivity|].
    rewrite dict_get_set_other by discriminate. rewrite dict_get_set_same, Hnow.
    split; [reflexivity|]. rewrite dict_get_set_same. split; [reflexivity|].
    apply update_not_due_step; [apply dict_get_set_same | lia | exact Hal' | lia].
  - intros e He.
    rewrite (update_due_step cron_spec kv nd now_raw Hg Hnd Hal ltac:(lia)), He.
    reflexivity.
Qed.

Lemma C2_due_reported_once_witness :
  let nd := mk_dt 2024 6 5 9 30 in
  let na := mk_dt 2024 6 6 9 30 in
  let kv := [("next_due"%string, JStr (isoformat nd)); ("last_run"%string, JNull)] in
  let now_raw := nd + 15000000 in
  let nd' := mk_dt 2024 3 1 0 0 in
  let kv' := [("next_due"%string, JStr (isoformat nd')); ("last_run"%string, JNull)] in
  (fst (update_schedule_state "30 9 * * *" (Some (Stored (JObj kv))) now_raw) = Ok (true, na) /\
   (exists kv1, snd (update_schedule_state "30 9 * * *" (Some (Stored (JObj kv))) now_raw)
                  = Some (Stored (JObj kv1)) /\
      dict_get "last_run" kv1 = Some (JStr (isoformat nd)) /\
      dict_get "next_due" kv1 = Some (JStr (isoformat na)) /\
      fst (update_schedule_state "30 9 * * *" (Some (Stored (JObj kv1))) now_raw) = Ok (false, na)) /\
   nd < na) /\
  update_schedule_state "0 0 30 2 *" (Some (Stored (JObj kv'))) nd'
  = (Err (RuntimeError (unable_msg "0 0 30 2 *")), Some (Stored (JObj kv'))).
Proof.
  intros nd na kv now_raw nd' kv'. split.
  - apply (proj1 (C2_due_reported_once "30 9 * * *" kv nd now_raw
             eq_refl ltac:(vm_compute; split; discriminate) ltac:(vm_compute; reflexivity))).
    vm_compute. reflexivity.
  - apply (proj2 (C2_due_reported_once "0 0 30 2 *" kv' nd' nd'
             eq_refl ltac:(vm_compute; split; discriminate) ltac:(vm_compute; reflexivity))).
    rewrite next_run_time_feb_30; [reflexivity | vm_compute; discriminate | vm_compute; discriminate].
Defined.

(** Counterexample to C2: with the unsatisfiable spec [0 0 30 2 *], a state
    file whose [next_due] is 2024-03-01T00:00 and the clock at that minute,
    [update_schedule_state] raises [RuntimeError] instead of reporting due. *)
Lemma C2_counterexample :
  fst (update_schedule_state "0 0 30 2 *"
         (Some (Stored (JObj [("next_due"%string, JStr (isoformat (mk_dt 2024 3 1 0 0)));
                              ("last_run"%string, JNull)])))
         (mk_dt 2024 3 1 0 0))
  = Err (RuntimeError (unable_msg "0 0 30 2 *")).
Proof.
  rewrite (update_due_step _ _ (mk_dt 2024 3 1 0 0)).
  - rewrite next_run_time_feb_30; [reflexivity | vm_compute; discriminate | vm_compute; discriminate].
  - reflexivity.
  - vm_compute. split; discriminate.
  - vm_compute. reflexivity.
  - vm_compute. discriminate.
Qed.

(** [initialize_schedule_state] without a trusted stored value: from the
    current minute minus one minute. *)
Lemma initialize_fresh (file : option state_file) (cron_spec : string) (overwrite : bool)
    (now_raw : Z) :
  (file = None \/ overwrite = true) ->
  initialize_schedule_state file cron_spec overwrite now_raw =
  match dt_add (trunc_minute now_raw) (- US_PER_MIN) with
  | Err e => (Err e, file)
  | Ok start =>
      match next_run_time cron_spec start with
      | Err e => (Err e, file)
      | Ok next_due =>
          (Ok (naive next_due),
           Some (Stored (JObj [("next_due"%string, JStr (isoformat next_due));
                               ("last_run"%string, JNull)])))
      end
  end.
Proof.
  intros [->| ->]; [reflexivity|].
  destruct file as [[|[]]|]; reflexivity.
Qed.

(** C3: the stored [next_due] after each operation. (a) A fresh or
    overwriting [initialize_schedule_state] that succeeds writes a [next_due]
    matching the spec and not before the current minute (it may be the
    current minute itself). (b) A due [update_schedule_state] that succeeds
    writes a [next_due] matching the spec and after the previous [next_due].
    (c) A check that is not due reports the stored [next_due], which is
    after the current time, and writes the file back with [next_due] and
    every key other than [last_run] unchanged. *)
Theorem C3_next_due_invariant (cron_spec : string) :
  (forall file overwrite now_raw dtv,
     (file = None \/ overwrite = true) ->
     fst (initialize_schedule_state file cron_spec overwrite now_raw) = Ok dtv ->
     exists nd f, dtv = naive nd /\
       snd (initialize_schedule_state file cron_spec overwrite now_raw)
         = Some (Stored (JObj [("next_due"%string, JStr (isoformat nd));
                               ("last_run"%string, JNull)])) /\
       parse_cron_spec cron_spec = Ok f /\ fields_match f nd = true /\
       trunc_minute now_raw <= nd) /\
  (forall kv nd now_raw na,
     dict_get "next_due" kv = Some (JStr (isoformat nd)) ->
     0 <= nd <= MAXT -> nd mod US_PER_MIN = 0 -> nd <= trunc_minute now_raw ->
     fst (update_schedule_state cron_spec (Some (Stored (JObj kv))) now_raw) = Ok (true, na) ->
     exists kv1 f,
       snd (update_schedule_state cron_spec (Some (Stored (JObj kv))) now_raw)
         = Some (Stored (JObj kv1)) /\
       dict_get "next_due" kv1 = Some (JStr (isoformat na)) /\
       parse_cron_spec cron_spec = Ok f /\ fields_match f na = true /\ nd < na) /\
  (forall kv nd now_raw,
     dict_get "next_due" kv = Some (JStr (isoformat nd)) ->
     0 <= nd <= MAXT -> nd mod US_PER_MIN = 0 -> trunc_minute now_raw < nd ->
     (exists kv1,
        update_schedule_state cron_spec (Some (Stored (JObj kv))) now_raw
        = (Ok (false, nd), Some (Stored (JObj kv1))) /\
        dict_get "next_due" kv1 = Some (JStr (isoformat nd)) /\
        (forall k, k <> "last_run"%string -> dict_get k kv1 = dict_get k kv)) /\
     now_raw < nd).
Proof.
  split; [|split].
  - intros file overwrite now_raw dtv Hfo Hok.
    rewrite initialize_fresh in * by exact Hfo.
    destruct (dt_add_cases (trunc_minute now_raw) (- US_PER_MIN)) as [[Hr Hadd]|[_ Hadd]];
      rewrite Hadd in *; [|discriminate].
    destruct (next_run_time cron_spec (trunc_minute now_raw + - US_PER_MIN)) as [nd|e] eqn:Hn;
      [|discriminate].
    injection Hok as <-.
    destruct (next_run_time_ok _ _ _ (proj1 Hr) Hn) as [f [Hp [Hm [Hb _]]]].
    replace (trunc_minute now_raw + - US_PER_MIN + US_PER_MIN) with (trunc_minute now_raw)
      in Hb by ring.
    rewrite trunc_minute_id in Hb by apply trunc_minute_aligned.
    exists nd, f. repeat (split; [reflexivity|]). split; [exact Hp|]. split; [exact Hm|]. lia.
  - intros kv nd now_raw na Hg Hnd Hal Hle Hok.
    rewrite (update_due_step cron_spec kv nd now_raw Hg Hnd Hal Hle) in *.
    destruct (next_run_time cron_spec nd) as [na'|e] eqn:Hn; [|discriminate].
    injection Hok as <-.
    destruct (next_run_time_ok _ _ _ (proj1 Hnd) Hn) as [f [Hp [Hm [Hb _]]]].
    rewrite trunc_minute_id in Hb by (rewrite Z.add_mod, Hal, Z.mod_same, Z.mod_0_l
                                        by (unfold US_PER_MIN; lia); reflexivity).
    eexists. exists f. split; [reflexivity|].
    split; [apply dict_get_set_same|]. split; [exact Hp|]. split; [exact Hm|].
    unfold US_PER_MIN in Hb. lia.
  - intros kv nd now_raw Hg Hnd Hal Hlt.
    split.
    { rewrite (update_not_due_file cron_spec kv nd now_raw Hg Hnd Hal Hlt).
      eexists. split; [reflexivity|].
      destruct (dict_get "last_run" kv) eqn:Hl.
      - split; [exact Hg | reflexivity].
      - rewrite dict_get_set_other by discriminate. split; [exact Hg|].
        intros k Hk. apply dict_get_set_other. exact Hk. }
    unfold trunc_minute in Hlt.
    pose proof (Z.mod_pos_bound now_raw US_PER_MIN ltac:(unfold US_PER_MIN; lia)) as Hb.
    pose proof (Z.div_mod now_raw US_PER_MIN ltac:(unfold US_PER_MIN; lia)) as Hd.
    pose proof (Z.div_mod nd US_PER_MIN ltac:(unfold US_PER_MIN; lia)) as Hd'.
    rewrite Hal in Hd'. unfold US_PER_MIN in *. lia.
Qed.

Lemma C3_next_due_invariant_witness :
  (exists nd f, naive (mk_dt 2024 6 5 9 30) = naive nd /\
     snd (initialize_schedule_state None "30 9 * * *" false (mk_dt 2024 6 5 8 0))
       = Some (Stored (JObj [("next_due"%string, JStr (isoformat nd));
                             ("last_run"%string, JNull)])) /\
     parse_cron_spec "30 9 * * *" = Ok f /\ fields_match f nd = true /\
     trunc_minute (mk_dt 2024 6 5 8 0) <= nd) /\
  (exists kv1 f,
     snd (update_schedule_state "30 9 * * *"
            (Some (Stored (JObj [("next_due"%string, JStr (isoformat (mk_dt 2024 6 5 9 30)))])))
            (mk_dt 2024 6 5 9 45))
       = Some (Stored (JObj kv1)) /\
     dict_get "next_due" kv1 = Some (JStr (isoformat (mk_dt 2024 6 6 9 30))) /\
     parse_cron_spec "30 9 * * *" = Ok f /\ fields_match f (mk_dt 2024 6 6 9 30) = true /\
     mk_dt 2024 6 5 9 30 < mk_dt 2024 6 6 9 30) /\
  ((exists kv1,
      update_schedule_state "30 9 * * *"
        (Some (Stored (JObj [("next_due"%string, JStr (isoformat (mk_dt 2024 6 5 9 30)))])))
        (mk_dt 2024 6 5 9 0)
      = (Ok (false, mk_dt 2024 6 5 9 30), Some (Stored (JObj kv1))) /\
      dict_get "next_due" kv1 = Some (JStr (isoformat (mk_dt 2024 6 5 9 30))) /\
      (forall k, k <> "last_run"%string -> dict_get k kv1 =
         dict_get k [("next_due"%string, JStr (isoformat (mk_dt 2024 6 5 9 30)))])) /\
   mk_dt 2024 6 5 9 0 < mk_dt 2024 6 5 9 30).
Proof.
  destruct (C3_next_due_invariant "30 9 * * *") as [Ha [Hb Hc]].
  split; [|split].
  - apply (Ha None false (mk_dt 2024 6 5 8 0) (naive (mk_dt 2024 6 5 9 30)));
      [left; reflexivity | vm_compute; reflexivity].
  - apply (Hb _ (mk_dt 2024 6 5 9 30) (mk_dt 2024 6 5 9 45) (mk_dt 2024 6 6 9 30));
      [reflexivity | vm_compute; split; discriminate | vm_compute; reflexivity
      | vm_compute; discriminate | vm_compute; reflexivity].
  - apply (Hc _ (mk_dt 2024 6 5 9 30) (mk_dt 2024 6 5 9 0));
      [reflexivity | vm_compute; split; discriminate | vm_compute; reflexivity
      | vm_compute; reflexivity].
Defined.

(** Counterexample to C3: with the daily spec [0 9 * * *], a
    stored [next_due] of 2024-01-01T09:00 and the clock at 2024-01-03T10:00
    (two slots missed), the due check reports due and persists the slot after
    the previous [next_due], 2024-01-02T09:00, which is already in the past. *)
Lemma C3_counterexample :
  fst (update_schedule_state "0 9 * * *"
         (Some (Stored (JObj [("next_due"%string, JStr (isoformat (mk_dt 2024 1 1 9 0)))])))
         (mk_dt 2024 1 3 10 0)) = Ok (true, mk_dt 2024 1 2 9 0) /\
  snd (update_schedule_state "0 9 * * *"
         (Some (Stored (JObj [("next_due"%string, JStr (isoformat (mk_dt 2024 1 1 9 0)))])))
         (mk_dt 2024 1 3 10 0))
  = Some (Stored (JObj [("next_due"%string, JStr (isoformat (mk_dt 2024 1 2 9 0)));
                        ("last_run"%string, JStr (isoformat (mk_dt 2024 1 3 10 0)))])) /\
  mk_dt 2024 1 2 9 0 < mk_dt 2024 1 3 10 0.
Proof.
  rewrite (update_due_step _ _ (mk_dt 2024 1 1 9 0)).
  - replace (next_run_time "0 9 * * *" (mk_dt 2024 1 1 9 0)) with
      (Ok (mk_dt 2024 1 2 9 0) : result Z) by (vm_compute; reflexivity).
    split; [reflexivity|]. split; [|vm_compute; reflexivity].
    replace (trunc_minute (mk_dt 2024 1 3 10 0)) with (mk_dt 2024 1 3 10 0)
      by (vm_compute; reflexivity).
    reflexivity.
  - reflexivity.
  - vm_compute. split; discriminate.
  - vm_compute. reflexivity.
  - vm_compute. discriminate.
Qed.

Lemma dt_add_err (t d : Z) (e : py_error) : dt_add t d = Err e -> e = OverflowError.
Proof.
  unfold dt_add. destruct ((0 <=? t + d) && (t + d <=? MAXT)); congruence.
Qed.

Lemma astimezone_err (x : Z) (a b : tzinfo) (e : py_error) :
  astimezone x a b = Err e -> e = OverflowError.
Proof.
  unfold astimezone. destruct (same_tz a b); [discriminate|].
  destruct (dt_add x (- tz_utcoffset a x)) as [u|e'] eqn:E; cbn [bind].
  - apply dt_add_err.
  - intros H. injection H as <-. exact (dt_add_err _ _ _ E).
Qed.

(** A parsed offset is absent or one of the objects [parsed_tz] builds. *)
Lemma tzinfo_results_shape (tz : option (Z * Z)) (r : option tzinfo) :
  tzinfo_from_isoformat_results tz = Some r -> r = None \/ exists off, r = Some (parsed_tz off).
Proof.
  unfold tzinfo_from_isoformat_results. intros H.
  destruct tz as [[secs us]|]; [|injection H as <-; auto].
  destruct (secs =? 0); [injection H as <-; right; exists 0; reflexivity|].
  destruct (_ && _); [injection H as <-; eauto | discriminate].
Qed.

Lemma fromisoformat_tz_shape (s : string) (dtv : pydatetime) :
  datetime_fromisoformat s = Some dtv ->
  dt_tz dtv = None \/ exists off, dt_tz dtv = Some (parsed_tz off).
Proof.
  unfold datetime_fromisoformat. intros H.
  repeat match type of H with
  | context [match ?x with _ => _ end] =>
      lazymatch x with
      | tzinfo_from_isoformat_results ?r => let E := fresh "E" in destruct x as [tzi|] eqn:E
      | _ => destruct x
      end
  | context [if ?x then _ else _] => destruct x
  end; try discriminate; injection H as <-; cbn [dt_tz]; eauto using tzinfo_results_shape.
Qed.

Lemma same_tz_parsed (off : Z) : same_tz (parsed_tz off) (parsed_tz off) = true.
Proof. unfold parsed_tz. destruct (off =? 0); reflexivity. Qed.

(** Attaching the source zone keeps the wall time of a parsed datetime. *)
Lemma ensure_parsed (dtv : pydatetime) (hint : option tzinfo) (local_zone : tzinfo) :
  (dt_tz dtv = None \/ exists off, dt_tz dtv = Some (parsed_tz off)) ->
  ensure_datetime_timezone dtv (first_tz (dt_tz dtv) hint local_zone)
  = Ok {| dt_us := dt_us dtv; dt_tz := Some (first_tz (dt_tz dtv) hint local_zone) |}.
Proof.
  intros [H|[off H]]; unfold ensure_datetime_timezone; rewrite H; [reflexivity|].
  cbn [first_tz]. unfold astimezone. rewrite same_tz_parsed. reflexivity.
Qed.

(** [normalize_schedule] on a single line that is neither a macro nor a
    five- or six-field expression: the result of [convert_iso_to_cron]. *)
Lemma normalize_iso_path (s : string) (tz_hint : option tzinfo) (local_zone : tzinfo)
    (now_utc : Z) :
  String.eqb (strip s) "" = false -> has_crlf (strip s) = false ->
  startswith (strip s) "@" = false ->
  (Nat.eqb (length (split_ws (strip s))) 5 || Nat.eqb (length (split_ws (strip s))) 6) = false ->
  normalize_schedule s tz_hint local_zone now_utc =
  match convert_iso_to_cron (strip s) tz_hint local_zone now_utc with
  | Ok (Some c) => Ok (c, strip s)
  | Ok None => Err (ValueError schedule_msg)
  | Err e => Err e
  end.
Proof.
  intros He Hc Ha Hl. unfold normalize_schedule. rewrite He, Hc. cbn [orb].
  rewrite Ha, Hl. destruct (convert_iso_to_cron (strip s) tz_hint local_zone now_utc)
    as [[c|]|e]; reflexivity.
Qed.

(** C4: an ISO 8601 schedule. A full date-time [dtv] gets its source zone
    (its own offset, else the hint, else the local zone) attached with its
    wall time kept, is converted to the local zone, and gives
    [minute hour day month *] of the local result; a bare time of day is
    placed on today's date in the source zone and gives [minute hour * * *]
    of the local result. Either conversion may leave the datetime range,
    and then [OverflowError] is raised. With local zone UTC,
    [2024-06-05T09:30] gives [30 9 5 6 *]. *)
Theorem C4_iso_normalizes :
  (forall s tz_hint local_zone now_utc dtv,
     String.eqb (strip s) "" = false -> has_crlf (strip s) = false ->
     startswith (strip s) "@" = false ->
     (Nat.eqb (length (split_ws (strip s))) 5 || Nat.eqb (length (split_ws (strip s))) 6) = false ->
     datetime_fromisoformat (rewrite_zulu (strip s)) = Some dtv ->
     normalize_schedule s tz_hint local_zone now_utc =
     match astimezone (dt_us dtv) (first_tz (dt_tz dtv) tz_hint local_zone) local_zone with
     | Ok loc => Ok (sp (str_of_Z (dt_minute loc)) (sp (str_of_Z (dt_hour loc))
                      (sp (str_of_Z (dt_day loc)) (sp (str_of_Z (dt_month loc)) "*"%string))),
                     strip s)
     | Err _ => Err OverflowError
     end) /\
  (forall s tz_hint local_zone now_utc tod time_tz,
     String.eqb (strip s) "" = false -> has_crlf (strip s) = false ->
     startswith (strip s) "@" = false ->
     (Nat.eqb (length (split_ws (strip s))) 5 || Nat.eqb (length (split_ws (strip s))) 6) = false ->
     datetime_fromisoformat (rewrite_zulu (strip s)) = None ->
     time_fromisoformat (rewrite_zulu (drop_leading_T (strip s))) = Some (tod, time_tz) ->
     normalize_schedule s tz_hint local_zone now_utc =
     match dt_add now_utc (tz_fromutc_offset (first_tz time_tz tz_hint local_zone) now_utc) with
     | Ok now_in_zone =>
         match astimezone (now_in_zone - now_in_zone mod US_PER_DAY + tod)
                 (first_tz time_tz tz_hint local_zone) local_zone with
         | Ok loc => Ok (sp (str_of_Z (dt_minute loc)) (sp (str_of_Z (dt_hour loc)) "* * *"%string),
                         strip s)
         | Err _ => Err OverflowError
         end
     | Err _ => Err OverflowError
     end) /\
  (forall now_utc, normalize_schedule "2024-06-05T09:30" None utc now_utc
                   = Ok ("30 9 5 6 *"%string, "2024-06-05T09:30"%string)).
Proof.
  split; [|split].
  - intros s tz_hint local_zone now_utc dtv He Hc Ha Hl Hd.
    rewrite normalize_iso_path by assumption.
    unfold convert_iso_to_cron. rewrite strip_idem, Hd. cbv zeta.
    rewrite (ensure_parsed dtv tz_hint local_zone (fromisoformat_tz_shape _ _ Hd)).
    cbn [bind dt_us].
    destruct (astimezone (dt_us dtv) (first_tz (dt_tz dtv) tz_hint local_zone) local_zone)
      as [loc|e] eqn:E; cbn [bind]; [reflexivity|].
    rewrite (astimezone_err _ _ _ _ E). reflexivity.
  - intros s tz_hint local_zone now_utc tod time_tz He Hc Ha Hl Hd Ht.
    rewrite normalize_iso_path by assumption.
    unfold convert_iso_to_cron. rewrite strip_idem, Hd. cbv zeta. rewrite Ht.
    destruct (dt_add now_utc (tz_fromutc_offset (first_tz time_tz tz_hint local_zone) now_utc))
      as [nz|e] eqn:E; cbn [bind]; [|rewrite (dt_add_err _ _ _ E); reflexivity].
    destruct time_tz as [z|];
      cbn [combine_time_with_timezone ensure_datetime_timezone dt_tz bind dt_us first_tz];
      [ destruct (astimezone (nz - nz mod US_PER_DAY + tod) z local_zone) as [loc|e'] eqn:E'
      | destruct (astimezone (nz - nz mod US_PER_DAY + tod)
                    (match tz_hint with Some z => z | None => local_zone end) local_zone)
          as [loc|e'] eqn:E' ];
      cbn [bind]; try reflexivity; rewrite (astimezone_err _ _ _ _ E'); reflexivity.
  - intros now_utc. vm_compute. reflexivity.
Qed.

Lemma C4_iso_normalizes_witness :
  normalize_schedule " 2024-06-05T09:30+02:00 "%string None utc 0
    = Ok ("30 7 5 6 *"%string, "2024-06-05T09:30+02:00"%string) /\
  normalize_schedule "T23:15Z"%string None (fixed_tz (2 * US_PER_HOUR)) (mk_dt 2024 6 5 12 0)
    = Ok ("15 1 * * *"%string, "T23:15Z"%string) /\
  normalize_schedule "2024-06-05T09:30"%string None utc 0
    = Ok ("30 9 5 6 *"%string, "2024-06-05T09:30"%string) /\
  normalize_schedule "20240605T0930"%string None utc 0
    = Ok ("30 9 5 6 *"%string, "20240605T0930"%string).
Proof.
  destruct C4_iso_normalizes as [Hd [Ht He]].
  split; [|split; [|split]].
  - rewrite (Hd " 2024-06-05T09:30+02:00 "%string None utc 0
               {| dt_us := mk_dt 2024 6 5 9 30; dt_tz := Some (parsed_tz (2 * US_PER_HOUR)) |});
      vm_compute; reflexivity.
  - rewrite (Ht "T23:15Z"%string None (fixed_tz (2 * US_PER_HOUR)) (mk_dt 2024 6 5 12 0)
               (23 * US_PER_HOUR + 15 * US_PER_MIN) (Some utc));
      vm_compute; reflexivity.
  - apply He.
  - rewrite (Hd "20240605T0930"%string None utc 0
               {| dt_us := mk_dt 2024 6 5 9 30; dt_tz := None |});
      vm_compute; reflexivity.
Defined.

(** Counterexample to C4: [9999-12-31T23:30-01:00] is a valid ISO 8601
    date-time, but converting it to a UTC local zone passes the largest
    datetime, so normalization raises [OverflowError] instead of giving a
    canonical spec. *)
Lemma C4_counterexample :
  normalize_schedule "9999-12-31T23:30-01:00"%string None utc 0 = Err OverflowError /\
  datetime_fromisoformat "9999-12-31T23:30-01:00"%string
  = Some {| dt_us := mk_dt 9999 12 31 23 30;
            dt_tz := Some (parsed_tz (- US_PER_HOUR)) |}.
Proof. split; vm_compute; reflexivity. Qed.

(** ** The ranges of generated specs *)

(** Month, day, hour and minute of any datetime value are in range. *)
Lemma dt_fields_any (t : Z) :
  1 <= dt_month t <= 12 /\ 1 <= dt_day t <= 31 /\ 0 <= dt_hour t <= 23 /\ 0 <= dt_minute t <= 59.
Proof.
  unfold dt_month, dt_day, dt_hour, dt_minute, ord2ymd.
  pose proof (Z.mod_pos_bound (dt_ordinal t - 1) 146097 ltac:(lia)) as Hr.
  pose proof (ord2ymd_cycle_spec _ Hr) as H.
  destruct (ord2ymd_cycle ((dt_ordinal t - 1) mod 146097)) as [[y m] d]. simpl.
  destruct H as [_ [Hm [Hd _]]].
  pose proof (days_in_month_le_31 y m Hm).
  pose proof (Z.mod_pos_bound (t / US_PER_HOUR) 24 ltac:(lia)).
  pose proof (Z.mod_pos_bound (t / US_PER_MIN) 60 ltac:(lia)).
  lia.
Qed.

Lemma field_roundtrip_all : all_from 60 0 field_roundtrip = true.
Proof. vm_compute. reflexivity. Qed.

Lemma field_roundtrip_spec (v : Z) : 0 <= v <= 59 ->
  is_token (str_of_Z v) = true /\ parse_cron_value (str_of_Z v) = Ok (Some v).
Proof.
  intros Hv. pose proof (all_from_spec _ _ _ field_roundtrip_all v ltac:(simpl; lia)) as H.
  unfold field_roundtrip in H. apply andb_prop in H as [Ht Hp]. split; [exact Ht|].
  destruct (parse_cron_value (str_of_Z v)) as [[n|]|e]; try discriminate.
  apply Z.eqb_eq in Hp. now subst.
Qed.

Lemma star_token : is_token "*" = true.
Proof. reflexivity. Qed.

(** The spec [convert_iso_to_cron] builds from a full date-time. *)
Lemma iso_full_spec_ok (loc : Z) :
  exists f, parse_cron_spec (sp (str_of_Z (dt_minute loc)) (sp (str_of_Z (dt_hour loc))
              (sp (str_of_Z (dt_day loc)) (sp (str_of_Z (dt_month loc)) "*"%string))))
            = Ok f /\ fields_in_range f = true.
Proof.
  destruct (dt_fields_any loc) as [Hmo [Hd [Hh Hmi]]].
  destruct (field_roundtrip_spec (dt_minute loc) ltac:(lia)) as [T1 P1].
  destruct (field_roundtrip_spec (dt_hour loc) ltac:(lia)) as [T2 P2].
  destruct (field_roundtrip_spec (dt_day loc) ltac:(lia)) as [T3 P3].
  destruct (field_roundtrip_spec (dt_month loc) ltac:(lia)) as [T4 P4].
  unfold parse_cron_spec. rewrite split_ws_five by (assumption || reflexivity).
  rewrite P1, P2, P3, P4. cbn [bind]. eexists. split; [reflexivity|].
  unfold fields_in_range, in_range.
  repeat rewrite andb_true_iff. rewrite !Z.leb_le. lia.
Qed.

(** The spec [convert_iso_to_cron] builds from a time of day. *)
Lemma iso_time_spec_ok (loc : Z) :
  exists f, parse_cron_spec (sp (str_of_Z (dt_minute loc)) (sp (str_of_Z (dt_hour loc))
              "* * *"%string)) = Ok f /\ fields_in_range f = true.
Proof.
  destruct (dt_fields_any loc) as [_ [_ [Hh Hmi]]].
  destruct (field_roundtrip_spec (dt_minute loc) ltac:(lia)) as [T1 P1].
  destruct (field_roundtrip_spec (dt_hour loc) ltac:(lia)) as [T2 P2].
  change "* * *"%string with (sp "*" (sp "*" "*")).
  unfold parse_cron_spec. rewrite split_ws_five by (assumption || reflexivity).
  rewrite P1, P2. cbn [bind]. eexists. split; [reflexivity|].
  unfold fields_in_range, in_range.
  repeat rewrite andb_true_iff. rewrite !Z.leb_le. lia.
Qed.

Lemma convert_iso_shape (v : string) (tz_hint : option tzinfo) (local_zone : tzinfo)
    (now_utc : Z) (c : string) :
  convert_iso_to_cron v tz_hint local_zone now_utc = Ok (Some c) ->
  exists loc,
    c = sp (str_of_Z (dt_minute loc)) (sp (str_of_Z (dt_hour loc))
          (sp (str_of_Z (dt_day loc)) (sp (str_of_Z (dt_month loc)) "*"%string))) \/
    c = sp (str_of_Z (dt_minute loc)) (sp (str_of_Z (dt_hour loc)) "* * *"%string).
Proof.
  unfold convert_iso_to_cron. cbv zeta.
  destruct (datetime_fromisoformat _) as [dtv|].
  - destruct (ensure_datetime_timezone _ _) as [dz|e]; cbn [bind]; [|discriminate].
    destruct (astimezone _ _ _) as [loc|e]; cbn [bind]; [|discriminate].
    intros H. injection H as <-. eauto.
  - destruct (time_fromisoformat _) as [[tod ttz]|]; [|discriminate].
    destruct (dt_add _ _) as [nz|e]; cbn [bind]; [|discriminate].
    destruct (combine_time_with_timezone _ _ _ _) as [cb|e]; cbn [bind]; [|discriminate].
    destruct (astimezone _ _ _) as [loc|e]; cbn [bind]; [|discriminate].
    intros H. injection H as <-. eauto.
Qed.

(** Every value of the macro table is an in-range spec. *)
Lemma macro_values_ok (k v : string) :
  In (k, v) macro_map -> exists f, parse_cron_spec v = Ok f /\ fields_in_range f = true.
Proof.
  simpl. intros H.
  repeat destruct H as [H|H]; try contradiction; injection H as _ <-;
    eexists; split; reflexivity.
Qed.

(** C9: a spec that [prepare_schedule] returns is either the user's
    stripped text passed through unchecked (a macro-like [@...] text or a
    five- or six-field expression), or a spec that parses with every fixed
    field in its range (minute 0-59, hour 0-23, day 1-31, month 1-12,
    weekday 0-7): the macro table's values and the specs built from ISO
    8601 times. *)
Theorem C9_prepared_spec_ranges (s : string) (tz_hint : option tzinfo) (local_zone : tzinfo)
    (now_utc : Z) (cron_spec display : string) :
  prepare_schedule s tz_hint local_zone now_utc = Ok (cron_spec, display) ->
  (cron_spec = strip s /\
   (startswith (strip s) "@" = true \/
    (Nat.eqb (length (split_ws (strip s))) 5 || Nat.eqb (length (split_ws (strip s))) 6) = true)) \/
  (exists f, parse_cron_spec cron_spec = Ok f /\ fields_in_range f = true).
Proof.
  unfold prepare_schedule, bind. destruct (String.eqb s "") eqn:Hs; [discriminate|].
  destruct (normalize_schedule (strip s) tz_hint local_zone now_utc) as [[c d0]|e] eqn:Hn;
    cbv beta iota; [|discriminate].
  intros H.
  assert (Hc : cron_spec = match lookup_str c macro_map with Some v => v | None => c end)
    by congruence.
  subst cron_spec. destruct (lookup_str c macro_map) as [v|] eqn:Hl.
  - right. exact (macro_values_ok _ _ (lookup_str_in _ _ _ Hl)).
  - unfold normalize_schedule in Hn. rewrite strip_idem in Hn.
    destruct (String.eqb (strip s) "" || has_crlf (strip s)); [discriminate|].
    destruct (startswith (strip s) "@") eqn:Ha.
    { injection Hn as <- _. left. auto. }
    destruct (Nat.eqb (length (split_ws (strip s))) 5 || Nat.eqb (length (split_ws (strip s))) 6)
      eqn:Hlen.
    { injection Hn as <- _. left. auto. }
    right.
    destruct (convert_iso_to_cron (strip s) tz_hint local_zone now_utc) as [[c'|]|e] eqn:Hconv;
      cbn [bind] in Hn; try discriminate.
    assert (Hc : c = c') by congruence. subst c.
    destruct (convert_iso_shape _ _ _ _ _ Hconv) as [loc [->| ->]];
      [apply iso_full_spec_ok | apply iso_time_spec_ok].
Qed.

Lemma C9_prepared_spec_ranges_witness :
  ((strip "2024-06-05T09:30" = strip "2024-06-05T09:30" /\
    (startswith (strip "2024-06-05T09:30") "@" = true \/
     (Nat.eqb (length (split_ws (strip "2024-06-05T09:30"))) 5
      || Nat.eqb (length (split_ws (strip "2024-06-05T09:30"))) 6) = true)) \/
   (exists f, parse_cron_spec "30 9 5 6 *" = Ok f /\ fields_in_range f = true))%string.
Proof.
  pose proof (C9_prepared_spec_ranges "2024-06-05T09:30"%string None utc 0
                "30 9 5 6 *"%string "2024-06-05T09:30"%string) as H.
  destruct H as [[Heq _]|H]; [vm_compute; reflexivity | vm_compute in Heq; discriminate |].
  right. exact H.
Defined.

(** Counterexample to C9: the five-field text [99 99 99 99 99] is accepted
    and returned as the canonical spec, and its fixed fields are out of
    range. *)
Lemma C9_counterexample :
  prepare_schedule "99 99 99 99 99"%string None utc 0
    = Ok ("99 99 99 99 99"%string, "99 99 99 99 99"%string) /\
  parse_cron_spec "99 99 99 99 99"%string = Ok (Some 99, Some 99, Some 99, Some 99, Some 99) /\
  fields_in_range (Some 99, Some 99, Some 99, Some 99, Some 99) = false.
Proof. split; [|split]; vm_compute; reflexivity. Qed.

(** ** The crontab remover *)

Definition nonblank (l : list string) : list string := filter (fun x => negb (is_blank x)) l.

Lemma subseq_nil_l {A : Type} (b : list A) : subseq [] b.
Proof. induction b; constructor; assumption. Qed.

Lemma subseq_refl {A : Type} (a : list A) : subseq a a.
Proof. induction a; [constructor | apply subseq_take; assumption]. Qed.

Lemma subseq_trans {A : Type} (a b c : list A) : subseq a b -> subseq b c -> subseq a c.
Proof.
  intros Hab Hbc. revert a Hab.
  induction Hbc as [|x b c Hbc IH|x b c Hbc IH]; intros a Hab.
  - exact Hab.
  - constructor. apply IH. exact Hab.
  - inversion Hab; subst.
    + apply subseq_skip. apply IH. assumption.
    + apply subseq_take. apply IH. assumption.
Qed.

Lemma subseq_app_r {A : Type} (a b : list A) : subseq a (a ++ b).
Proof. induction a; simpl; [apply subseq_nil_l | apply subseq_take; assumption]. Qed.

Lemma subseq_app {A : Type} (a b c d : list A) :
  subseq a b -> subseq c d -> subseq (a ++ c) (b ++ d).
Proof.
  intros H1 H2. induction H1; simpl; [exact H2 | apply subseq_skip | apply subseq_take]; assumption.
Qed.

Lemma subseq_filter {A : Type} (f : A -> bool) (a : list A) : subseq (filter f a) a.
Proof.
  induction a as [|x a IH]; simpl; [constructor|].
  destruct (f x); [apply subseq_take | apply subseq_skip]; exact IH.
Qed.

(** Dropping a blank last line, as the loop does at a marker. *)
Definition pop_blank (new_lines : list string) : list string :=
  match rev new_lines with
  | last :: _ => if is_blank last then removelast new_lines else new_lines
  | [] => new_lines
  end.

Lemma pop_blank_nonblank (l : list string) : nonblank (pop_blank l) = nonblank l.
Proof.
  unfold pop_blank. destruct (rev l) as [|x r] eqn:E; [reflexivity|].
  destruct (is_blank x) eqn:Hx; [|reflexivity].
  apply (f_equal (@rev _)) in E. rewrite rev_involutive in E. subst l. simpl.
  rewrite removelast_last. unfold nonblank. rewrite filter_app. simpl. rewrite Hx.
  simpl. now rewrite app_nil_r.
Qed.

Lemma pop_blank_subseq (l : list string) : subseq (pop_blank l) l.
Proof.
  unfold pop_blank. destruct (rev l) as [|x r] eqn:E; [apply subseq_refl|].
  destruct (is_blank x); [|apply subseq_refl].
  apply (f_equal (@rev _)) in E. rewrite rev_involutive in E. subst l. simpl.
  rewrite removelast_last. apply subseq_app_r.
Qed.

Lemma remove_loop_eq (lines acc : list string) (n : nat) :
  remove_loop lines acc n =
  match lines with
  | [] => (acc, n)
  | line :: rest =>
      if is_marker line then
        match rest with
        | [] => (pop_blank acc, S n)
        | _ :: rest' => remove_loop rest' (pop_blank acc) (S n)
        end
      else remove_loop rest (acc ++ [line]) n
  end.
Proof. destruct lines; reflexivity. Qed.

(** Induction on the length of a list, for the two-line steps of the loop. *)
Lemma list_len_ind {A : Type} (P : list A -> Prop) :
  (forall l, (forall l', (length l' < length l)%nat -> P l') -> P l) -> forall l, P l.
Proof.
  intros H l. remember (length l) as k eqn:Hk. revert l Hk.
  induction k as [k IH] using (well_founded_induction lt_wf).
  intros l ->. apply H. intros l' Hl'. exact (IH _ Hl' l' eq_refl).
Qed.

(** The non-blank lines after the loop are those kept before it and the
    non-blank lines of the rest outside marker blocks. *)
Lemma remove_loop_nonblank (lines acc : list string) (n : nat) :
  nonblank (fst (remove_loop lines acc n)) = nonblank acc ++ kept_nonblank lines.
Proof.
  revert acc n. induction lines as [lines IH] using list_len_ind. intros acc n.
  rewrite remove_loop_eq. destruct lines as [|line rest]; [simpl; now rewrite app_nil_r|].
  cbn [kept_nonblank]. destruct (is_marker line).
  - destruct rest as [|x rest'].
    + simpl. rewrite pop_blank_nonblank. now rewrite app_nil_r.
    + rewrite IH by (simpl; lia). now rewrite pop_blank_nonblank.
  - rewrite IH by (simpl; lia). unfold nonblank. rewrite filter_app. simpl.
    destruct (is_blank line); simpl; rewrite <- app_assoc; reflexivity.
Qed.

Lemma remove_loop_subseq (lines acc pre : list string) (n : nat) :
  subseq acc pre -> subseq (fst (remove_loop lines acc n)) (pre ++ lines).
Proof.
  revert acc pre n. induction lines as [lines IH] using list_len_ind. intros acc pre n Hs.
  rewrite remove_loop_eq. destruct lines as [|line rest]; [simpl; now rewrite app_nil_r|].
  destruct (is_marker line).
  - apply (subseq_trans _ _ _ (pop_blank_subseq acc)) in Hs.
    destruct rest as [|x rest'].
    + simpl. apply (subseq_trans _ _ _ Hs), subseq_app_r.
    + replace (pre ++ line :: x :: rest') with ((pre ++ [line; x]) ++ rest')
        by (rewrite <- app_assoc; reflexivity).
      apply IH; [simpl; lia|]. apply (subseq_trans _ _ _ Hs), subseq_app_r.
  - replace (pre ++ line :: rest) with ((pre ++ [line]) ++ rest)
      by (rewrite <- app_assoc; reflexivity).
    apply IH; [simpl; lia|]. apply subseq_app; [exact Hs | apply subseq_refl].
Qed.

Lemma remove_loop_count (lines acc : list string) (n : nat) :
  forallb (fun l => negb (is_marker l)) lines = true -> snd (remove_loop lines acc n) = n.
Proof.
  revert acc. induction lines as [|line rest IH]; intros acc H; [reflexivity|].
  simpl in H. apply andb_prop in H as [H1 H2].
  rewrite remove_loop_eq. destruct (is_marker line); [discriminate|]. apply IH, H2.
Qed.

Lemma drop_blank_prefix_suffix (l : list string) :
  exists p, l = p ++ drop_blank_prefix l /\ nonblank p = [].
Proof.
  induction l as [|x l [p [Hp Hn]]]; [exists []; auto|].
  simpl. destruct (is_blank x) eqn:Hx.
  - exists (x :: p). simpl. split; [now rewrite <- Hp|]. unfold nonblank in *. simpl.
    now rewrite Hx.
  - exists []. auto.
Qed.

Lemma drop_trailing_blank_spec (l : list string) :
  subseq (drop_trailing_blank l) l /\ nonblank (drop_trailing_blank l) = nonblank l.
Proof.
  unfold drop_trailing_blank. destruct (drop_blank_prefix_suffix (rev l)) as [p [Hp Hn]].
  assert (Hl : l = rev (drop_blank_prefix (rev l)) ++ rev p).
  { rewrite <- rev_app_distr, <- Hp. symmetry. apply rev_involutive. }
  split.
  - rewrite Hl at 2. apply subseq_app_r.
  - rewrite Hl at 2. unfold nonblank in *. rewrite filter_app.
    assert (Hr : filter (fun x => negb (is_blank x)) (rev p) = []).
    { rewrite filter_rev, Hn. reflexivity. }
    rewrite Hr. now rewrite app_nil_r.
Qed.

(** The lines the frame property names are among the non-blank lines the
    loop keeps, in the same order. *)
Lemma frame_kept_subseq (lines : list string) (prev_marker : bool) :
  subseq (frame_kept prev_marker lines) (kept_nonblank lines).
Proof.
  revert prev_marker. induction lines as [lines IH] using list_len_ind. intros pm.
  destruct lines as [|line rest]; [constructor|].
  cbn [frame_kept kept_nonblank]. destruct (is_marker line) eqn:Hm; cbn [orb app].
  - destruct rest as [|x rest']; [constructor|].
    cbn [frame_kept]. rewrite orb_true_r. cbn [app]. apply IH. simpl. lia.
  - destruct (is_blank line); [rewrite orb_true_r; cbn [app]; apply IH; simpl; lia|].
    destruct pm; cbn [orb app].
    + apply subseq_skip. apply IH. simpl. lia.
    + apply subseq_take. apply IH. simpl. lia.
Qed.

Lemma remove_loop_count_grows (lines acc : list string) (n : nat) :
  (n <= snd (remove_loop lines acc n))%nat /\
  (existsb is_marker lines = true -> (n < snd (remove_loop lines acc n))%nat).
Proof.
  revert acc n. induction lines as [lines IH] using list_len_ind. intros acc n.
  rewrite remove_loop_eq. destruct lines as [|line rest]; [simpl; split; [lia | discriminate]|].
  cbn [existsb]. destruct (is_marker line) eqn:Hm.
  - destruct rest as [|x rest']; [simpl; split; intros; lia|].
    destruct (IH rest' ltac:(simpl; lia) (pop_blank acc) (S n)) as [H _].
    split; intros; lia.
  - destruct (IH rest ltac:(simpl; lia) (acc ++ [line]) n) as [H1 H2]. split; [exact H1|].
    cbn [orb]. exact H2.
Qed.

(** The loop with the state-file removals either ends with the crontab
    edit of [remove_loop], or raises an exception that the removal for some
    marker line raised. *)
Lemma remove_loop_io_cases {fs : Type} (rms : fs -> string -> string -> result fs)
    (st : fs) (lines acc : list string) (n : nat) :
  (exists st', remove_loop_io rms st lines acc n = Ok (st', remove_loop lines acc n)) \/
  (exists e st0 line cmd, remove_loop_io rms st lines acc n = Err e /\
     In line lines /\ is_marker line = true /\ rms st0 line cmd = Err e).
Proof.
  revert st acc n. induction lines as [lines IH] using list_len_ind. intros st acc n.
  rewrite remove_loop_eq. destruct lines as [|line rest]; [left; exists st; reflexivity|].
  cbn [remove_loop_io]. destruct (is_marker line) eqn:Hm.
  - destruct (rms st line (match rest with next :: _ => next | [] => ""%string end))
      as [st1|e] eqn:Hr; cbn [bind].
    + destruct rest as [|x rest']; [left; exists st1; reflexivity|].
      destruct (IH rest' ltac:(simpl; lia) st1 (pop_blank acc) (S n))
        as [[st' H]|[e [st0 [l [cmd [H [Hin [Hl He]]]]]]]].
      * left. exists st'. exact H.
      * right. exists e, st0, l, cmd. split; [exact H|]. split; [|auto].
        right. right. exact Hin.
    + right. eexists e, st, line, _. split; [reflexivity|]. split; [left; reflexivity|].
      split; [exact Hm | exact Hr].
  - destruct (IH rest ltac:(simpl; lia) st (acc ++ [line]) n)
      as [[st' H]|[e [st0 [l [cmd [H [Hin [Hl He]]]]]]]].
    + left. exists st'. exact H.
    + right. exists e, st0, l, cmd. split; [exact H|]. split; [right; exact Hin | auto].
Qed.

(** Without a marker line, the loop calls no removal and keeps the file
    system. *)
Lemma remove_loop_io_plain {fs : Type} (rms : fs -> string -> string -> result fs)
    (st : fs) (lines acc : list string) (n : nat) :
  forallb (fun l => negb (is_marker l)) lines = true ->
  remove_loop_io rms st lines acc n = Ok (st, remove_loop lines acc n).
Proof.
  revert acc. induction lines as [|line rest IH]; intros acc H; [reflexivity|].
  cbn [forallb] in H. apply andb_prop in H as [Hl H].
  rewrite remove_loop_eq. cbn [remove_loop_io].
  destruct (is_marker line); [discriminate|]. apply IH. exact H.
Qed.

(** [remove_mailmerge_cron_jobs] either makes the crontab edit of
    [remove_cron_lines], or raises an exception that the state-file removal
    for some marker line raised; it then writes nothing. *)
Lemma remove_jobs_cases {fs : Type} (rms : fs -> string -> string -> result fs)
    (st : fs) (lines : list string) :
  (exists st', remove_mailmerge_cron_jobs rms st lines = Ok (st', remove_cron_lines lines)) \/
  (exists e st0 line cmd, remove_mailmerge_cron_jobs rms st lines = Err e /\
     In line lines /\ is_marker line = true /\ rms st0 line cmd = Err e).
Proof.
  unfold remove_mailmerge_cron_jobs, remove_cron_lines.
  destruct lines as [|l0 r0]; [left; exists st; reflexivity|].
  destruct (remove_loop_io_cases rms st (l0 :: r0) [] 0)
    as [[st' H]|[e [st0 [l [cmd [H [Hin [Hl He]]]]]]]]; rewrite H.
  - left. exists st'. destruct (remove_loop (l0 :: r0) [] 0) as [nl rj].
    destruct (Nat.ltb 0 rj); reflexivity.
  - right. exists e, st0, l, cmd. auto.
Qed.

Lemma remove_jobs_ok {fs : Type} (rms : fs -> string -> string -> result fs)
    (st st' : fs) (lines : list string) (r : nat * option (list string)) :
  remove_mailmerge_cron_jobs rms st lines = Ok (st', r) -> r = remove_cron_lines lines.
Proof.
  intros H. destruct (remove_jobs_cases rms st lines) as [[st1 H1]|[e [_ [_ [_ [H1 _]]]]]];
    rewrite H1 in H; [congruence | discriminate].
Qed.

Lemma remove_jobs_plain {fs : Type} (rms : fs -> string -> string -> result fs)
    (st : fs) (lines : list string) :
  forallb (fun l => negb (is_marker l)) lines = true ->
  remove_mailmerge_cron_jobs rms st lines = Ok (st, remove_cron_lines lines).
Proof.
  intros H. unfold remove_mailmerge_cron_jobs, remove_cron_lines.
  destruct lines as [|l0 r0]; [reflexivity|].
  rewrite remove_loop_io_plain by exact H.
  destruct (remove_loop (l0 :: r0) [] 0) as [nl rj]. destruct (Nat.ltb 0 rj); reflexivity.
Qed.

(** The crontab edit without a marker line: count [0], nothing written. *)
Lemma remove_cron_lines_plain (lines : list string) :
  forallb (fun l => negb (is_marker l)) lines = true -> remove_cron_lines lines = (0%nat, None).
Proof.
  intros H. unfold remove_cron_lines.
  destruct lines as [|l0 r0]; [reflexivity|].
  pose proof (remove_loop_count (l0 :: r0) [] 0 H) as Hc.
  destruct (remove_loop (l0 :: r0) [] 0) as [nl rj]. simpl in Hc. subst rj. reflexivity.
Qed.

(** C10: [remove_mailmerge_cron_jobs] on the crontab [lines], whatever the
    state-file removals do. Without a marker it removes no state file,
    returns [0] and writes nothing. With one, it either writes the crontab
    back and returns a positive count, or raises the exception that removing
    a marker's state file raised and writes nothing. What it writes is a
    subsequence of the old crontab; every line that is neither a marker,
    nor right after a marker, nor blank is in it, unchanged and in the same
    order; and its non-blank lines are exactly those outside the marker
    blocks. *)
Theorem C10_remove_frame {fs : Type} (rms : fs -> string -> string -> result fs) :
  (forall st lines, forallb (fun l => negb (is_marker l)) lines = true ->
     remove_mailmerge_cron_jobs rms st lines = Ok (st, (0%nat, None))) /\
  (forall st lines, existsb is_marker lines = true ->
     (exists st' n out, (0 < n)%nat /\
        remove_mailmerge_cron_jobs rms st lines = Ok (st', (n, Some out))) \/
     (exists e st0 line cmd, remove_mailmerge_cron_jobs rms st lines = Err e /\
        In line lines /\ is_marker line = true /\ rms st0 line cmd = Err e)) /\
  (forall st lines st' n out, remove_mailmerge_cron_jobs rms st lines = Ok (st', (n, Some out)) ->
     (0 < n)%nat /\ subseq out lines /\ subseq (frame_kept false lines) out /\
     nonblank out = kept_nonblank lines).
Proof.
  split; [|split].
  - intros st lines H. rewrite remove_jobs_plain by exact H.
    now rewrite remove_cron_lines_plain by exact H.
  - intros st lines H.
    destruct (remove_jobs_cases rms st lines) as [[st' Hr]|Herr]; [left|right; exact Herr].
    unfold remove_cron_lines in Hr.
    destruct lines as [|l0 r0]; [discriminate|].
    destruct (remove_loop_count_grows (l0 :: r0) [] 0) as [_ Hc]. specialize (Hc H).
    destruct (remove_loop (l0 :: r0) [] 0) as [nl rj]. simpl in Hc. cbv beta iota zeta in Hr.
    destruct (Nat.ltb_spec 0 rj); [|lia]. do 3 eexists. split; [exact Hc | exact Hr].
  - intros st lines st' n out H. apply remove_jobs_ok in H. symmetry in H.
    unfold remove_cron_lines in H.
    destruct lines as [|l0 r0]; [discriminate|].
    pose proof (remove_loop_nonblank (l0 :: r0) [] 0) as Hnb.
    pose proof (remove_loop_subseq (l0 :: r0) [] [] 0 subseq_nil) as Hsub.
    destruct (remove_loop (l0 :: r0) [] 0) as [nl rj]. simpl in Hnb, Hsub.
    cbv beta iota zeta in H. destruct (Nat.ltb_spec 0 rj); [|discriminate].
    injection H as <- <-.
    destruct (drop_trailing_blank_spec nl) as [Hs Hn].
    split; [assumption|]. split; [exact (subseq_trans _ _ _ Hs Hsub)|].
    assert (Hk : nonblank (drop_trailing_blank nl) = kept_nonblank (l0 :: r0))
      by (rewrite Hn; exact Hnb).
    split; [|exact Hk].
    apply (subseq_trans _ _ _ (frame_kept_subseq (l0 :: r0) false)).
    rewrite <- Hk. apply subseq_filter.
Qed.

Lemma C10_remove_frame_witness :
  remove_mailmerge_cron_jobs (fun st _ _ => Ok st) tt
    ["MAILTO=me"; "# mailmerge schedule: weekly (ab12)"; "0 9 * * 1 run"; "";
     "5 4 * * * backup"]%string
    = Ok (tt, (1%nat, Some ["MAILTO=me"; ""; "5 4 * * * backup"]%string)) /\
  remove_mailmerge_cron_jobs glob_label_removal tt
    ["# mailmerge schedule: /abs"; "echo hi"]%string
    = Err (NotImplementedError "Non-relative patterns are unsupported") /\
  remove_mailmerge_cron_jobs glob_label_removal tt ["MAILTO=me"; "5 4 * * * backup"]%string
    = Ok (tt, (0%nat, None)) /\
  ((exists st' n out, (0 < n)%nat /\
      remove_mailmerge_cron_jobs glob_label_removal tt
        ["# mailmerge schedule: /abs"; "echo hi"]%string = Ok (st', (n, Some out))) \/
   (exists e st0 line cmd, remove_mailmerge_cron_jobs glob_label_removal tt
        ["# mailmerge schedule: /abs"; "echo hi"]%string = Err e /\
      In line ["# mailmerge schedule: /abs"; "echo hi"]%string /\ is_marker line = true /\
      glob_label_removal st0 line cmd = Err e)) /\
  ((0 < 1)%nat /\
   subseq ["MAILTO=me"; ""; "5 4 * * * backup"]%string
          ["MAILTO=me"; "# mailmerge schedule: weekly (ab12)";
           "0 9 * * 1 run"; ""; "5 4 * * * backup"]%string /\
   subseq (frame_kept false ["MAILTO=me"; "# mailmerge schedule: weekly (ab12)";
                             "0 9 * * 1 run"; ""; "5 4 * * * backup"]%string)
          ["MAILTO=me"; ""; "5 4 * * * backup"]%string /\
   nonblank ["MAILTO=me"; ""; "5 4 * * * backup"]%string
   = kept_nonblank ["MAILTO=me"; "# mailmerge schedule: weekly (ab12)";
                    "0 9 * * 1 run"; ""; "5 4 * * * backup"]%string).
Proof.
  split; [vm_compute; reflexivity|]. split; [vm_compute; reflexivity|].
  split; [apply (proj1 (C10_remove_frame glob_label_removal)); vm_compute; reflexivity|].
  split; [apply (proj1 (proj2 (C10_remove_frame glob_label_removal))); vm_compute; reflexivity|].
  apply (proj2 (proj2 (C10_remove_frame (fun (st : unit) _ _ => Ok st))) tt _ tt).
  vm_compute. reflexivity.
Defined.

(** Counterexample to C10: the blank line at index 1 is followed by another
    blank line and is next to no marker block, yet it is removed: the first
    marker pops the blank at index 2, the second marker then pops the one at
    index 1. *)
Lemma C10_counterexample :
  remove_mailmerge_cron_jobs (fun (st : unit) _ _ => Ok st) tt
    ["A"; ""; ""; "# mailmerge schedule: one"; "cmd1";
     "# mailmerge schedule: two"; "cmd2"; "Y"]%string
  = Ok (tt, (2%nat, Some ["A"; "Y"]%string)).
Proof. vm_compute. reflexivity. Qed.

(** * Further properties of the scheduling code *)

(** ** The next-run search *)

(** A successful [next_run_time] returns a matching whole minute strictly
    after [start] and at most a minute plus 366 days after it. *)
Theorem next_run_time_after_start (cron_spec : string) (start r : Z) :
  0 <= start -> next_run_time cron_spec start = Ok r ->
  start < r /\ r <= start + US_PER_MIN + WINDOW /\ r mod US_PER_MIN = 0 /\
  exists f, parse_cron_spec cron_spec = Ok f /\ fields_match f r = true.
Proof.
  intros Hs Hr.
  destruct (parse_cron_spec cron_spec) as [f|e] eqn:Hp;
    [|unfold next_run_time in Hr; rewrite Hp in Hr; discriminate].
  destruct (trunc_minute_bounds (start + US_PER_MIN)) as [Hb1 Hb2]; [unfold US_PER_MIN; lia|].
  destruct (next_run_time_cases cron_spec f start Hp Hs)
    as [[k [Hk [HkW [Hr' [Hm [_ _]]]]]]|[[Hr' _]|[Hr' _]]]; rewrite Hr' in Hr;
    [|discriminate|discriminate].
  injection Hr as <-.
  split; [unfold US_PER_MIN in *; lia|]. split; [lia|].
  split; [|exists f; split; [reflexivity | exact Hm]].
  rewrite Z.mod_add by (unfold US_PER_MIN; lia). apply trunc_minute_aligned.
Qed.

Lemma next_run_time_after_start_witness :
  0 <= mk_dt 2024 6 5 8 0 /\ next_run_time "30 9 * * *" (mk_dt 2024 6 5 8 0) = Ok (mk_dt 2024 6 5 9 30) /\
  (mk_dt 2024 6 5 8 0 < mk_dt 2024 6 5 9 30 /\
   mk_dt 2024 6 5 9 30 <= mk_dt 2024 6 5 8 0 + US_PER_MIN + WINDOW /\
   mk_dt 2024 6 5 9 30 mod US_PER_MIN = 0 /\
   exists f, parse_cron_spec "30 9 * * *" = Ok f /\ fields_match f (mk_dt 2024 6 5 9 30) = true).
Proof.
  assert (H0 : 0 <= mk_dt 2024 6 5 8 0) by (vm_compute; discriminate).
  assert (H1 : next_run_time "30 9 * * *" (mk_dt 2024 6 5 8 0) = Ok (mk_dt 2024 6 5 9 30))
    by (vm_compute; reflexivity).
  split; [exact H0|]. split; [exact H1|].
  exact (next_run_time_after_start _ _ _ H0 H1).
Defined.

(** With every field a wildcard, [next_run_time] returns the first
    candidate, the minute after [start], when the search window is
    representable. *)
Theorem next_run_time_every_minute (start : Z) :
  0 <= start -> trunc_minute (start + US_PER_MIN) + WINDOW <= MAXT ->
  next_run_time "* * * * *" start = Ok (trunc_minute (start + US_PER_MIN)).
Proof.
  intros Hs Hw.
  destruct (next_run_time_cases "* * * * *" (None, None, None, None, None) start eq_refl Hs)
    as [[k [Hk [_ [Hr [_ [Hfirst _]]]]]]|[[_ Hno]|[_ [_ Hno]]]].
  - destruct (Z.eq_dec k 0) as [->|Hne].
    + rewrite Hr. f_equal. ring.
    + specialize (Hfirst 0 ltac:(lia)). discriminate.
  - specialize (Hno 0 ltac:(lia) ltac:(rewrite WINDOW_val; lia)). discriminate.
  - specialize (Hno Hw 0 ltac:(lia) ltac:(rewrite WINDOW_val; lia)). discriminate.
Qed.

Lemma next_run_time_every_minute_witness :
  next_run_time "* * * * *" (mk_dt 2024 6 5 8 0 + 30000000) = Ok (mk_dt 2024 6 5 8 1).
Proof.
  replace (mk_dt 2024 6 5 8 1) with (trunc_minute (mk_dt 2024 6 5 8 0 + 30000000 + US_PER_MIN))
    by (vm_compute; reflexivity).
  apply next_run_time_every_minute; vm_compute; discriminate.
Defined.

(** ** The cron matcher *)

(** Weekdays are taken modulo 7, so [7] and [0] both select Sunday: a
    weekday field [v + 7] matches exactly when [v] does, and [0] matches the
    days whose Python [weekday()] is 6. *)
Theorem cron_matches_weekday_mod7 (t : Z) (mi h d mo : option Z) (w : Z) :
  cron_matches t mi h d mo (Some (w + 7)) = cron_matches t mi h d mo (Some w) /\
  cron_matches t None None None None (Some 0) = Z.eqb (dt_weekday t) 6.
Proof.
  split.
  - unfold cron_matches. cbv zeta.
    replace ((w + 7) mod 7) with (w mod 7)
      by (rewrite <- (Z_mod_plus_full w 1 7); f_equal; ring).
    reflexivity.
  - unfold cron_matches, dt_weekday. cbn [negb].
    pose proof (Z.mod_pos_bound (dt_ordinal t + 6) 7 ltac:(lia)).
    set (x := (dt_ordinal t + 6) mod 7). change (0 mod 7) with 0.
    destruct (Z.eqb_spec ((x + 1) mod 7) 0) as [E|E]; destruct (Z.eqb_spec x 6) as [E'|E'];
      simpl; try reflexivity.
    + exfalso. assert (x + 1 < 7 \/ x + 1 = 7) as [Hl|Hl] by lia.
      * rewrite Z.mod_small in E by lia. lia.
      * lia.
    + exfalso. apply E. rewrite E'. reflexivity.
Qed.

(** ** The backend converters and the matcher's parser *)

Lemma is_digit_not_ws (c : ascii) : is_digit c = true -> is_ws c = false.
Proof.
  unfold is_digit, is_ws. intros H. apply andb_prop in H as [H1 H2].
  apply Nat.leb_le in H1, H2.
  destruct (Nat.leb_spec 9 (nat_of_ascii c)); destruct (Nat.leb_spec (nat_of_ascii c) 13);
  destruct (Nat.leb_spec 28 (nat_of_ascii c)); destruct (Nat.leb_spec (nat_of_ascii c) 32);
  simpl; lia.
Qed.

Lemma isdigit_strip (s : string) : isdigit s = true -> strip s = s.
Proof.
  intros H. assert (Hl : forallb is_digit (list_ascii_of_string s) = true)
    by (destruct s; [discriminate | exact H]).
  unfold strip.
  assert (Hid : forall l, forallb is_digit l = true -> lstrip_l l = l).
  { intros [|c l] Hc; [reflexivity|]. apply lstrip_l_id. simpl in Hc.
    apply andb_prop in Hc as [Hc _]. now apply is_digit_not_ws. }
  rewrite (Hid _ Hl), Hid.
  - now rewrite rev_involutive, string_of_list_ascii_of_string.
  - rewrite forallb_forall in *. intros x Hx. apply Hl. now apply in_rev.
Qed.

Lemma digit_val_nonneg (c : ascii) : is_digit c = true -> 0 <= digit_val c.
Proof.
  unfold is_digit, digit_val. intros H. apply andb_prop in H as [H _].
  apply Nat.leb_le in H. lia.
Qed.

Lemma int_digits_all (l : list ascii) (acc : Z) :
  forallb is_digit l = true -> 0 <= acc -> exists n, int_digits acc false l = Some n /\ 0 <= n.
Proof.
  revert acc. induction l as [|c l IH]; intros acc Hl Ha; [exists acc; auto|].
  simpl in Hl. apply andb_prop in Hl as [Hc Hl]. cbn [int_digits].
  destruct (Ascii.eqb_spec c "_") as [->|_]; [discriminate|].
  rewrite Hc. apply IH; [exact Hl|]. pose proof (digit_val_nonneg c Hc). lia.
Qed.

(** [int(field)] of a [str.isdigit()] field is a non-negative integer. *)
Lemma py_int_isdigit (s : string) :
  isdigit s = true -> exists n, py_int s = Some n /\ 0 <= n.
Proof.
  intros H. unfold py_int. rewrite isdigit_strip by exact H.
  destruct s as [|c s]; [discriminate|]. cbn [list_ascii_of_string].
  cbn [isdigit list_ascii_of_string forallb] in H. apply andb_prop in H as [Hc Hs].
  assert (Hu : int_unsigned (c :: list_ascii_of_string s) =
               int_digits (digit_val c) false (list_ascii_of_string s))
    by (unfold int_unsigned; now rewrite Hc).
  assert (Hm : match c :: list_ascii_of_string s with
               | "+"%char :: l => int_unsigned l
               | "-"%char :: l => option_map Z.opp (int_unsigned l)
               | l => int_unsigned l
               end = int_unsigned (c :: list_ascii_of_string s)).
  { destruct c as [b0 b1 b2 b3 b4 b5 b6 b7].
    destruct b0, b1, b2, b3, b4, b5, b6, b7; try discriminate Hc; reflexivity. }
  rewrite Hm, Hu. apply int_digits_all; [exact Hs | exact (digit_val_nonneg c Hc)].
Qed.

(** What a backend field parse accepts, [parse_cron_value] reads the same. *)
Lemma numeric_field_ok (f name : string) (b : bool) (v : option Z) :
  _parse_numeric_field f name b = Ok v ->
  parse_cron_value f = Ok v /\ (forall n, v = Some n -> 0 <= n) /\ (b = false -> v <> None).
Proof.
  unfold _parse_numeric_field, parse_cron_value.
  destruct (String.eqb f "*") eqn:Hs.
  - destruct b; intros H; [|discriminate]. injection H as <-.
    split; [reflexivity|]. split; [discriminate | discriminate].
  - destruct (isdigit f) eqn:Hd; [|discriminate]. cbn [negb].
    destruct (py_int_isdigit f Hd) as [n [Hn Hn0]]. rewrite Hn.
    intros H. injection H as <-. split; [reflexivity|].
    split; [intros m Hm; injection Hm as <-; exact Hn0 | discriminate].
Qed.

(** A spec the launchd converter accepts is parsed by [parse_cron_spec]
    into the same fields: minute and hour fixed, every fixed value
    non-negative, not both day and weekday fixed; and the interval lists
    Minute and Hour, then the fixed ones of Day, Month and Weekday. *)
Theorem cron_to_launchd_interval_agrees (s : string) (d : list (string * Z)) :
  cron_to_launchd_interval s = Ok d ->
  exists mi h dd mo w, parse_cron_spec s = Ok (Some mi, Some h, dd, mo, w) /\
    d = [("Minute"%string, mi); ("Hour"%string, h)] ++ opt_entry "Day" dd
        ++ opt_entry "Month" mo ++ opt_entry "Weekday" w /\
    (dd = None \/ w = None) /\ 0 <= mi /\ 0 <= h /\
    (forall v, dd = Some v \/ mo = Some v \/ w = Some v -> 0 <= v).
Proof.
  unfold cron_to_launchd_interval, parse_cron_spec, unpack5.
  destruct (split_ws s) as [|a [|b [|c [|e [|g [|x l]]]]]]; cbn [bind]; try discriminate.
  destruct (_parse_numeric_field a "minute" false) as [vmi|] eqn:E1; cbn [bind]; [|discriminate].
  destruct (_parse_numeric_field b "hour" false) as [vh|] eqn:E2; cbn [bind]; [|discriminate].
  destruct (_parse_numeric_field c "day" true) as [vd|] eqn:E3; cbn [bind]; [|discriminate].
  destruct (_parse_numeric_field e "month" true) as [vmo|] eqn:E4; cbn [bind]; [|discriminate].
  destruct (_parse_numeric_field g "weekday" true) as [vw|] eqn:E5; cbn [bind]; [|discriminate].
  apply numeric_field_ok in E1 as [P1 [N1 W1]], E2 as [P2 [N2 W2]], E3 as [P3 [N3 W3]],
    E4 as [P4 [N4 W4]], E5 as [P5 [N5 W5]].
  rewrite P1, P2, P3, P4, P5. cbn [bind].
  destruct vmi as [mi|]; [|now destruct (W1 eq_refl)].
  destruct vh as [h|]; [|now destruct (W2 eq_refl)].
  intros H. assert (Hdw : vd = None \/ vw = None)
    by (destruct vd, vw; auto; discriminate).
  assert (Hd : d = [("Minute"%string, mi); ("Hour"%string, h)] ++ opt_entry "Day" vd
                   ++ opt_entry "Month" vmo ++ opt_entry "Weekday" vw)
    by (destruct vd, vw; congruence).
  exists mi, h, vd, vmo, vw. split; [reflexivity|]. split; [exact Hd|]. split; [exact Hdw|].
  split; [now apply N1|]. split; [now apply N2|].
  intros v [Hv|[Hv|Hv]]; [apply N3 | apply N4 | apply N5]; exact Hv.
Qed.

Lemma cron_to_launchd_interval_agrees_witness :
  cron_to_launchd_interval "30 9 * 6 1" =
    Ok [("Minute"%string, 30); ("Hour"%string, 9); ("Month"%string, 6); ("Weekday"%string, 1)] /\
  exists mi h dd mo w, parse_cron_spec "30 9 * 6 1" = Ok (Some mi, Some h, dd, mo, w) /\
    [("Minute"%string, 30); ("Hour"%string, 9); ("Month"%string, 6); ("Weekday"%string, 1)]
      = [("Minute"%string, mi); ("Hour"%string, h)] ++ opt_entry "Day" dd
        ++ opt_entry "Month" mo ++ opt_entry "Weekday" w /\
    (dd = None \/ w = None) /\ 0 <= mi /\ 0 <= h /\
    (forall v, dd = Some v \/ mo = Some v \/ w = Some v -> 0 <= v).
Proof.
  assert (H : cron_to_launchd_interval "30 9 * 6 1" =
    Ok [("Minute"%string, 30); ("Hour"%string, 9); ("Month"%string, 6); ("Weekday"%string, 1)])
    by (vm_compute; reflexivity).
  split; [exact H | exact (cron_to_launchd_interval_agrees _ _ H)].
Defined.

(** A spec the systemd converter accepts is parsed by [parse_cron_spec]
    into the same fields: minute and hour fixed, every fixed value
    non-negative, the weekday within 0-7, not both day and weekday fixed. *)
Theorem cron_to_systemd_calendar_agrees (s cal : string) :
  cron_to_systemd_calendar s = Ok cal ->
  exists mi h dd mo w, parse_cron_spec s = Ok (Some mi, Some h, dd, mo, w) /\
    (dd = None \/ w = None) /\ 0 <= mi /\ 0 <= h /\ in_range 0 7 w = true /\
    (forall v, dd = Some v \/ mo = Some v -> 0 <= v).
Proof.
  unfold cron_to_systemd_calendar, parse_cron_spec, unpack5.
  destruct (split_ws s) as [|a [|b [|c [|e [|g [|x l]]]]]]; cbn [bind]; try discriminate.
  destruct (_parse_numeric_field a "minute" false) as [vmi|] eqn:E1; cbn [bind]; [|discriminate].
  destruct (_parse_numeric_field b "hour" false) as [vh|] eqn:E2; cbn [bind]; [|discriminate].
  destruct (_parse_numeric_field c "day" true) as [vd|] eqn:E3; cbn [bind]; [|discriminate].
  destruct (_parse_numeric_field e "month" true) as [vmo|] eqn:E4; cbn [bind]; [|discriminate].
  destruct (_parse_numeric_field g "weekday" true) as [vw|] eqn:E5; cbn [bind]; [|discriminate].
  apply numeric_field_ok in E1 as [P1 [N1 W1]], E2 as [P2 [N2 W2]], E3 as [P3 [N3 W3]],
    E4 as [P4 [N4 W4]], E5 as [P5 [N5 W5]].
  rewrite P1, P2, P3, P4, P5. cbn [bind].
  destruct vmi as [mi|]; [|now destruct (W1 eq_refl)].
  destruct vh as [h|]; [|now destruct (W2 eq_refl)].
  intros H. assert (Hdw : vd = None \/ vw = None)
    by (destruct vd, vw; auto; discriminate).
  assert (Hw : in_range 0 7 vw = true).
  { destruct vd; [destruct vw; [discriminate|reflexivity]|].
    destruct vw as [w|]; [|reflexivity]. cbv zeta in H.
    destruct (weekday_name w) eqn:En; [|discriminate].
    unfold in_range. unfold weekday_name in En.
    destruct w as [|p|p]; try discriminate; [reflexivity|].
    repeat (destruct p as [p|p|]; try discriminate); reflexivity. }
  exists mi, h, vd, vmo, vw. split; [reflexivity|]. split; [exact Hdw|].
  split; [now apply N1|]. split; [now apply N2|]. split; [exact Hw|].
  intros v [Hv|Hv]; [apply N3 | apply N4]; exact Hv.
Qed.

Lemma cron_to_systemd_calendar_agrees_witness :
  cron_to_systemd_calendar "30 9 * 6 1" = Ok "Mon *-06-* 09:30:00"%string /\
  exists mi h dd mo w, parse_cron_spec "30 9 * 6 1" = Ok (Some mi, Some h, dd, mo, w) /\
    (dd = None \/ w = None) /\ 0 <= mi /\ 0 <= h /\ in_range 0 7 w = true /\
    (forall v, dd = Some v \/ mo = Some v -> 0 <= v).
Proof.
  assert (H : cron_to_systemd_calendar "30 9 * 6 1" = Ok "Mon *-06-* 09:30:00"%string)
    by (vm_compute; reflexivity).
  split; [exact H | exact (cron_to_systemd_calendar_agrees _ _ H)].
Defined.

(** The systemd converter treats weekday [7] as Sunday, like [0]. *)
Theorem cron_to_systemd_weekday_7 (mi h d mo : string) :
  is_token mi = true -> is_token h = true -> is_token d = true -> is_token mo = true ->
  cron_to_systemd_calendar (sp mi (sp h (sp d (sp mo "7")))) =
  cron_to_systemd_calendar (sp mi (sp h (sp d (sp mo "0")))).
Proof.
  intros T1 T2 T3 T4. unfold cron_to_systemd_calendar, unpack5.
  rewrite !split_ws_five by (assumption || reflexivity). cbn [bind].
  destruct (_parse_numeric_field mi "minute" false); cbn [bind]; [|reflexivity].
  destruct (_parse_numeric_field h "hour" false); cbn [bind]; [|reflexivity].
  destruct (_parse_numeric_field d "day" true) as [[vd|]|]; cbn [bind]; [| |reflexivity];
  destruct (_parse_numeric_field mo "month" true); cbn [bind]; reflexivity.
Qed.

Lemma cron_to_systemd_weekday_7_witness :
  cron_to_systemd_calendar "0 8 * * 7" = cron_to_systemd_calendar "0 8 * * 0" /\
  cron_to_systemd_calendar "0 8 * * 0" = Ok "Sun *-*-* 08:00:00"%string.
Proof.
  split; [apply (cron_to_systemd_weekday_7 "0" "8" "*" "*"); reflexivity |].
  vm_compute. reflexivity.
Defined.

(** ** The due-time state file *)

Lemma dict_get_setdefault_same (k : string) (v : json) (kv : list (string * json)) :
  dict_get k (dict_setdefault k v kv) =
  Some (match dict_get k kv with Some x => x | None => v end).
Proof.
  unfold dict_setdefault. destruct (dict_get k kv) eqn:E; [exact E|].
  apply dict_get_set_same.
Qed.

Lemma dict_get_setdefault_other (k k' : string) (v : json) (kv : list (string * json)) :
  k <> k' -> dict_get k (dict_setdefault k' v kv) = dict_get k kv.
Proof.
  intros Hne. unfold dict_setdefault. destruct (dict_get k' kv); [reflexivity|].
  now apply dict_get_set_other.
Qed.

(** What a successful [update_schedule_state] writes: the loaded JSON
    object with [next_due] and [last_run] set and every other key kept. A
    due run stores the reported time as [next_due] and the current minute
    as [last_run]. A run that is not due reports a time after the current
    minute, keeps a stored [next_due] as it was (storing the reported time
    only when the key is absent) and a stored [last_run] as it was (storing
    [null] when absent). A failing call leaves the file as it was. *)
Theorem update_schedule_state_writes (cron_spec : string) (file : option state_file) (now_raw : Z) :
  match update_schedule_state cron_spec file now_raw with
  | (Err _, file') => file' = file
  | (Ok (due, t), file') =>
      exists kv kv', load_state file = JObj kv /\ file' = Some (Stored (JObj kv')) /\
      (forall k, k <> "next_due"%string -> k <> "last_run"%string ->
         dict_get k kv' = dict_get k kv) /\
      (due = true ->
         dict_get "next_due" kv' = Some (JStr (isoformat t)) /\
         dict_get "last_run" kv' = Some (JStr (isoformat (trunc_minute now_raw)))) /\
      (due = false -> trunc_minute now_raw < t /\
         dict_get "next_due" kv' =
           Some (match dict_get "next_due" kv with Some v => v | None => JStr (isoformat t) end) /\
         dict_get "last_run" kv' =
           Some (match dict_get "last_run" kv with Some v => v | None => JNull end))
  end.
Proof.
  unfold update_schedule_state.
  destruct (update_schedule_state_body cron_spec (load_state file) (trunc_minute now_raw))
    as [[[due t] kv']|e] eqn:E; [|reflexivity].
  unfold update_schedule_state_body in E.
  destruct (load_state file) as [| | | | |kv]; try discriminate.
  exists kv, kv'. split; [reflexivity|]. split; [reflexivity|].
  match type of E with bind ?M _ = _ => destruct M as [nd|] end; cbn [bind] in E;
    [|discriminate].
  destruct (dt_tz nd); [discriminate|].
  destruct (dt_us nd <=? trunc_minute now_raw) eqn:Hle.
  - destruct (next_run_time cron_spec (dt_us nd)) as [na|]; cbn [bind] in E; [|discriminate].
    injection E as <- <- <-.
    split; [intros k H1 H2; rewrite !dict_get_set_other by assumption; reflexivity|].
    split; [|discriminate]. intros _.
    split; [apply dict_get_set_same|].
    rewrite dict_get_set_other by discriminate. apply dict_get_set_same.
  - injection E as <- <- Hkv.
    assert (Hkv' : kv' = dict_setdefault "last_run" JNull
                          (dict_setdefault "next_due" (JStr (isoformat (dt_us nd))) kv))
      by (rewrite <- Hkv; reflexivity).
    clear Hkv. subst kv'. split.
    + intros k H1 H2. rewrite !dict_get_setdefault_other by assumption. reflexivity.
    + split; [discriminate|]. intros _. split; [apply Z.leb_gt; exact Hle|].
      rewrite dict_get_setdefault_other by discriminate.
      rewrite dict_get_setdefault_same. split; [reflexivity|].
      rewrite dict_get_setdefault_same, dict_get_setdefault_other by discriminate.
      reflexivity.
Qed.

(** Without a usable stored [next_due] (no state file, an unreadable one,
    or a [next_due] that is missing or falsy), a successful
    [update_schedule_state] reports the run due exactly when the current
    minute matches the spec, and reports a next due time after the current
    minute. *)
Theorem update_schedule_state_fresh (cron_spec : string) (f : cron_fields)
    (file : option state_file) (now_raw : Z) (due : bool) (t : Z) :
  parse_cron_spec cron_spec = Ok f ->
  (forall kv v, load_state file = JObj kv -> dict_get "next_due" kv = Some v -> truthy v = false) ->
  fst (update_schedule_state cron_spec file now_raw) = Ok (due, t) ->
  (due = true <-> fields_match f (trunc_minute now_raw) = true) /\ trunc_minute now_raw < t.
Proof.
  intros Hp Hfalsy Hok. unfold update_schedule_state, update_schedule_state_body in Hok.
  destruct (load_state file) as [| | | | |kv] eqn:Hl; try discriminate.
  set (now := trunc_minute now_raw) in *.
  assert (Hrec : match dict_get "next_due" kv with
          | Some v => if truthy v then match v with
                      | JStr s => match datetime_fromisoformat s with
                                  | Some dtv => Ok dtv
                                  | None => let* start := dt_add now (- US_PER_MIN) in
                                            let* t0 := next_run_time cron_spec start in Ok (naive t0)
                                  end
                      | _ => Err TypeError end
                      else let* start := dt_add now (- US_PER_MIN) in
                           let* t0 := next_run_time cron_spec start in Ok (naive t0)
          | None => let* start := dt_add now (- US_PER_MIN) in
                    let* t0 := next_run_time cron_spec start in Ok (naive t0)
          end = let* start := dt_add now (- US_PER_MIN) in
                let* t0 := next_run_time cron_spec start in Ok (naive t0)).
  { destruct (dict_get "next_due" kv) as [v|] eqn:Hg; [|reflexivity].
    now rewrite (Hfalsy kv v eq_refl Hg). }
  rewrite Hrec in Hok. clear Hrec.
  destruct (dt_add_cases now (- US_PER_MIN)) as [[Hr Hadd]|[_ Hadd]]; rewrite Hadd in Hok;
    cbn [bind] in Hok; [|discriminate].
  assert (Hal : now mod US_PER_MIN = 0) by apply trunc_minute_aligned.
  assert (Hc0 : trunc_minute (now + - US_PER_MIN + US_PER_MIN) = now).
  { replace (now + - US_PER_MIN + US_PER_MIN) with now by ring.
    now apply trunc_minute_id. }
  pose proof (next_run_time_cases cron_spec f (now + - US_PER_MIN) Hp (proj1 Hr)) as Hc.
  cbv zeta in Hc. rewrite Hc0 in Hc.
  destruct Hc as [[k [Hk [_ [Hn [Hm [Hmin _]]]]]]|[[Hn _]|[Hn _]]]; rewrite Hn in Hok;
    cbn [bind] in Hok; try discriminate.
  cbn [naive dt_tz dt_us] in Hok.
  destruct (Z.leb_spec (now + k * US_PER_MIN) now) as [Hle|Hgt].
  - assert (k = 0) by (unfold US_PER_MIN in *; lia). subst k.
    rewrite Z.mul_0_l, Z.add_0_r in *.
    destruct (next_run_time cron_spec now) as [na|] eqn:Hna; cbn [bind] in Hok; [|discriminate].
    injection Hok as <- <-. split; [split; [intros _; exact Hm | reflexivity]|].
    destruct (next_run_time_ok cron_spec now na ltac:(unfold US_PER_MIN in Hr; lia) Hna) as [f' [_ [_ [Hb _]]]].
    rewrite trunc_minute_id in Hb
      by (rewrite Z.add_mod, Hal, Z.mod_same, Z.mod_0_l by (unfold US_PER_MIN; lia); reflexivity).
    unfold US_PER_MIN in *. lia.
  - injection Hok as <- <-.
    assert (Hk0 : 0 < k) by (unfold US_PER_MIN in *; lia).
    pose proof (Hmin 0 ltac:(lia)) as H0. rewrite Z.mul_0_l, Z.add_0_r in H0.
    rewrite H0. split; [split; discriminate|]. exact Hgt.
Qed.

Lemma update_schedule_state_fresh_witness :
  (true = true <-> fields_match (Some 30, Some 9, None, None, None) (mk_dt 2024 6 5 9 30) = true) /\
  mk_dt 2024 6 5 9 30 < mk_dt 2024 6 6 9 30.
Proof.
  assert (Hn : trunc_minute (mk_dt 2024 6 5 9 30 + 15000000) = mk_dt 2024 6 5 9 30)
    by (vm_compute; reflexivity).
  rewrite <- Hn.
  apply (update_schedule_state_fresh "30 9 * * *" (Some 30, Some 9, None, None, None)
           None (mk_dt 2024 6 5 9 30 + 15000000) true (mk_dt 2024 6 6 9 30)).
  - vm_compute. reflexivity.
  - intros kv v Hl Hg. injection Hl as <-. discriminate Hg.
  - vm_compute. reflexivity.
Defined.

Lemma fromisoformat_empty : datetime_fromisoformat "" = None.
Proof. reflexivity. Qed.

Lemma fromisoformat_truthy (s : string) (d : pydatetime) :
  datetime_fromisoformat s = Some d -> truthy (JStr s) = true.
Proof. destruct s as [|c s]; [rewrite fromisoformat_empty; discriminate | reflexivity]. Qed.

(** [update_schedule_state] on a malformed state file raises and writes
    nothing: [AttributeError] when the file holds JSON that is not an
    object, [TypeError] when [next_due] is truthy but not a string, and
    [TypeError] when [next_due] parses to a timezone-aware datetime, which
    cannot be compared with the naive current time. *)
Theorem update_schedule_state_rejects (cron_spec : string) (file : option state_file) (now_raw : Z) :
  ((forall kv, load_state file <> JObj kv) ->
     update_schedule_state cron_spec file now_raw = (Err AttributeError, file)) /\
  (forall kv v, load_state file = JObj kv -> dict_get "next_due" kv = Some v ->
     truthy v = true -> (forall s, v <> JStr s) ->
     update_schedule_state cron_spec file now_raw = (Err TypeError, file)) /\
  (forall kv s d z, load_state file = JObj kv -> dict_get "next_due" kv = Some (JStr s) ->
     datetime_fromisoformat s = Some d -> dt_tz d = Some z ->
     update_schedule_state cron_spec file now_raw = (Err TypeError, file)).
Proof.
  unfold update_schedule_state, update_schedule_state_body. split; [|split].
  - intros H. destruct (load_state file) as [| | | | |kv]; try reflexivity.
    exfalso. exact (H kv eq_refl).
  - intros kv v Hl Hg Ht Hs. rewrite Hl, Hg, Ht.
    destruct v; try reflexivity. exfalso. exact (Hs s eq_refl).
  - intros kv s d z Hl Hg Hd Hz. rewrite Hl, Hg, (fromisoformat_truthy s d Hd), Hd.
    cbn [bind]. rewrite Hz. reflexivity.
Qed.

Lemma update_schedule_state_rejects_witness :
  update_schedule_state "0 9 * * *" (Some (Stored (JArr []))) 0 =
    (Err AttributeError, Some (Stored (JArr []))) /\
  update_schedule_state "0 9 * * *" (Some (Stored (JObj [("next_due"%string, JNum 5)]))) 0 =
    (Err TypeError, Some (Stored (JObj [("next_due"%string, JNum 5)]))) /\
  update_schedule_state "0 9 * * *"
    (Some (Stored (JObj [("next_due"%string, JStr "2024-01-01T09:00:00+00:00")]))) 0 =
    (Err TypeError,
     Some (Stored (JObj [("next_due"%string, JStr "2024-01-01T09:00:00+00:00")]))) /\
  update_schedule_state "0 9 * * *"
    (Some (Stored (JObj [("next_due"%string, JStr "20240101T0900Z")]))) 0 =
    (Err TypeError, Some (Stored (JObj [("next_due"%string, JStr "20240101T0900Z")]))).
Proof.
  split; [|split; [|split]].
  - apply (proj1 (update_schedule_state_rejects "0 9 * * *" (Some (Stored (JArr []))) 0)).
    intros kv H. discriminate H.
  - eapply (proj1 (proj2 (update_schedule_state_rejects "0 9 * * *"
      (Some (Stored (JObj [("next_due"%string, JNum 5)]))) 0)));
      [reflexivity | reflexivity | reflexivity | intros s H; discriminate H].
  - eapply (proj2 (proj2 (update_schedule_state_rejects "0 9 * * *"
      (Some (Stored (JObj [("next_due"%string, JStr "2024-01-01T09:00:00+00:00")]))) 0)));
      [reflexivity | reflexivity | reflexivity | reflexivity].
  - eapply (proj2 (proj2 (update_schedule_state_rejects "0 9 * * *"
      (Some (Stored (JObj [("next_due"%string, JStr "20240101T0900Z")]))) 0)));
      [reflexivity | reflexivity | reflexivity | reflexivity].
Defined.

(** [initialize_schedule_state] without [overwrite]: a stored [next_due]
    string that [datetime.fromisoformat] accepts is returned as it is (also
    when it is in the past or carries an offset) and the file is not
    rewritten; any other stored content (no file, invalid JSON, not an
    object, [next_due] missing, not a string or not ISO) is handled as if
    there were no file. *)
Theorem initialize_schedule_state_reuse (file : option state_file) (cron_spec : string)
    (now_raw : Z) :
  (forall kv s d, file = Some (Stored (JObj kv)) -> dict_get "next_due" kv = Some (JStr s) ->
     datetime_fromisoformat s = Some d ->
     initialize_schedule_state file cron_spec false now_raw = (Ok d, file)) /\
  ((forall kv s, file = Some (Stored (JObj kv)) -> dict_get "next_due" kv = Some (JStr s) ->
     datetime_fromisoformat s = None) ->
   initialize_schedule_state file cron_spec false now_raw =
   match initialize_schedule_state None cron_spec false now_raw with
   | (Ok d, file') => (Ok d, file')
   | (Err e, _) => (Err e, file)
   end).
Proof.
  unfold initialize_schedule_state. split.
  - intros kv s d -> Hg Hd. rewrite Hg, (fromisoformat_truthy s d Hd), Hd. reflexivity.
  - intros H.
    assert (Ht : match file with
                 | Some (Stored (JObj data)) =>
                     match dict_get "next_due" data with
                     | Some (JStr s) => if truthy (JStr s) then datetime_fromisoformat s else None
                     | _ => None
                     end
                 | _ => None
                 end = None).
    { destruct file as [[|[| | | | |kv]]|]; try reflexivity.
      destruct (dict_get "next_due" kv) as [[| | | s | |]|] eqn:Hg; try reflexivity.
      rewrite (H kv s eq_refl Hg). destruct (truthy (JStr s)); reflexivity. }
    replace (match file with
             | Some (Stored (JObj data)) =>
                 match dict_get "next_due" data with
                 | Some (JStr s) => if truthy (JStr s) then datetime_fromisoformat s else None
                 | _ => None
                 end
             | Some _ | _ => None
             end) with (@None pydatetime)
      by (symmetry; destruct file as [[|[]]|]; exact Ht).
    destruct (dt_add (trunc_minute now_raw) (- US_PER_MIN)) as [start|e]; [|reflexivity].
    destruct (next_run_time cron_spec start); reflexivity.
Qed.

Lemma initialize_schedule_state_reuse_witness :
  (exists d, initialize_schedule_state
     (Some (Stored (JObj [("next_due"%string, JStr "2020-01-01T00:00:00"); ("last_run"%string, JNull)])))
     "0 9 * * *" false (mk_dt 2024 6 5 8 0) =
   (Ok d, Some (Stored (JObj [("next_due"%string, JStr "2020-01-01T00:00:00");
                              ("last_run"%string, JNull)])))) /\
  (exists d, initialize_schedule_state
     (Some (Stored (JObj [("next_due"%string, JStr "20200101T0000")])))
     "0 9 * * *" false (mk_dt 2024 6 5 8 0) =
   (Ok d, Some (Stored (JObj [("next_due"%string, JStr "20200101T0000")])))) /\
  initialize_schedule_state
    (Some (Stored (JObj [("next_due"%string, JStr "garbage"); ("keep"%string, JNum 1)])))
    "0 9 * * *" false (mk_dt 2024 6 5 8 0) =
  match initialize_schedule_state None "0 9 * * *" false (mk_dt 2024 6 5 8 0) with
  | (Ok d, file') => (Ok d, file')
  | (Err e, _) =>
      (Err e, Some (Stored (JObj [("next_due"%string, JStr "garbage"); ("keep"%string, JNum 1)])))
  end.
Proof.
  split; [|split].
  - eexists. eapply (proj1 (initialize_schedule_state_reuse
      (Some (Stored (JObj [("next_due"%string, JStr "2020-01-01T00:00:00");
                           ("last_run"%string, JNull)])))
      "0 9 * * *" (mk_dt 2024 6 5 8 0))); [reflexivity | reflexivity | reflexivity].
  - eexists. eapply (proj1 (initialize_schedule_state_reuse
      (Some (Stored (JObj [("next_due"%string, JStr "20200101T0000")])))
      "0 9 * * *" (mk_dt 2024 6 5 8 0))); [reflexivity | reflexivity | reflexivity].
  - apply (proj2 (initialize_schedule_state_reuse
      (Some (Stored (JObj [("next_due"%string, JStr "garbage"); ("keep"%string, JNum 1)])))
      "0 9 * * *" (mk_dt 2024 6 5 8 0))).
    intros kv s Hf Hg. injection Hf as <-. vm_compute in Hg. injection Hg as <-.
    vm_compute. reflexivity.
Defined.

(** ** Removing the cron entries *)

Lemma lstrip_l_keeps (a : list ascii) (c : ascii) :
  is_ws c = false -> lstrip_l (a ++ [c]) <> [].
Proof.
  intros Hc. induction a as [|x a IH]; simpl.
  - rewrite Hc. discriminate.
  - destruct (is_ws x); [exact IH | discriminate].
Qed.

Lemma marker_not_blank (line : string) : is_marker line = true -> is_blank line = false.
Proof.
  unfold is_marker, startswith, CRON_COMMENT_PREFIX, is_blank, strip.
  destruct line as [|c l]; [discriminate|]. intros H.
  cbn [String.prefix] in H. destruct (ascii_dec "#" c) as [<-|]; [|discriminate].
  cbn [list_ascii_of_string].
  change (lstrip_l ("#"%char :: list_ascii_of_string l)) with ("#"%char :: list_ascii_of_string l).
  cbn [rev].
  destruct (lstrip_l (rev (list_ascii_of_string l) ++ ["#"%char])) as [|x r] eqn:E.
  - exfalso. exact (lstrip_l_keeps _ "#"%char eq_refl E).
  - cbn [rev]. destruct (rev r); reflexivity.
Qed.

Lemma kept_nonblank_no_marker (lines : list string) :
  forallb (fun l => negb (is_marker l)) (kept_nonblank lines) = true.
Proof.
  induction lines as [lines IH] using list_len_ind.
  destruct lines as [|line rest]; [reflexivity|]. cbn [kept_nonblank].
  destruct (is_marker line) eqn:Hm.
  - destruct rest as [|x rest']; [reflexivity|]. apply IH. simpl. lia.
  - destruct (is_blank line); [apply IH; simpl; lia|].
    cbn [forallb]. rewrite Hm. apply IH. simpl. lia.
Qed.

(** What [remove_mailmerge_cron_jobs] writes back holds no marker line, so
    running it again on that crontab removes no state file, removes nothing
    and writes nothing. *)
Theorem remove_mailmerge_cron_jobs_idempotent {fs : Type}
    (rms : fs -> string -> string -> result fs) (st st' : fs) (lines out : list string) (n : nat) :
  remove_mailmerge_cron_jobs rms st lines = Ok (st', (n, Some out)) ->
  forallb (fun l => negb (is_marker l)) out = true /\
  (forall (fs' : Type) (rms' : fs' -> string -> string -> result fs') (st'' : fs'),
     remove_mailmerge_cron_jobs rms' st'' out = Ok (st'', (0%nat, None))).
Proof.
  intros H. apply remove_jobs_ok in H. symmetry in H. unfold remove_cron_lines in H.
  destruct lines as [|l0 r0]; [discriminate|].
  pose proof (remove_loop_nonblank (l0 :: r0) [] 0) as Hnb.
  destruct (remove_loop (l0 :: r0) [] 0) as [nl rj]. cbn [fst] in Hnb.
  change (nonblank []) with (@nil string) in Hnb. cbn [app] in Hnb.
  cbv beta iota zeta in H. destruct (Nat.ltb 0 rj); [|discriminate].
  injection H as _ <-.
  destruct (drop_trailing_blank_spec nl) as [_ Hn].
  assert (Hnm : forallb (fun l => negb (is_marker l)) (drop_trailing_blank nl) = true).
  { apply forallb_forall. intros x Hx.
    destruct (is_marker x) eqn:Hm; [|reflexivity]. exfalso.
    assert (Hin : In x (kept_nonblank (l0 :: r0))).
    { rewrite <- Hnb, <- Hn. unfold nonblank. apply filter_In. split; [exact Hx|].
      now rewrite (marker_not_blank x Hm). }
    pose proof (kept_nonblank_no_marker (l0 :: r0)) as Hk.
    rewrite forallb_forall in Hk. specialize (Hk x Hin). rewrite Hm in Hk. discriminate. }
  split; [exact Hnm|].
  intros fs' rms' st''. rewrite remove_jobs_plain by exact Hnm.
  now rewrite remove_cron_lines_plain by exact Hnm.
Qed.

Lemma remove_mailmerge_cron_jobs_idempotent_witness :
  remove_mailmerge_cron_jobs (fun (st : unit) _ _ => Ok st) tt
    ["MAILTO=me"; ""; "# mailmerge schedule: weekly (ab12)"; "0 9 * * 1 run";
     "5 4 * * * backup"]%string
    = Ok (tt, (1%nat, Some ["MAILTO=me"; "5 4 * * * backup"]%string)) /\
  forallb (fun l => negb (is_marker l)) ["MAILTO=me"; "5 4 * * * backup"]%string = true /\
  (forall (fs' : Type) (rms' : fs' -> string -> string -> result fs') (st'' : fs'),
     remove_mailmerge_cron_jobs rms' st'' ["MAILTO=me"; "5 4 * * * backup"]%string
     = Ok (st'', (0%nat, None))).
Proof.
  assert (H : remove_mailmerge_cron_jobs (fun (st : unit) _ _ => Ok st) tt
    ["MAILTO=me"; ""; "# mailmerge schedule: weekly (ab12)"; "0 9 * * 1 run";
     "5 4 * * * backup"]%string
    = Ok (tt, (1%nat, Some ["MAILTO=me"; "5 4 * * * backup"]%string)))
    by (vm_compute; reflexivity).
  split; [exact H | exact (remove_mailmerge_cron_jobs_idempotent _ _ _ _ _ _ H)].
Defined.

(** ** Labels and address lists *)

Lemma sub_label_runs_label (b : bool) (l : list ascii) :
  forallb is_label_char (sub_label_runs b l) = true.
Proof.
  revert b. induction l as [|c l IH]; intros b; [reflexivity|]. cbn [sub_label_runs].
  destruct (is_label_char c) eqn:E; [cbn [forallb]; rewrite E; apply IH|].
  destruct b; [apply IH | cbn [forallb]; apply IH].
Qed.

Lemma sub_label_runs_id (b : bool) (l : list ascii) :
  forallb is_label_char l = true -> sub_label_runs b l = l.
Proof.
  revert b. induction l as [|c l IH]; intros b H; [reflexivity|].
  cbn [forallb] in H. apply andb_prop in H as [Hc H]. cbn [sub_label_runs].
  rewrite Hc, IH by exact H. reflexivity.
Qed.

Lemma lstrip_chars_suffix (cs l : list ascii) : exists w, l = w ++ lstrip_chars cs l.
Proof.
  induction l as [|c l [w Hw]]; [exists []; reflexivity|]. cbn [lstrip_chars].
  destruct (existsb (Ascii.eqb c) cs); [exists (c :: w); simpl; now rewrite <- Hw | exists []; reflexivity].
Qed.

Lemma lstrip_chars_head (cs l : list ascii) (c : ascii) :
  hd_error (lstrip_chars cs l) = Some c -> existsb (Ascii.eqb c) cs = false.
Proof.
  induction l as [|x l IH]; cbn [lstrip_chars]; [discriminate|].
  destruct (existsb (Ascii.eqb x) cs) eqn:E; [exact IH|]. intros H. now injection H as <-.
Qed.

Lemma lstrip_chars_id (cs l : list ascii) :
  (forall c, hd_error l = Some c -> existsb (Ascii.eqb c) cs = false) -> lstrip_chars cs l = l.
Proof.
  destruct l as [|c l]; [reflexivity|]. intros H. cbn [lstrip_chars].
  now rewrite (H c eq_refl).
Qed.

(** [s.strip(chars)] is a slice of [s] that neither starts nor ends with one
    of [chars]. *)
Lemma strip_chars_spec (chars s : string) :
  (exists p q, list_ascii_of_string s = p ++ list_ascii_of_string (strip_chars chars s) ++ q) /\
  (forall c, hd_error (list_ascii_of_string (strip_chars chars s)) = Some c \/
             hd_error (rev (list_ascii_of_string (strip_chars chars s))) = Some c ->
     existsb (Ascii.eqb c) (list_ascii_of_string chars) = false).
Proof.
  unfold strip_chars. rewrite list_ascii_of_string_of_list_ascii.
  set (cs := list_ascii_of_string chars).
  set (A := lstrip_chars cs (list_ascii_of_string s)).
  set (B := lstrip_chars cs (rev A)).
  destruct (lstrip_chars_suffix cs (list_ascii_of_string s)) as [w1 Hw1]. fold A in Hw1.
  destruct (lstrip_chars_suffix cs (rev A)) as [w2 Hw2]. fold B in Hw2.
  assert (HA : A = rev B ++ rev w2)
    by (rewrite <- (rev_involutive A), Hw2; apply rev_app_distr).
  split.
  - exists w1, (rev w2). rewrite Hw1 at 1. now rewrite HA.
  - intros c [H|H].
    + apply (lstrip_chars_head cs (list_ascii_of_string s)). fold A. rewrite HA.
      destruct (rev B); [discriminate | exact H].
    + rewrite rev_involutive in H. exact (lstrip_chars_head cs (rev A) c H).
Qed.

Lemma string_of_list_ascii_nonempty (l : list ascii) :
  string_of_list_ascii l = ""%string -> l = [].
Proof. destruct l; [reflexivity | discriminate]. Qed.

(** [sanitize_label_seed] returns a non-empty word over [A-Za-z0-9_.-] that
    neither starts nor ends with ['.'] or ['-'], and it returns such a word
    unchanged, so sanitizing twice is sanitizing once. *)
Theorem sanitize_label_seed_shape (value : string) :
  let s := list_ascii_of_string (sanitize_label_seed value) in
  (s <> [] /\ forallb is_label_char s = true /\
   (forall c, hd_error s = Some c \/ hd_error (rev s) = Some c -> c <> "."%char /\ c <> "-"%char)) /\
  sanitize_label_seed (sanitize_label_seed value) = sanitize_label_seed value.
Proof.
  assert (Hshape : forall t, let s := list_ascii_of_string t in
    s <> [] -> forallb is_label_char s = true ->
    (forall c, hd_error s = Some c \/ hd_error (rev s) = Some c -> c <> "."%char /\ c <> "-"%char) ->
    sanitize_label_seed t = t).
  { intros t s Hne Hl He. unfold sanitize_label_seed. fold s.
    rewrite sub_label_runs_id by exact Hl. unfold strip_chars.
    rewrite list_ascii_of_string_of_list_ascii. fold s.
    assert (Hcs : forall c, hd_error s = Some c \/ hd_error (rev s) = Some c ->
                  existsb (Ascii.eqb c) (list_ascii_of_string ".-") = false).
    { intros c Hc. destruct (He c Hc) as [H1 H2]. cbn [list_ascii_of_string existsb].
      apply Ascii.eqb_neq in H1, H2. now rewrite H1, H2. }
    rewrite (lstrip_chars_id _ s) by (intros c Hc; apply Hcs; now left).
    rewrite (lstrip_chars_id _ (rev s)) by (intros c Hc; apply Hcs; now right).
    rewrite rev_involutive. unfold s. rewrite string_of_list_ascii_of_string.
    destruct t; [contradiction | reflexivity]. }
  assert (Hout : let s := list_ascii_of_string (sanitize_label_seed value) in
    s <> [] /\ forallb is_label_char s = true /\
    (forall c, hd_error s = Some c \/ hd_error (rev s) = Some c -> c <> "."%char /\ c <> "-"%char)).
  { unfold sanitize_label_seed.
    set (x := string_of_list_ascii (sub_label_runs false (list_ascii_of_string value))).
    destruct (String.eqb_spec (strip_chars ".-" x) "") as [_|Hne].
    - split; [discriminate|]. split; [reflexivity|].
      intros c [H|H]; injection H as <-; split; discriminate.
    - destruct (strip_chars_spec ".-" x) as [[p [q Hpq]] Hends].
      split; [intros H; apply Hne; rewrite <- (string_of_list_ascii_of_string (strip_chars ".-" x)), H; reflexivity|].
      split.
      + assert (Hx : forallb is_label_char (list_ascii_of_string x) = true)
          by (unfold x; rewrite list_ascii_of_string_of_list_ascii; apply sub_label_runs_label).
        rewrite Hpq, !forallb_app in Hx. now apply andb_prop in Hx as [_ Hx]; apply andb_prop in Hx as [Hx _].
      + intros c Hc. specialize (Hends c Hc). cbn [list_ascii_of_string existsb] in Hends.
        apply orb_false_iff in Hends as [H1 Hends]. apply orb_false_iff in Hends as [H2 _].
        apply Ascii.eqb_neq in H1, H2. auto. }
  split; [exact Hout|]. destruct Hout as [H1 [H2 H3]]. apply Hshape; assumption.
Qed.

Lemma sanitize_label_seed_shape_witness :
  sanitize_label_seed "My Report (v2).csv" = "My-Report-v2-.csv"%string /\
  sanitize_label_seed "..//.." = "mailmerge"%string /\
  (list_ascii_of_string (sanitize_label_seed "-a b-") <> [] /\
   forallb is_label_char (list_ascii_of_string (sanitize_label_seed "-a b-")) = true /\
   (forall c, hd_error (list_ascii_of_string (sanitize_label_seed "-a b-")) = Some c \/
              hd_error (rev (list_ascii_of_string (sanitize_label_seed "-a b-"))) = Some c ->
      c <> "."%char /\ c <> "-"%char)) /\
  sanitize_label_seed (sanitize_label_seed "-a b-") = sanitize_label_seed "-a b-".
Proof.
  split; [vm_compute; reflexivity|]. split; [vm_compute; reflexivity|].
  exact (sanitize_label_seed_shape "-a b-").
Defined.

Lemma split_char_no_sep (sep : ascii) (l p : list ascii) :
  In p (split_char sep l) -> ~ In sep p.
Proof.
  revert p. induction l as [|c l IH]; intros p Hp; cbn [split_char] in Hp.
  - destruct Hp as [<-|[]]. intros [].
  - destruct (Ascii.eqb_spec c sep) as [_|Hne].
    + destruct Hp as [<-|Hp]; [intros []| exact (IH p Hp)].
    + destruct (split_char sep l) as [|p0 ps] eqn:E.
      * destruct Hp as [<-|[]]. intros [H|[]]. exact (Hne H).
      * destruct Hp as [<-|Hp].
        -- intros [H|H]; [exact (Hne H)|]. exact (IH p0 (or_introl eq_refl) H).
        -- exact (IH p (or_intror Hp)).
Qed.

Lemma split_char_chars (sep c : ascii) (l p : list ascii) :
  In p (split_char sep l) -> In c p -> In c l.
Proof.
  revert p. induction l as [|x l IH]; intros p Hp Hc; cbn [split_char] in Hp.
  - destruct Hp as [<-|[]]. destruct Hc.
  - destruct (Ascii.eqb c sep); destruct (Ascii.eqb x sep).
    + destruct Hp as [<-|Hp]; [destruct Hc | right; exact (IH p Hp Hc)].
    + destruct (split_char sep l) as [|p0 ps] eqn:E.
      * destruct Hp as [<-|[]]. destruct Hc as [<-|[]]. now left.
      * destruct Hp as [<-|Hp].
        -- destruct Hc as [<-|Hc]; [now left | right; exact (IH p0 (or_introl eq_refl) Hc)].
        -- right. exact (IH p (or_intror Hp) Hc).
    + destruct Hp as [<-|Hp]; [destruct Hc | right; exact (IH p Hp Hc)].
    + destruct (split_char sep l) as [|p0 ps] eqn:E.
      * destruct Hp as [<-|[]]. destruct Hc as [<-|[]]. now left.
      * destruct Hp as [<-|Hp].
        -- destruct Hc as [<-|Hc]; [now left | right; exact (IH p0 (or_introl eq_refl) Hc)].
        -- right. exact (IH p (or_intror Hp) Hc).
Qed.

Lemma strip_chars_in (s : string) (c : ascii) :
  In c (list_ascii_of_string (strip s)) -> In c (list_ascii_of_string s).
Proof.
  unfold strip. rewrite list_ascii_of_string_of_list_ascii. intros H.
  apply in_rev in H.
  destruct (lstrip_l_decomp (rev (lstrip_l (list_ascii_of_string s)))) as [w2 [Hw2 _]].
  destruct (lstrip_l_decomp (list_ascii_of_string s)) as [w1 [Hw1 _]].
  rewrite Hw1. apply in_or_app. right. apply in_rev. rewrite Hw2.
  apply in_or_app. now right.
Qed.

(** Every entry [parse_addresses] returns is non-empty, has no surrounding
    whitespace and contains neither [','] nor [';']. *)
Theorem parse_addresses_entries (raw a : string) :
  In a (parse_addresses raw) ->
  a <> ""%string /\ strip a = a /\
  ~ In ","%char (list_ascii_of_string a) /\ ~ In ";"%char (list_ascii_of_string a).
Proof.
  unfold parse_addresses, split_entries, str_split. intros H.
  apply in_flat_map in H as [v [Hv Ha]].
  destruct (String.eqb_spec (strip v) "") as [_|Hne]; [destruct Ha|].
  destruct Ha as [<-|[]]. split; [exact Hne|]. split; [apply strip_idem|].
  apply in_map_iff in Hv as [p [<- Hp]].
  split.
  - intros Hc. apply strip_chars_in in Hc. rewrite list_ascii_of_string_of_list_ascii in Hc.
    exact (split_char_no_sep _ _ _ Hp Hc).
  - intros Hc. apply strip_chars_in in Hc. rewrite list_ascii_of_string_of_list_ascii in Hc.
    pose proof (split_char_chars _ _ _ _ Hp Hc) as Hr.
    unfold replace_char in Hr. rewrite list_ascii_of_string_of_list_ascii in Hr.
    apply in_map_iff in Hr as [x [Hx _]].
    destruct (Ascii.eqb_spec x ";") as [_|Hne']; [discriminate Hx | exact (Hne' Hx)].
Qed.

Lemma parse_addresses_entries_witness :
  parse_addresses " a@x.com; b@y.com,, ,c " = ["a@x.com"; "b@y.com"; "c"]%string /\
  ("b@y.com"%string <> ""%string /\ strip "b@y.com" = "b@y.com"%string /\
   ~ In ","%char (list_ascii_of_string "b@y.com") /\ ~ In ";"%char (list_ascii_of_string "b@y.com")).
Proof.
  split; [vm_compute; reflexivity|].
  apply (parse_addresses_entries " a@x.com; b@y.com,, ,c "). vm_compute. right. left. reflexivity.
Defined.

Lemma split_char_app (sep : ascii) (x y : list ascii) :
  ~ In sep x -> split_char sep (x ++ sep :: y) = x :: split_char sep y.
Proof.
  induction x as [|c x IH]; intros Hx; cbn [app split_char].
  - now rewrite Ascii.eqb_refl.
  - destruct (Ascii.eqb_spec c sep) as [->|_]; [exfalso; apply Hx; now left|].
    rewrite IH by (intros H; apply Hx; now right). reflexivity.
Qed.

Lemma split_char_none (sep : ascii) (x : list ascii) :
  ~ In sep x -> split_char sep x = [x].
Proof.
  induction x as [|c x IH]; intros Hx; cbn [split_char]; [reflexivity|].
  destruct (Ascii.eqb_spec c sep) as [->|_]; [exfalso; apply Hx; now left|].
  rewrite IH by (intros H; apply Hx; now right). reflexivity.
Qed.

Lemma concat_cons2 (sep a b : string) (l : list string) :
  String.concat sep (a :: b :: l) = append a (append sep (String.concat sep (b :: l))).
Proof. reflexivity. Qed.

Lemma split_char_concat (a : string) (l : list string) :
  Forall (fun x => ~ In ","%char (list_ascii_of_string x)) (a :: l) ->
  split_char "," (list_ascii_of_string (String.concat ", " (a :: l))) =
  list_ascii_of_string a :: map (fun b => " "%char :: list_ascii_of_string b) l.
Proof.
  revert a. induction l as [|b l IH]; intros a H.
  - apply split_char_none. now inversion H.
  - inversion H as [|? ? Ha Hl]; subst. rewrite concat_cons2.
    rewrite !list_ascii_of_string_append. cbn [list_ascii_of_string app].
    rewrite split_char_app by exact Ha. cbn [split_char map].
    rewrite IH by exact Hl. reflexivity.
Qed.

Lemma concat_chars (l : list string) (c : ascii) :
  In c (list_ascii_of_string (String.concat ", " l)) ->
  c = ","%char \/ c = " "%char \/ exists a, In a l /\ In c (list_ascii_of_string a).
Proof.
  induction l as [|a [|b l] IH]; intros H.
  - destruct H.
  - right. right. exists a. split; [now left | exact H].
  - rewrite concat_cons2, !list_ascii_of_string_append in H. cbn [list_ascii_of_string app] in H.
    apply in_app_or in H as [H|[H|[H|H]]].
    + right. right. exists a. split; [now left | exact H].
    + now left.
    + now (right; left).
    + destruct (IH H) as [E|[E|[x [Hx Hc]]]]; [now left | now (right; left)|].
      right. right. exists x. split; [now right | exact Hc].
Qed.

Lemma replace_char_id (a b : ascii) (s : string) :
  ~ In a (list_ascii_of_string s) -> replace_char a b s = s.
Proof.
  intros H. unfold replace_char.
  rewrite map_ext_in with (g := fun c => c).
  - now rewrite map_id, string_of_list_ascii_of_string.
  - intros c Hc. destruct (Ascii.eqb_spec c a) as [->|]; [contradiction | reflexivity].
Qed.

Lemma strip_space (s : string) : strip (String " " s) = strip s.
Proof. reflexivity. Qed.

(** [parse_addresses] reads back a list joined with [", ".join(...)] (as
    [build_message] writes the To, Cc and Bcc headers) when every entry is
    non-empty, has no surrounding whitespace and contains neither [','] nor
    [';']; so does [parse_list_entries]. *)
Theorem parse_addresses_join (l : list string) :
  Forall (fun a => a <> ""%string /\ strip a = a /\
           ~ In ","%char (list_ascii_of_string a) /\ ~ In ";"%char (list_ascii_of_string a)) l ->
  parse_addresses (String.concat ", " l) = l /\
  parse_list_entries (Some (String.concat ", " l)) = l.
Proof.
  intros H. destruct l as [|a l]; [split; reflexivity|].
  assert (Hsplit : split_entries (String.concat ", " (a :: l)) = a :: l).
  { unfold split_entries, str_split.
    rewrite replace_char_id.
    2: { intros Hc. apply concat_chars in Hc as [E|[E|[x [Hx Hc]]]]; try discriminate E.
         rewrite Forall_forall in H. destruct (H x Hx) as [_ [_ [_ Hs]]]. exact (Hs Hc). }
    rewrite split_char_concat.
    2: { eapply Forall_impl; [|exact H]. intros x [_ [_ [Hx _]]]. exact Hx. }
    inversion H as [|? ? [Ha0 [Ha1 _]] Hl]; subst.
    cbn [map flat_map]. rewrite string_of_list_ascii_of_string, Ha1.
    destruct (String.eqb_spec a "") as [|_]; [contradiction|]. cbn [app].
    f_equal. clear Ha0 Ha1 H. induction l as [|b l IH]; [reflexivity|].
    inversion Hl as [|? ? [Hb0 [Hb1 _]] Hl']; subst. cbn [map flat_map].
    change (string_of_list_ascii (" "%char :: list_ascii_of_string b))
      with (String " " (string_of_list_ascii (list_ascii_of_string b))).
    rewrite string_of_list_ascii_of_string, strip_space, Hb1.
    destruct (String.eqb_spec b "") as [|_]; [contradiction|]. cbn [app].
    f_equal. exact (IH Hl'). }
  split; [exact Hsplit|]. cbn [parse_list_entries]. rewrite Hsplit.
  inversion H as [|? ? [Ha0 _] _]; subst.
  destruct (String.eqb_spec (String.concat ", " (a :: l)) "") as [E|_]; [|reflexivity].
  exfalso. apply Ha0. destruct l as [|b l]; [exact E|].
  rewrite concat_cons2 in E. destruct a; [reflexivity | discriminate E].
Qed.

Lemma parse_addresses_join_witness :
  String.concat ", " ["a@x.com"; "b@y.com"]%string = "a@x.com, b@y.com"%string /\
  parse_addresses (String.concat ", " ["a@x.com"; "b@y.com"]%string) = ["a@x.com"; "b@y.com"]%string /\
  parse_list_entries (Some (String.concat ", " ["a@x.com"; "b@y.com"]%string))
    = ["a@x.com"; "b@y.com"]%string.
Proof.
  split; [reflexivity|]. apply parse_addresses_join.
  repeat constructor; try discriminate; vm_compute; intros H;
    repeat (destruct H as [H|H]; [discriminate H|]); exact H.
Defined.

(** ** The scheduled command line *)

Section ProgramArgumentsProofs.

Variable float : Type.
Variable float_pos : float -> bool.
Variable float_str : float -> string.
Variable python_executable : string.
Variable path_expanduser : string -> string.

Lemma extract_state_path_app (l1 l2 : list string) :
  ~ In "--schedule-state"%string l1 ->
  extract_state_path_from_arguments path_expanduser (l1 ++ l2) =
  extract_state_path_from_arguments path_expanduser l2.
Proof.
  induction l1 as [|v l1 IH]; intros H; [reflexivity|]. cbn [app extract_state_path_from_arguments].
  destruct (String.eqb_spec v "--schedule-state") as [->|_]; [exfalso; apply H; now left|].
  apply IH. intros H'. apply H. now right.
Qed.

(** The arguments of a scheduled job are the base arguments (those
    [install_*_job] fingerprints) followed by [--schedule-spec] (when the
    spec is non-empty) and [--schedule-state]; and
    [extract_state_path_from_arguments], which the launchd removal applies
    to the stored arguments, finds the state path again, provided neither
    the base arguments nor the spec are the string [--schedule-state]. *)
Theorem build_program_arguments_state_path (args : cli_args float) (spec : option string)
    (p : string) :
  build_program_arguments float float_pos float_str python_executable args spec (Some p) =
    build_program_arguments float float_pos float_str python_executable args None None
    ++ opt_flag "--schedule-spec" spec ++ ["--schedule-state"; p]%string /\
  (~ In "--schedule-state"%string
       (build_program_arguments float float_pos float_str python_executable args None None) ->
   spec <> Some "--schedule-state"%string ->
   extract_state_path_from_arguments path_expanduser
     (build_program_arguments float float_pos float_str python_executable args spec (Some p))
   = Some (path_expanduser p)).
Proof.
  assert (Heq : build_program_arguments float float_pos float_str python_executable args spec (Some p) =
    build_program_arguments float float_pos float_str python_executable args None None
    ++ opt_flag "--schedule-spec" spec ++ ["--schedule-state"; p]%string).
  { unfold build_program_arguments. cbv beta iota zeta.
    change (opt_flag "--schedule-spec" None) with (@nil string).
    rewrite !app_nil_r, <- app_assoc. reflexivity. }
  split; [exact Heq|]. intros Hbase Hspec. rewrite Heq, extract_state_path_app by exact Hbase.
  destruct spec as [s|]; cbn [opt_flag opt_truthy].
  - destruct (negb (String.eqb s "")); cbn [app extract_state_path_from_arguments].
    + replace (String.eqb "--schedule-spec" "--schedule-state") with false by reflexivity.
      destruct (String.eqb_spec s "--schedule-state") as [->|_]; [contradiction|].
      rewrite String.eqb_refl. reflexivity.
    + rewrite String.eqb_refl. reflexivity.
  - cbn [app extract_state_path_from_arguments]. rewrite String.eqb_refl. reflexivity.
Qed.

End ProgramArgumentsProofs.

Lemma build_program_arguments_state_path_witness :
  build_program_arguments Z (fun z => 0 <? z) str_of_Z "python3" example_args
    (Some "0 9 * * 1"%string) (Some "/state/contacts-ab12cd34.json"%string) =
  ["python3"; "-m"; "mailmerge_cli"; "contacts.csv"; "--subject"; "Hello $name"; "--body";
   "body.txt"; "--body-type"; "html"; "--attachment"; "report.pdf"; "--sender";
   "me@example.com"; "--cc"; "boss@example.com"; "--smtp-port"; "465"; "--delay"; "2";
   "--limit"; "10"; "--log-level"; "DEBUG"; "--schedule-spec"; "0 9 * * 1";
   "--schedule-state"; "/state/contacts-ab12cd34.json"]%string /\
  extract_state_path_from_arguments (fun s => s)
    (build_program_arguments Z (fun z => 0 <? z) str_of_Z "python3" example_args
      (Some "0 9 * * 1"%string) (Some "/state/contacts-ab12cd34.json"%string))
  = Some "/state/contacts-ab12cd34.json"%string.
Proof.
  split; [vm_compute; reflexivity|].
  apply (build_program_arguments_state_path Z (fun z => 0 <? z) str_of_Z "python3" (fun s => s)).
  - vm_compute. intros H. repeat (destruct H as [H|H]; [discriminate H|]). exact H.
  - discriminate.
Defined.

(** ** Installing the cron entry *)

(** [if lines and lines[-1].strip(): lines.append("")] *)
Definition pad_blank (lines : list string) : list string :=
  match rev lines with
  | last :: _ => if negb (is_blank last) then (lines ++ [""%string])%list else lines
  | [] => lines
  end.

Lemma prefix_append (a b : string) : String.prefix a (append a b) = true.
Proof.
  induction a as [|c a IH]; [destruct b; reflexivity|]. cbn [append String.prefix].
  destruct (ascii_dec c c) as [_|n]; [exact IH | contradiction].
Qed.

Lemma prefix_append_l (a b s : string) : String.prefix (append a b) s = true -> String.prefix a s = true.
Proof.
  revert s. induction a as [|c a IH]; intros s H; [destruct s; reflexivity|].
  destruct s as [|c' s]; [discriminate|]. cbn [append String.prefix] in *.
  destruct (ascii_dec c c'); [exact (IH s H) | discriminate].
Qed.

Lemma label_line_marker (line label_seed : string) :
  startswith line (cron_comment_label label_seed) = true -> is_marker line = true.
Proof. unfold startswith, cron_comment_label, sp, is_marker. apply prefix_append_l. Qed.

Lemma find_index_none (p : string -> bool) (l : list string) :
  forallb (fun x => negb (p x)) l = true -> find_index p l = None.
Proof.
  induction l as [|x l IH]; intros H; [reflexivity|]. cbn [forallb] in H.
  apply andb_prop in H as [Hx H]. cbn [find_index]. destruct (p x); [discriminate|].
  now rewrite IH.
Qed.

Lemma find_index_app (p : string -> bool) (l r : list string) (x : string) :
  forallb (fun y => negb (p y)) l = true -> p x = true ->
  find_index p (l ++ x :: r) = Some (length l).
Proof.
  induction l as [|y l IH]; intros H Hx; cbn [app find_index]; [now rewrite Hx|].
  cbn [forallb] in H. apply andb_prop in H as [Hy H]. destruct (p y); [discriminate|].
  now rewrite IH.
Qed.

Lemma find_index_some (p : string -> bool) (l : list string) :
  (exists x, In x l /\ p x = true) -> exists i, find_index p l = Some i.
Proof.
  induction l as [|y l IH]; intros [x [Hx Hp]]; [destruct Hx|]. cbn [find_index].
  destruct (p y) eqn:Hy; [eexists; reflexivity|].
  destruct Hx as [->|Hx]; [congruence|].
  destruct (IH (ex_intro _ x (conj Hx Hp))) as [i Hi]. rewrite Hi. eexists; reflexivity.
Qed.

Lemma pad_blank_cases (lines : list string) :
  (lines = [] /\ pad_blank lines = []) \/
  (exists l x, lines = (l ++ [x])%list /\ is_blank x = false /\ pad_blank lines = (lines ++ [""%string])%list) \/
  (exists l x, lines = (l ++ [x])%list /\ is_blank x = true /\ pad_blank lines = lines).
Proof.
  unfold pad_blank. destruct (rev lines) as [|x r] eqn:E.
  - left. apply (f_equal (@rev _)) in E. rewrite rev_involutive in E. now subst.
  - apply (f_equal (@rev _)) in E. rewrite rev_involutive in E. cbn [rev] in E.
    right. destruct (is_blank x) eqn:Hx; [right | left]; exists (rev r), x; auto.
Qed.

Lemma is_blank_empty : is_blank ""%string = true.
Proof. reflexivity. Qed.

Lemma pad_blank_idem (lines : list string) : pad_blank (pad_blank lines) = pad_blank lines.
Proof.
  destruct (pad_blank_cases lines) as [[_ ->]|[[l [x [_ [_ ->]]]]|[l [x [-> [Hx Hp]]]]]].
  - reflexivity.
  - unfold pad_blank at 1. rewrite rev_app_distr. cbn [rev app]. reflexivity.
  - rewrite Hp. unfold pad_blank. rewrite rev_app_distr. cbn [rev app]. now rewrite Hx.
Qed.

Lemma drop_trailing_blank_snoc (l : list string) (x : string) :
  is_blank x = true -> drop_trailing_blank (l ++ [x])%list = drop_trailing_blank l.
Proof.
  intros Hx. unfold drop_trailing_blank. rewrite rev_app_distr. cbn [rev app drop_blank_prefix].
  now rewrite Hx.
Qed.

Lemma pad_blank_pop (lines : list string) :
  drop_trailing_blank (pop_blank (pad_blank lines)) = drop_trailing_blank lines.
Proof.
  unfold pop_blank.
  destruct (pad_blank_cases lines) as [[-> ->]|[[l [x [-> [Hx ->]]]]|[l [x [-> [Hx ->]]]]]].
  - reflexivity.
  - rewrite rev_app_distr. cbn [rev app]. rewrite is_blank_empty, removelast_last. reflexivity.
  - rewrite rev_app_distr. cbn [rev app]. rewrite Hx, removelast_last.
    symmetry. now apply drop_trailing_blank_snoc.
Qed.

Lemma pad_blank_forallb (f : string -> bool) (lines : list string) :
  forallb f lines = true -> f ""%string = true -> forallb f (pad_blank lines) = true.
Proof.
  intros H He.
  destruct (pad_blank_cases lines) as [[_ ->]|[[l [x [_ [_ ->]]]]|[l [x [_ [_ ->]]]]]];
    [reflexivity | | exact H].
  rewrite forallb_app, H. cbn. now rewrite He.
Qed.

Lemma install_cron_lines_none (lines : list string) (label_seed fingerprint cron_spec command : string)
    (overwrite : bool) :
  find_index (fun line => startswith line (cron_comment_label label_seed)) lines = None ->
  install_cron_lines lines label_seed fingerprint cron_spec command overwrite =
  Ok (pad_blank lines ++ [append (cron_comment_label label_seed)
                            (append " (" (append fingerprint ")")); sp cron_spec command])%list.
Proof. intros H. unfold install_cron_lines. now rewrite H. Qed.

Lemma remove_loop_io_app_plain {fs : Type} (rms : fs -> string -> string -> result fs)
    (st : fs) (l rest acc : list string) (n : nat) :
  forallb (fun x => negb (is_marker x)) l = true ->
  remove_loop_io rms st (l ++ rest) acc n = remove_loop_io rms st rest (acc ++ l) n.
Proof.
  revert acc. induction l as [|x l IH]; intros acc H; [now rewrite app_nil_r|].
  cbn [forallb] in H. apply andb_prop in H as [Hx H].
  cbn [app remove_loop_io]. destruct (is_marker x); [discriminate|].
  rewrite IH by exact H. now rewrite <- app_assoc.
Qed.

Lemma remove_after_plain {fs : Type} (rms : fs -> string -> string -> result fs)
    (st : fs) (l : list string) (m c : string) :
  forallb (fun x => negb (is_marker x)) l = true -> is_marker m = true ->
  remove_mailmerge_cron_jobs rms st (l ++ [m; c])%list =
  match rms st m c with
  | Ok st' => Ok (st', (1%nat, Some (drop_trailing_blank (pop_blank l))))
  | Err e => Err e
  end.
Proof.
  intros Hl Hm. unfold remove_mailmerge_cron_jobs.
  assert (Hr : remove_loop_io rms st (l ++ [m; c]) [] 0
               = match rms st m c with
                 | Ok st' => Ok (st', (pop_blank l, 1%nat))
                 | Err e => Err e
                 end).
  { rewrite remove_loop_io_app_plain by exact Hl. cbn [app remove_loop_io]. rewrite Hm.
    destruct (rms st m c); reflexivity. }
  destruct (l ++ [m; c])%list as [|x y] eqn:E; [destruct l; discriminate|].
  rewrite Hr. destruct (rms st m c); reflexivity.
Qed.

(** On a crontab without mailmerge entries, [install_cron_job]'s edit
    succeeds, and [remove_mailmerge_cron_jobs] on the result removes the
    state file of the one entry; when that returns, it removes exactly that
    entry and writes back the original crontab without its trailing blank
    lines, and otherwise it raises the same exception and writes nothing. *)
Theorem install_cron_lines_then_remove (lines : list string)
    (label_seed fingerprint cron_spec command : string) (overwrite : bool) :
  forallb (fun l => negb (is_marker l)) lines = true ->
  exists out, install_cron_lines lines label_seed fingerprint cron_spec command overwrite = Ok out /\
    remove_cron_lines out = (1%nat, Some (drop_trailing_blank lines)) /\
    (forall (fs : Type) (rms : fs -> string -> string -> result fs) (st : fs),
       remove_mailmerge_cron_jobs rms st out =
       match rms st (append (cron_comment_label label_seed) (append " (" (append fingerprint ")")))
                 (sp cron_spec command) with
       | Ok st' => Ok (st', (1%nat, Some (drop_trailing_blank lines)))
       | Err e => Err e
       end).
Proof.
  intros H. rewrite install_cron_lines_none.
  2: { apply find_index_none. apply forallb_forall. intros x Hx.
       destruct (startswith x (cron_comment_label label_seed)) eqn:Hs; [|reflexivity].
       rewrite forallb_forall in H. specialize (H x Hx).
       rewrite (label_line_marker _ _ Hs) in H. discriminate. }
  assert (Hp : forallb (fun x => negb (is_marker x)) (pad_blank lines) = true)
    by (apply pad_blank_forallb; [exact H | reflexivity]).
  assert (Hm : is_marker (append (cron_comment_label label_seed)
                                 (append " (" (append fingerprint ")"))) = true).
  { unfold is_marker, startswith. apply (prefix_append_l _ (String " " label_seed)).
    unfold cron_comment_label, sp. apply prefix_append. }
  eexists. split; [reflexivity|]. split.
  - pose proof (remove_after_plain (fun (st : unit) _ _ => Ok st) tt _ _ (sp cron_spec command) Hp Hm)
      as Hr.
    apply remove_jobs_ok in Hr. rewrite <- Hr. now rewrite pad_blank_pop.
  - intros fs rms st. rewrite remove_after_plain by assumption.
    now rewrite pad_blank_pop.
Qed.

Lemma install_cron_lines_then_remove_witness :
  install_cron_lines ["MAILTO=me"; "5 4 * * * backup"]%string "contacts" "ab12cd34" "0 9 * * 1"
    "python3 -m mailmerge_cli contacts.csv" false =
  Ok ["MAILTO=me"; "5 4 * * * backup"; ""; "# mailmerge schedule: contacts (ab12cd34)";
      "0 9 * * 1 python3 -m mailmerge_cli contacts.csv"]%string /\
  exists out, install_cron_lines ["MAILTO=me"; "5 4 * * * backup"]%string "contacts" "ab12cd34"
      "0 9 * * 1" "python3 -m mailmerge_cli contacts.csv" false = Ok out /\
    remove_cron_lines out = (1%nat, Some (drop_trailing_blank ["MAILTO=me"; "5 4 * * * backup"]%string)) /\
    (forall (fs : Type) (rms : fs -> string -> string -> result fs) (st : fs),
       remove_mailmerge_cron_jobs rms st out =
       match rms st (append (cron_comment_label "contacts") (append " (" (append "ab12cd34" ")")))
                 (sp "0 9 * * 1" "python3 -m mailmerge_cli contacts.csv") with
       | Ok st' => Ok (st', (1%nat, Some (drop_trailing_blank ["MAILTO=me"; "5 4 * * * backup"]%string)))
       | Err e => Err e
       end).
Proof.
  split; [vm_compute; reflexivity|].
  apply install_cron_lines_then_remove. vm_compute. reflexivity.
Defined.

(** Without [--schedule-overwrite], [install_cron_job] refuses to install
    as soon as some crontab line starts with
    ["# mailmerge schedule: <label>"], also when that line belongs to
    another label that extends this one. *)
Theorem install_cron_lines_existing (lines : list string)
    (label_seed fingerprint cron_spec command : string) :
  (exists line, In line lines /\ startswith line (cron_comment_label label_seed) = true) ->
  install_cron_lines lines label_seed fingerprint cron_spec command false =
  Err (RuntimeError (append "Cron entry already exists for label '"
         (append label_seed "'. Re-run with --schedule-overwrite to replace it."))).
Proof.
  intros H. destruct (find_index_some _ _ H) as [i Hi].
  unfold install_cron_lines. rewrite Hi. reflexivity.
Qed.

Lemma install_cron_lines_existing_witness :
  install_cron_lines ["# mailmerge schedule: foo-bar (12345678)"; "0 9 * * * run-foo-bar"]%string
    "foo" "ab12cd34" "0 8 * * *" "run-foo" false =
  Err (RuntimeError (append "Cron entry already exists for label '"
         (append "foo" "'. Re-run with --schedule-overwrite to replace it."))).
Proof.
  apply install_cron_lines_existing. exists "# mailmerge schedule: foo-bar (12345678)"%string.
  split; [now left | vm_compute; reflexivity].
Defined.

Lemma firstn_length_app (l r : list string) : firstn (length l) (l ++ r) = l.
Proof. induction l as [|x l IH]; [reflexivity | cbn; now rewrite IH]. Qed.

Lemma skipn_length_app (l r : list string) : skipn (length l) (l ++ r) = r.
Proof. induction l as [|x l IH]; [reflexivity | exact IH]. Qed.

(** Installing the same entry again with [--schedule-overwrite] leaves the
    crontab as the first install wrote it, when no line of the original
    crontab starts with the entry's comment label. *)
Theorem install_cron_lines_reinstall (lines out : list string)
    (label_seed fingerprint cron_spec command : string) (overwrite : bool) :
  forallb (fun l => negb (startswith l (cron_comment_label label_seed))) lines = true ->
  install_cron_lines lines label_seed fingerprint cron_spec command overwrite = Ok out ->
  install_cron_lines out label_seed fingerprint cron_spec command true = Ok out.
Proof.
  intros H Hout. rewrite install_cron_lines_none in Hout by (apply find_index_none; exact H).
  assert (Ho : out = (pad_blank lines ++ [append (cron_comment_label label_seed)
                        (append " (" (append fingerprint ")")); sp cron_spec command])%list)
    by congruence.
  subst out.
  set (P := pad_blank lines).
  set (cl := append (cron_comment_label label_seed) (append " (" (append fingerprint ")"))).
  assert (HP : forallb (fun l => negb (startswith l (cron_comment_label label_seed))) P = true)
    by (apply pad_blank_forallb; [exact H | reflexivity]).
  assert (Hcl : startswith cl (cron_comment_label label_seed) = true)
    by (unfold cl, startswith; apply prefix_append).
  unfold install_cron_lines. fold cl.
  rewrite (find_index_app (fun line => startswith line (cron_comment_label label_seed)) P
             [sp cron_spec command] cl HP Hcl).
  cbv beta iota zeta.
  assert (Hd1 : del_at (length P) (P ++ [cl; sp cron_spec command]) = (P ++ [sp cron_spec command])%list).
  { unfold del_at. rewrite firstn_length_app. change [cl; sp cron_spec command] with ([cl] ++ [sp cron_spec command])%list.
    rewrite app_assoc. replace (S (length P)) with (length (P ++ [cl])) by (rewrite length_app; simpl; lia).
    now rewrite skipn_length_app. }
  rewrite Hd1.
  replace (Nat.ltb (length P) (length (P ++ [sp cron_spec command])))
    with true by (symmetry; apply Nat.ltb_lt; rewrite length_app; simpl; lia).
  assert (Hd2 : del_at (length P) (P ++ [sp cron_spec command]) = P).
  { unfold del_at. rewrite firstn_length_app.
    replace (S (length P)) with (length (P ++ [sp cron_spec command])) by (rewrite length_app; simpl; lia).
    rewrite skipn_all. apply app_nil_r. }
  rewrite Hd2.
  assert (Hs : skipn (length P) P = []) by apply skipn_all.
  rewrite Hs. cbn [drop_blank_prefix]. rewrite app_nil_r, firstn_all.
  change (Ok (pad_blank P ++ [cl; sp cron_spec command])%list = Ok (P ++ [cl; sp cron_spec command])%list).
  unfold P. now rewrite pad_blank_idem.
Qed.

Lemma install_cron_lines_reinstall_witness :
  install_cron_lines ["MAILTO=me"; "5 4 * * * backup"; ""; "# mailmerge schedule: contacts (ab12cd34)";
      "0 9 * * 1 python3 -m mailmerge_cli contacts.csv"]%string "contacts" "ab12cd34" "0 9 * * 1"
    "python3 -m mailmerge_cli contacts.csv" true =
  Ok ["MAILTO=me"; "5 4 * * * backup"; ""; "# mailmerge schedule: contacts (ab12cd34)";
      "0 9 * * 1 python3 -m mailmerge_cli contacts.csv"]%string.
Proof.
  apply (install_cron_lines_reinstall ["MAILTO=me"; "5 4 * * * backup"]%string _
           "contacts" "ab12cd34" "0 9 * * 1" "python3 -m mailmerge_cli contacts.csv" false).
  - vm_compute. reflexivity.
  - vm_compute. reflexivity.
Defined.

(** ** Crontab text *)

Lemma splitlines_go_chars (a tail cur : list ascii) :
  forallb (fun c => negb (is_line_break c)) a = true ->
  splitlines_go (a ++ tail) cur = splitlines_go tail (rev a ++ cur).
Proof.
  revert cur. induction a as [|c a IH]; intros cur H; [reflexivity|].
  cbn [forallb] in H. apply andb_prop in H as [Hc H]. apply negb_true_iff in Hc.
  cbn [app splitlines_go]. rewrite Hc, IH by exact H. cbn [rev]. now rewrite <- app_assoc.
Qed.

Lemma concat_nl_cons2 (a b : string) (l : list string) :
  list_ascii_of_string (String.concat NL (a :: b :: l)) =
  (list_ascii_of_string a ++ "010"%char :: list_ascii_of_string (String.concat NL (b :: l)))%list.
Proof.
  change (String.concat NL (a :: b :: l)) with (append a (append NL (String.concat NL (b :: l)))).
  now rewrite !list_ascii_of_string_append.
Qed.

Lemma splitlines_go_nl (t cur : list ascii) :
  splitlines_go ("010"%char :: t) cur = string_of_list_ascii (rev cur) :: splitlines_go t [].
Proof. reflexivity. Qed.

(** [(("\n".join(l)) + "\n").splitlines() == l] for a non-empty [l] of
    lines without line boundaries. *)
Lemma splitlines_join (l : list string) :
  l <> [] ->
  Forall (fun x => forallb (fun c => negb (is_line_break c)) (list_ascii_of_string x) = true) l ->
  splitlines_go (list_ascii_of_string (String.concat NL l) ++ ["010"%char]) [] = l.
Proof.
  induction l as [|a [|b l] IH]; intros Hne H; [contradiction| |].
  - inversion H as [|? ? Ha _]; subst. cbn [String.concat].
    rewrite splitlines_go_chars by exact Ha. rewrite splitlines_go_nl.
    rewrite app_nil_r, rev_involutive, string_of_list_ascii_of_string. reflexivity.
  - inversion H as [|? ? Ha Hl]; subst. rewrite concat_nl_cons2, <- app_assoc.
    cbn [app]. rewrite splitlines_go_chars by exact Ha. rewrite splitlines_go_nl.
    rewrite app_nil_r, rev_involutive, string_of_list_ascii_of_string.
    f_equal. apply IH; [discriminate | exact Hl].
Qed.

Lemma concat_snoc (sep x : string) (l : list string) :
  String.concat sep (l ++ [x])%list =
  match l with [] => x | _ => append (String.concat sep l) (append sep x) end.
Proof.
  induction l as [|a [|b l] IH]; [reflexivity | reflexivity|].
  change (String.concat sep ((a :: b :: l) ++ [x])%list)
    with (append a (append sep (String.concat sep ((b :: l) ++ [x])%list))).
  rewrite IH. change (String.concat sep (a :: b :: l))
    with (append a (append sep (String.concat sep (b :: l)))).
  now rewrite !append_assoc_str.
Qed.

Lemma rstrip_nl_snoc (s : string) :
  rstrip_chars NL (append s NL) = rstrip_chars NL s.
Proof.
  unfold rstrip_chars. rewrite list_ascii_of_string_append, rev_app_distr. reflexivity.
Qed.

Lemma rstrip_nl_id (s x : string) :
  x <> ""%string -> forallb (fun c => negb (is_line_break c)) (list_ascii_of_string x) = true ->
  rstrip_chars NL (append s x) = append s x.
Proof.
  intros Hx Hb. unfold rstrip_chars. rewrite list_ascii_of_string_append, rev_app_distr.
  destruct (rev (list_ascii_of_string x)) as [|c r] eqn:E.
  - exfalso. apply Hx. destruct x; [reflexivity|]. cbn in E.
    apply (f_equal (@length _)) in E. rewrite length_app in E. simpl in E. lia.
  - assert (Hc : is_line_break c = false).
    { rewrite forallb_forall in Hb.
      assert (Hin : In c (list_ascii_of_string x)) by (apply in_rev; rewrite E; now left).
      specialize (Hb c Hin). now apply negb_true_iff in Hb. }
    cbn [app lstrip_chars].
    assert (Hne : existsb (Ascii.eqb c) (list_ascii_of_string NL) = false).
    { cbn. destruct (Ascii.eqb_spec c "010") as [->|]; [discriminate Hc | reflexivity]. }
    rewrite Hne, app_comm_cons, <- E, <- rev_app_distr, rev_involutive.
    rewrite <- list_ascii_of_string_append. apply string_of_list_ascii_of_string.
Qed.

Lemma drop_trailing_empty_snoc (l : list string) (x : string) :
  drop_trailing_empty (l ++ [x])%list =
  if String.eqb x "" then drop_trailing_empty l else (l ++ [x])%list.
Proof.
  unfold drop_trailing_empty. rewrite rev_app_distr. cbn [rev app drop_empty_prefix].
  destruct (String.eqb x ""); [reflexivity|]. cbn [rev]. now rewrite rev_involutive.
Qed.

Lemma rstrip_concat (l : list string) :
  Forall (fun x => forallb (fun c => negb (is_line_break c)) (list_ascii_of_string x) = true) l ->
  rstrip_chars NL (String.concat NL l) = String.concat NL (drop_trailing_empty l).
Proof.
  induction l as [|x l IH] using rev_ind; intros H; [reflexivity|].
  apply Forall_app in H as [Hl Hx]. inversion Hx as [|? ? Hx' _]; subst.
  rewrite drop_trailing_empty_snoc, concat_snoc.
  destruct (String.eqb_spec x "") as [->|Hne].
  - destruct l as [|a l]; [reflexivity|].
    rewrite append_empty_r, rstrip_nl_snoc. exact (IH Hl).
  - destruct l as [|a l].
    + exact (rstrip_nl_id "" x Hne Hx').
    + rewrite <- append_assoc_str, (rstrip_nl_id _ x Hne Hx').
      rewrite concat_snoc, append_assoc_str. reflexivity.
Qed.

Lemma drop_trailing_empty_in (l : list string) (x : string) :
  In x (drop_trailing_empty l) -> In x l.
Proof.
  unfold drop_trailing_empty. intros H. apply in_rev in H. apply in_rev.
  induction (rev l) as [|y r IH]; [exact H|]. cbn [drop_empty_prefix] in H.
  destruct (String.eqb y ""); [right; exact (IH H) | exact H].
Qed.

(** What [write_crontab_lines] writes, read back by [read_crontab_lines]'s
    [splitlines], is the lines written without their trailing empty lines,
    or a single empty line when nothing else is left; provided no line
    contains a line boundary. *)
Theorem crontab_content_splitlines (lines : list string) :
  Forall (fun x => forallb (fun c => negb (is_line_break c)) (list_ascii_of_string x) = true) lines ->
  splitlines (crontab_content lines) =
  match drop_trailing_empty lines with [] => [""%string] | l => l end.
Proof.
  intros H. unfold crontab_content, splitlines. rewrite rstrip_concat by exact H.
  assert (H' : Forall (fun x => forallb (fun c => negb (is_line_break c)) (list_ascii_of_string x) = true)
                 (drop_trailing_empty lines)).
  { rewrite Forall_forall in *. intros x Hx. apply H. exact (drop_trailing_empty_in _ _ Hx). }
  destruct (drop_trailing_empty lines) as [|a l] eqn:E; [reflexivity|].
  rewrite list_ascii_of_string_append. apply splitlines_join; [discriminate | exact H'].
Qed.

Lemma crontab_content_splitlines_witness :
  crontab_content ["MAILTO=me"; ""; "5 4 * * * backup"; ""; ""]%string
    = String.concat NL ["MAILTO=me"; ""; "5 4 * * * backup"; ""]%string /\
  splitlines (crontab_content ["MAILTO=me"; ""; "5 4 * * * backup"; ""; ""]%string)
    = ["MAILTO=me"; ""; "5 4 * * * backup"]%string /\
  splitlines (crontab_content []) = [""%string].
Proof.
  split; [vm_compute; reflexivity|]. split.
  - apply (crontab_content_splitlines ["MAILTO=me"; ""; "5 4 * * * backup"; ""; ""]%string).
    repeat constructor.
  - apply (crontab_content_splitlines []). constructor.
Defined.
